(** * Candor: anonymous workplace-issue reporting

    A shallow embedding of the data-access hook [useIssues]
    (src/hooks/useIssues.ts), of the pages that call it (ReportIssue,
    TrackIssue, Dashboard, Auth) and of the schema, trigger and row-level
    policies of the migrations, followed by the properties of the
    specification that concern them.

    Conventions of the embedding.
    - The remote store is an explicit value [Db.t]; every remote call is a
      function of that value.  What the store cannot decide by itself (a
      transport failure, the fresh primary key, the time that has passed, the
      random token) is an argument of the operation that makes the call.
    - Timestamps (timestamptz columns, ISO strings on the client) are
      integers, larger meaning later.
    - JavaScript strings are [string], with a character beyond 127 as the
      bytes of its UTF-8 encoding; the lengths of the schemas and the lower
      case of [toLowerCase] are those of JavaScript on text in the characters
      0 to 127.  JSONB values and [any] are [Json].
    - Keys (uuid columns) are strings, compared as the store holds them; what
      the store answers to a key that is not the text of a uuid is not
      modelled.
    - The asynchronous operations of the hook run one after the other; an
      operation is a computation in the monad [M] over [World], which holds
      the store, the session, the React state of the hook, the toasts, the
      console and the browser's local storage. *)

From Stdlib Require Import ZArith List String Ascii Bool Lia Sorted.
From stdpp Require Import base gmap strings.
Import ListNotations.
Open Scope string_scope.
Open Scope list_scope.

(** ** JSON values and the JavaScript tests the hook applies to them *)

#[local] Set Warnings "-register-all".

Inductive Json : Type :=
| JNull
| JBool (b : bool)
| JNum (n : Z)
| JStr (s : string)
| JArr (items : list Json)
| JObj (fields : list (string * Json)).

(** [Array.isArray(v)] *)
Definition Array_isArray (v : Json) : bool :=
  match v with JArr _ => true | _ => false end.

(** Truthiness, as used by [item.metadata || {}]. *)
Definition truthy (v : Json) : bool :=
  match v with
  | JNull => false
  | JBool b => b
  | JNum n => negb (n =? 0)%Z
  | JStr s => negb (s =? EmptyString)
  | JArr _ | JObj _ => true
  end.

(** [typeof v === 'object'] (true of null, arrays and objects). *)
Definition typeof_object (v : Json) : bool :=
  match v with
  | JNull | JArr _ | JObj _ => true
  | JBool _ | JNum _ | JStr _ => false
  end.

(** ** Data model (types/database.ts and the CREATE TABLE statements) *)

Module Department.
Record t := mk {
  id : string;
  name : string;
  description : option string;
  created_at : Z }.
End Department.

Module IssueCategory.
Record t := mk {
  id : string;
  name : string;
  description : option string;
  color : string;
  icon : string;
  created_at : Z }.
End IssueCategory.

Module Profile.
Record t := mk {
  id : string;
  user_id : string;
  email : string;
  role : string;
  display_name : option string;
  first_name : option string;
  last_name : option string;
  department_id : option string;
  manager_id : option string;
  company : option string;
  job_title : option string;
  phone : option string;
  avatar_url : option string;
  created_at : Z;
  updated_at : Z }.
End Profile.

Module IssueUpdate.
Record t := mk {
  id : string;
  issue_id : string;
  update_type : string;
  content : string;
  old_status : option string;
  new_status : option string;
  created_by : option string;
  is_public : bool;
  created_at : Z }.
End IssueUpdate.

Module AnonymousToken.
Record t := mk {
  id : string;
  token : string;
  issue_id : string;
  expires_at : Z;
  created_at : Z }.
End AnonymousToken.

(** A row of the table [issues]. *)
Module IssueRow.
Record t := mk {
  id : string;
  title : string;
  description : string;
  category_id : option string;
  department_id : option string;
  severity : string;
  status : string;
  anonymous_token : string;
  reporter_id : option string;
  assigned_to : option string;
  location : option string;
  attachments : Json;
  metadata : Json;
  created_at : Z;
  updated_at : Z;
  resolved_at : option Z }.
End IssueRow.

(** [Issue] / [DatabaseIssue]: a row together with the joined data a select
    asked for.  [assigned_user] and [updates] are [None] when the select did
    not ask for them (or, for [assigned_user], when there is none). *)
Module Issue.
Record t := mk {
  row : IssueRow.t;
  category : option IssueCategory.t;
  department : option Department.t;
  assigned_user : option Profile.t;
  updates : option (list IssueUpdate.t) }.

Definition id (i : t) := IssueRow.id (row i).
Definition title (i : t) := IssueRow.title (row i).
Definition description (i : t) := IssueRow.description (row i).
Definition category_id (i : t) := IssueRow.category_id (row i).
Definition severity (i : t) := IssueRow.severity (row i).
Definition status (i : t) := IssueRow.status (row i).
Definition anonymous_token (i : t) := IssueRow.anonymous_token (row i).
Definition reporter_id (i : t) := IssueRow.reporter_id (row i).
Definition created_at (i : t) := IssueRow.created_at (row i).
End Issue.

(** [Partial<Issue>], restricted to the columns of the table: the argument
    of [createIssue] and the patch of [updateIssue].  [None] is an absent
    key. *)
Module PartialIssue.
Record t := mk {
  id : option string;
  title : option string;
  description : option string;
  category_id : option string;
  department_id : option string;
  severity : option string;
  status : option string;
  anonymous_token : option string;
  reporter_id : option string;
  assigned_to : option string;
  location : option string;
  attachments : option Json;
  metadata : option Json;
  created_at : option Z;
  updated_at : option Z;
  resolved_at : option Z }.

Definition empty : t :=
  mk None None None None None None None None None None None None None None
     None None.
End PartialIssue.

(** The object [insertData] that [createIssue] sends. *)
Module InsertData.
Record t := mk {
  title : option string;
  description : option string;
  category_id : option string;
  department_id : option string;
  severity : option string;
  location : option string;
  anonymous_token : string }.
End InsertData.

(** ** The remote store *)

Module Db.
Record t := mk {
  departments : list Department.t;
  issue_categories : list IssueCategory.t;
  issues : list IssueRow.t;
  issue_updates : list IssueUpdate.t;
  anonymous_tokens : list AnonymousToken.t;
  profiles : list Profile.t;
  clock : Z }.

Definition with_issues (l : list IssueRow.t) (now : Z) (d : t) : t :=
  mk (departments d) (issue_categories d) l (issue_updates d)
     (anonymous_tokens d) (profiles d) now.

Definition with_profiles (l : list Profile.t) (d : t) : t :=
  mk (departments d) (issue_categories d) (issues d) (issue_updates d)
     (anonymous_tokens d) l (clock d).

Definition with_anonymous_tokens (l : list AnonymousToken.t) (d : t) : t :=
  mk (departments d) (issue_categories d) (issues d) (issue_updates d)
     l (profiles d) (clock d).
End Db.

(** The error object of a failed remote call (PostgrestError). *)
Record PgError := mkError { message : string; code : string }.

(** The result [{ data, error }] of a remote call: exactly one of the two is
    set. *)
Inductive Response (A : Type) : Type :=
| Success (data : A)
| Failure (error : PgError).
Arguments Success {A} data.
Arguments Failure {A} error.

Definition not_null_violation (column : string) : PgError :=
  mkError ("null value in column " +:+ column +:+ " violates not-null constraint") "23502".
Definition check_violation (constraint : string) : PgError :=
  mkError ("new row violates check constraint " +:+ constraint) "23514".
Definition unique_violation (constraint : string) : PgError :=
  mkError ("duplicate key value violates unique constraint " +:+ constraint) "23505".
Definition foreign_key_violation (constraint : string) : PgError :=
  mkError ("insert or update violates foreign key constraint " +:+ constraint) "23503".
(** What [.single()] answers when the result is not exactly one row. *)
Definition not_single_row : PgError :=
  mkError "JSON object requested, multiple (or no) rows returned" "PGRST116".

Definition one_of (allowed : list string) (s : string) : bool :=
  existsb (String.eqb s) allowed.

(** CHECK (severity IN ('low', 'medium', 'high', 'critical')) *)
Definition severity_check : string -> bool :=
  one_of ["low"; "medium"; "high"; "critical"].
(** CHECK (status IN ('open', 'in_progress', 'resolved', 'closed')) *)
Definition status_check : string -> bool :=
  one_of ["open"; "in_progress"; "resolved"; "closed"].

Definition find_category (db : Db.t) (cid : string) : option IssueCategory.t :=
  find (fun c => IssueCategory.id c =? cid) (Db.issue_categories db).
Definition find_department (db : Db.t) (did : string) : option Department.t :=
  find (fun d => Department.id d =? did) (Db.departments db).
Definition find_profile (db : Db.t) (uid : string) : option Profile.t :=
  find (fun p => Profile.user_id p =? uid) (Db.profiles db).

(** A nullable reference is satisfied when it is null or finds its target. *)
Definition references {A} (lookup : string -> option A) (key : option string) : bool :=
  match key with
  | None => true
  | Some k => match lookup k with Some _ => true | None => false end
  end.

(** The constraints of the table [issues] on a row that is about to be
    stored among [others]. *)
Definition issues_constraints (db : Db.t) (others : list IssueRow.t)
    (r : IssueRow.t) : option PgError :=
  if negb (severity_check (IssueRow.severity r)) then
    Some (check_violation "issues_severity_check")
  else if negb (status_check (IssueRow.status r)) then
    Some (check_violation "issues_status_check")
  else if existsb (fun o => IssueRow.id o =? IssueRow.id r) others then
    Some (unique_violation "issues_pkey")
  else if existsb (fun o => IssueRow.anonymous_token o =? IssueRow.anonymous_token r) others then
    Some (unique_violation "issues_anonymous_token_key")
  else if negb (references (find_category db) (IssueRow.category_id r)) then
    Some (foreign_key_violation "issues_category_id_fkey")
  else if negb (references (find_department db) (IssueRow.department_id r)) then
    Some (foreign_key_violation "issues_department_id_fkey")
  else if negb (references (find_profile db) (IssueRow.assigned_to r)) then
    Some (foreign_key_violation "issues_assigned_to_fkey")
  else None.

(** *** Queries

    [ORDER BY]: insertion into an already ordered list; [le a b] says that
    [a] may come before [b].  Rows that compare equal keep the order in which
    they are stored. *)
Fixpoint insert_by {A} (le : A -> A -> bool) (x : A) (l : list A) : list A :=
  match l with
  | [] => [x]
  | y :: l' => if le x y then x :: l else y :: insert_by le x l'
  end.

Definition order_by {A} (le : A -> A -> bool) (l : list A) : list A :=
  fold_right (insert_by le) [] l.

(** [.order('created_at', { ascending: false })] *)
Definition newest_first (a b : IssueRow.t) : bool :=
  (IssueRow.created_at b <=? IssueRow.created_at a)%Z.

(** The embedded resources of a select.  The policy on [issue_updates]
    shows only the public ones. *)
Definition category_of (db : Db.t) (r : IssueRow.t) : option IssueCategory.t :=
  match IssueRow.category_id r with
  | Some c => find_category db c
  | None => None
  end.
Definition department_of (db : Db.t) (r : IssueRow.t) : option Department.t :=
  match IssueRow.department_id r with
  | Some d => find_department db d
  | None => None
  end.
Definition assigned_user_of (db : Db.t) (r : IssueRow.t) : option Profile.t :=
  match IssueRow.assigned_to r with
  | Some u => find_profile db u
  | None => None
  end.
Definition updates_of (db : Db.t) (r : IssueRow.t) : list IssueUpdate.t :=
  List.filter (fun u => (IssueUpdate.issue_id u =? IssueRow.id r) && IssueUpdate.is_public u)
         (Db.issue_updates db).

(** The select of [fetchIssues] and [updateIssue]: every column, with the
    embedded category, department and assignee profile. *)
Definition with_assignee (db : Db.t) (r : IssueRow.t) : Issue.t :=
  Issue.mk r (category_of db r) (department_of db r) (assigned_user_of db r) None.
(** The select of [createIssue]: every column, with the embedded category
    and department. *)
Definition with_lookups (db : Db.t) (r : IssueRow.t) : Issue.t :=
  Issue.mk r (category_of db r) (department_of db r) None None.
(** The select of [trackIssueByToken]: every column, with the embedded
    category, department and issue updates. *)
Definition with_updates (db : Db.t) (r : IssueRow.t) : Issue.t :=
  Issue.mk r (category_of db r) (department_of db r) None (Some (updates_of db r)).

(** What a remote call depends on besides the store: [net] is the failure
    of the transport or of the server, if there is one; a write also draws a
    primary key and happens [elapsed] time units after the last write. *)
Definition Net := option PgError.

Record WriteEnv := mkWriteEnv {
  net : Net;
  uuid : string;
  elapsed : N }.

Definition select_issues (n : Net) (db : Db.t) : Response (list Issue.t) :=
  match n with
  | Some e => Failure e
  | None => Success (map (with_assignee db) (order_by newest_first (Db.issues db)))
  end.

Definition select_categories (n : Net) (db : Db.t) : Response (list IssueCategory.t) :=
  match n with
  | Some e => Failure e
  | None =>
      Success (order_by (fun a b => String.leb (IssueCategory.name a) (IssueCategory.name b))
                        (Db.issue_categories db))
  end.

Definition select_departments (n : Net) (db : Db.t) : Response (list Department.t) :=
  match n with
  | Some e => Failure e
  | None =>
      Success (order_by (fun a b => String.leb (Department.name a) (Department.name b))
                        (Db.departments db))
  end.

(** from('issues').select(...).eq('anonymous_token', token).single() *)
Definition select_issue_by_token (token : string) (n : Net) (db : Db.t)
    : Response Issue.t :=
  match n with
  | Some e => Failure e
  | None =>
      match List.filter (fun r => IssueRow.anonymous_token r =? token) (Db.issues db) with
      | [r] => Success (with_updates db r)
      | _ => Failure not_single_row
      end
  end.

(** *** Insert

    The row built from [insertData] and the column defaults. *)
Definition new_row (ins : InsertData.t) (title description severity : string)
    (uuid : string) (now : Z) : IssueRow.t :=
  {| IssueRow.id := uuid;
     IssueRow.title := title;
     IssueRow.description := description;
     IssueRow.category_id := InsertData.category_id ins;
     IssueRow.department_id := InsertData.department_id ins;
     IssueRow.severity := severity;
     IssueRow.status := "open";
     IssueRow.anonymous_token := InsertData.anonymous_token ins;
     IssueRow.reporter_id := None;
     IssueRow.assigned_to := None;
     IssueRow.location := InsertData.location ins;
     IssueRow.attachments := JArr [];
     IssueRow.metadata := JObj [];
     IssueRow.created_at := now;
     IssueRow.updated_at := now;
     IssueRow.resolved_at := None |}.

(** from('issues').insert([insertData]).select(...).single().  The policy
    "Anyone can create issues" lets every caller through. *)
Definition insert_issue (ins : InsertData.t) (env : WriteEnv) (db : Db.t)
    : Response Issue.t * Db.t :=
  match net env with
  | Some e => (Failure e, db)
  | None =>
      match InsertData.title ins, InsertData.description ins, InsertData.severity ins with
      | None, _, _ => (Failure (not_null_violation "title"), db)
      | Some _, None, _ => (Failure (not_null_violation "description"), db)
      | Some _, Some _, None => (Failure (not_null_violation "severity"), db)
      | Some t, Some d, Some s =>
          let now := (Db.clock db + Z.of_N (elapsed env))%Z in
          let r := new_row ins t d s (uuid env) now in
          match issues_constraints db (Db.issues db) r with
          | Some e => (Failure e, db)
          | None =>
              let db' := Db.with_issues (Db.issues db ++ [r]) now db in
              (Success (with_lookups db' r), db')
          end
      end
  end.

(** *** Row-level policies (migration 20250803174517) *)

Definition privileged_roles : list string := ["staff"; "faculty"].

(** EXISTS (SELECT 1 FROM profiles WHERE user_id = auth.uid()
    AND role IN ('staff', 'faculty')) *)
Definition staff_policy (db : Db.t) (uid : option string) : bool :=
  match uid with
  | None => false
  | Some u =>
      existsb (fun p => (Profile.user_id p =? u) && one_of privileged_roles (Profile.role p))
              (Db.profiles db)
  end.

(** "Staff can update issues" ON issues FOR UPDATE *)
Definition staff_can_update_issues := staff_policy.
(** "Staff can create updates" ON issue_updates FOR INSERT *)
Definition staff_can_create_updates := staff_policy.
(** "Anyone can create issues", "Anyone can view issues" *)
Definition anyone_can_create_issues (db : Db.t) (uid : option string) : bool := true.
Definition anyone_can_view_issues (db : Db.t) (uid : option string) : bool := true.
(** "Anyone can view public updates" *)
Definition anyone_can_view_public_updates (u : IssueUpdate.t) : bool :=
  IssueUpdate.is_public u.

(** *** Update *)

Definition or_keep {A} (new old : option A) : option A :=
  match new with Some _ => new | None => old end.

(** The columns named by the patch replace those of the row. *)
Definition apply_patch (p : PartialIssue.t) (r : IssueRow.t) : IssueRow.t :=
  {| IssueRow.id := default (IssueRow.id r) (PartialIssue.id p);
     IssueRow.title := default (IssueRow.title r) (PartialIssue.title p);
     IssueRow.description := default (IssueRow.description r) (PartialIssue.description p);
     IssueRow.category_id := or_keep (PartialIssue.category_id p) (IssueRow.category_id r);
     IssueRow.department_id := or_keep (PartialIssue.department_id p) (IssueRow.department_id r);
     IssueRow.severity := default (IssueRow.severity r) (PartialIssue.severity p);
     IssueRow.status := default (IssueRow.status r) (PartialIssue.status p);
     IssueRow.anonymous_token :=
       default (IssueRow.anonymous_token r) (PartialIssue.anonymous_token p);
     IssueRow.reporter_id := or_keep (PartialIssue.reporter_id p) (IssueRow.reporter_id r);
     IssueRow.assigned_to := or_keep (PartialIssue.assigned_to p) (IssueRow.assigned_to r);
     IssueRow.location := or_keep (PartialIssue.location p) (IssueRow.location r);
     IssueRow.attachments := default (IssueRow.attachments r) (PartialIssue.attachments p);
     IssueRow.metadata := default (IssueRow.metadata r) (PartialIssue.metadata p);
     IssueRow.created_at := default (IssueRow.created_at r) (PartialIssue.created_at p);
     IssueRow.updated_at := default (IssueRow.updated_at r) (PartialIssue.updated_at p);
     IssueRow.resolved_at := or_keep (PartialIssue.resolved_at p) (IssueRow.resolved_at r) |}.

(** Modelled from the spec: the function [update_updated_at_column] that the
    trigger [update_issues_updated_at] executes BEFORE UPDATE is declared in a
    migration that is not under src/.  The data model of the spec has
    [updated_at] as the time of the last change of a row, so the function is
    taken to set that column to the time of the statement and to leave the
    others alone. *)
Definition update_updated_at_column (now : Z) (NEW : IssueRow.t) : IssueRow.t :=
  {| IssueRow.id := IssueRow.id NEW;
     IssueRow.title := IssueRow.title NEW;
     IssueRow.description := IssueRow.description NEW;
     IssueRow.category_id := IssueRow.category_id NEW;
     IssueRow.department_id := IssueRow.department_id NEW;
     IssueRow.severity := IssueRow.severity NEW;
     IssueRow.status := IssueRow.status NEW;
     IssueRow.anonymous_token := IssueRow.anonymous_token NEW;
     IssueRow.reporter_id := IssueRow.reporter_id NEW;
     IssueRow.assigned_to := IssueRow.assigned_to NEW;
     IssueRow.location := IssueRow.location NEW;
     IssueRow.attachments := IssueRow.attachments NEW;
     IssueRow.metadata := IssueRow.metadata NEW;
     IssueRow.created_at := IssueRow.created_at NEW;
     IssueRow.updated_at := now;
     IssueRow.resolved_at := IssueRow.resolved_at NEW |}.

(** Rows of [issue_updates] and [anonymous_tokens] reference [issues(id)]. *)
Definition referenced (db : Db.t) (issue_id : string) : bool :=
  existsb (fun u => IssueUpdate.issue_id u =? issue_id) (Db.issue_updates db)
  || existsb (fun t => AnonymousToken.issue_id t =? issue_id) (Db.anonymous_tokens db).

(** from('issues').update(updates).eq('id', issueId).select(...).single().
    The policy "Staff can update issues" hides every row from a caller who does
    not satisfy it, so that the statement then changes and returns nothing.
    [issueId] is compared with the keys as the store holds them: for the key
    of a stored issue the answer is the one of the store; for another
    [issueId] the store fails as well, with the error of [.single()] only when
    [issueId] is the text of a uuid. *)
Definition update_issue (uid : option string) (issueId : string)
    (updates : PartialIssue.t) (env : WriteEnv) (db : Db.t)
    : Response Issue.t * Db.t :=
  match net env with
  | Some e => (Failure e, db)
  | None =>
      if negb (staff_can_update_issues db uid) then (Failure not_single_row, db)
      else
        match List.filter (fun r => IssueRow.id r =? issueId) (Db.issues db) with
        | [old] =>
            let now := (Db.clock db + Z.of_N (elapsed env))%Z in
            let r := update_updated_at_column now (apply_patch updates old) in
            let others := List.filter (fun o => negb (IssueRow.id o =? issueId)) (Db.issues db) in
            match issues_constraints db others r with
            | Some e => (Failure e, db)
            | None =>
                if negb (IssueRow.id r =? IssueRow.id old) && referenced db (IssueRow.id old)
                then (Failure (foreign_key_violation "issue_id_fkey"), db)
                else
                  let db' :=
                    Db.with_issues
                      (map (fun o => if IssueRow.id o =? issueId then r else o) (Db.issues db))
                      now db in
                  (Success (with_assignee db' r), db')
            end
        | _ => (Failure not_single_row, db)
        end
  end.

(** ** The client: state, effects and the monad of the hook *)

Module Toast.
Record t := mk {
  title : string;
  description : option string;
  variant : option string }.
End Toast.

(** The React state of [useIssues]. *)
Module Hook.
Record t := mk {
  issues : list Issue.t;
  categories : list IssueCategory.t;
  departments : list Department.t;
  loading : bool }.
End Hook.

(** The state of the TrackIssue page. *)
Module TrackPage.
Record t := mk {
  loading : bool;
  trackedIssue : option Issue.t }.
End TrackPage.

(** The state of the ReportIssue page. *)
Module ReportPage.
Record t := mk {
  loading : bool;
  step : nat }.
End ReportPage.

Record World := mkWorld {
  db : Db.t;
  session : option string;
  hook : Hook.t;
  toasts : list Toast.t;
  console : list (string * PgError);
  localStorage : gmap string string;
  track_page : TrackPage.t;
  report_page : ReportPage.t;
  location : string }.

Definition with_db (d : Db.t) (w : World) : World :=
  mkWorld d (session w) (hook w) (toasts w) (console w) (localStorage w)
          (track_page w) (report_page w) (location w).
Definition with_hook (h : Hook.t) (w : World) : World :=
  mkWorld (db w) (session w) h (toasts w) (console w) (localStorage w)
          (track_page w) (report_page w) (location w).
Definition with_toasts (t : list Toast.t) (w : World) : World :=
  mkWorld (db w) (session w) (hook w) t (console w) (localStorage w)
          (track_page w) (report_page w) (location w).
Definition with_console (c : list (string * PgError)) (w : World) : World :=
  mkWorld (db w) (session w) (hook w) (toasts w) c (localStorage w)
          (track_page w) (report_page w) (location w).
Definition with_localStorage (s : gmap string string) (w : World) : World :=
  mkWorld (db w) (session w) (hook w) (toasts w) (console w) s
          (track_page w) (report_page w) (location w).
Definition with_track_page (p : TrackPage.t) (w : World) : World :=
  mkWorld (db w) (session w) (hook w) (toasts w) (console w) (localStorage w)
          p (report_page w) (location w).
Definition with_report_page (p : ReportPage.t) (w : World) : World :=
  mkWorld (db w) (session w) (hook w) (toasts w) (console w) (localStorage w)
          (track_page w) p (location w).
Definition with_location (l : string) (w : World) : World :=
  mkWorld (db w) (session w) (hook w) (toasts w) (console w) (localStorage w)
          (track_page w) (report_page w) l.

(** How a computation ends: with a value, or with a thrown error. *)
Inductive Completion (A : Type) : Type :=
| Normal (value : A)
| Thrown (error : PgError).
Arguments Normal {A} value.
Arguments Thrown {A} error.

Definition M (A : Type) : Type := World -> Completion A * World.

Definition ret {A} (a : A) : M A := fun w => (Normal a, w).

Definition bind {A B} (m : M A) (k : A -> M B) : M B :=
  fun w =>
    match m w with
    | (Normal a, w') => k a w'
    | (Thrown e, w') => (Thrown e, w')
    end.

Definition throw {A} (e : PgError) : M A := fun w => (Thrown e, w).

(** try { body } catch (error) { handler error } *)
Definition try_catch {A} (body : M A) (handler : PgError -> M A) : M A :=
  fun w =>
    match body w with
    | (Normal a, w') => (Normal a, w')
    | (Thrown e, w') => handler e w'
    end.

(** try { body } finally { final } *)
Definition try_finally {A} (body : M A) (final : M unit) : M A :=
  fun w =>
    match body w with
    | (c, w') =>
        match final w' with
        | (Normal _, w'') => (c, w'')
        | (Thrown e, w'') => (Thrown e, w'')
        end
    end.

Notation "x <- m ;; k" := (bind m (fun x => k))
  (at level 100, m at next level, k at level 200).
Notation "m ;; k" := (bind m (fun _ => k))
  (at level 100, k at level 200).

Definition modify (f : World -> World) : M unit := fun w => (Normal tt, f w).

(** A remote call that reads, and one that may write. *)
Definition await_read {A} (q : Db.t -> Response A) : M (Response A) :=
  fun w => (Normal (q (db w)), w).
Definition await_write {A} (q : Db.t -> Response A * Db.t) : M (Response A) :=
  fun w => let (r, d) := q (db w) in (Normal r, with_db d w).

Definition console_error (label : string) (error : PgError) : M unit :=
  modify (fun w => with_console (console w ++ [(label, error)]) w).

Definition toast (t : Toast.t) : M unit :=
  modify (fun w => with_toasts (toasts w ++ [t]) w).

Definition localStorage_setItem (key value : string) : M unit :=
  modify (fun w => with_localStorage (<[key := value]> (localStorage w)) w).

Definition setIssues (f : list Issue.t -> list Issue.t) : M unit :=
  modify (fun w =>
    let h := hook w in
    with_hook (Hook.mk (f (Hook.issues h)) (Hook.categories h) (Hook.departments h)
                       (Hook.loading h)) w).
Definition setCategories (l : list IssueCategory.t) : M unit :=
  modify (fun w =>
    let h := hook w in
    with_hook (Hook.mk (Hook.issues h) l (Hook.departments h) (Hook.loading h)) w).
Definition setDepartments (l : list Department.t) : M unit :=
  modify (fun w =>
    let h := hook w in
    with_hook (Hook.mk (Hook.issues h) (Hook.categories h) l (Hook.loading h)) w).
Definition setLoading (b : bool) : M unit :=
  modify (fun w =>
    let h := hook w in
    with_hook (Hook.mk (Hook.issues h) (Hook.categories h) (Hook.departments h) b) w).

(** [s.slice(-n)]: the last [n] characters, all of [s] when it is shorter. *)
Definition slice_last (n : nat) (s : string) : string :=
  substring (String.length s - n) n s.

(** ** The hook [useIssues] *)

Definition set_json (attachments metadata : Json) (r : IssueRow.t) : IssueRow.t :=
  {| IssueRow.id := IssueRow.id r;
     IssueRow.title := IssueRow.title r;
     IssueRow.description := IssueRow.description r;
     IssueRow.category_id := IssueRow.category_id r;
     IssueRow.department_id := IssueRow.department_id r;
     IssueRow.severity := IssueRow.severity r;
     IssueRow.status := IssueRow.status r;
     IssueRow.anonymous_token := IssueRow.anonymous_token r;
     IssueRow.reporter_id := IssueRow.reporter_id r;
     IssueRow.assigned_to := IssueRow.assigned_to r;
     IssueRow.location := IssueRow.location r;
     IssueRow.attachments := attachments;
     IssueRow.metadata := metadata;
     IssueRow.created_at := IssueRow.created_at r;
     IssueRow.updated_at := IssueRow.updated_at r;
     IssueRow.resolved_at := IssueRow.resolved_at r |}.

(** The transformation of [fetchIssues]:
    attachments: Array.isArray(item.attachments) ? item.attachments : [],
    metadata: item.metadata || {} *)
Definition transform_fetched (item : Issue.t) : Issue.t :=
  let r := Issue.row item in
  Issue.mk
    (set_json (if Array_isArray (IssueRow.attachments r) then IssueRow.attachments r else JArr [])
              (if truthy (IssueRow.metadata r) then IssueRow.metadata r else JObj [])
              r)
    (Issue.category item) (Issue.department item) (Issue.assigned_user item)
    (Issue.updates item).

(** The transformation of [createIssue] and [updateIssue]:
    metadata: typeof data.metadata === 'object' ? data.metadata : {}.
    [updateIssue] also copies [assigned_user]; the one field it rewrites there,
    the profile's joined department, is not part of [Profile.t]. *)
Definition transform_written (data : Issue.t) : Issue.t :=
  let r := Issue.row data in
  Issue.mk
    (set_json (if Array_isArray (IssueRow.attachments r) then IssueRow.attachments r else JArr [])
              (if typeof_object (IssueRow.metadata r) then IssueRow.metadata r else JObj [])
              r)
    (Issue.category data) (Issue.department data) (Issue.assigned_user data)
    (Issue.updates data).

Definition destructive : option string := Some "destructive".

Definition fetchIssues (n : Net) : M unit :=
  try_catch
    (r <- await_read (select_issues n) ;;
     match r with
     | Failure error => throw error
     | Success data =>
         let transformedIssues := map transform_fetched data in
         setIssues (fun _ => transformedIssues)
     end)
    (fun error =>
       console_error "Error fetching issues:" error ;;
       toast (Toast.mk "Error loading issues" (Some (message error)) destructive)).

Definition fetchCategories (n : Net) : M unit :=
  try_catch
    (r <- await_read (select_categories n) ;;
     match r with
     | Failure error => throw error
     | Success data => setCategories data
     end)
    (fun error => console_error "Error fetching categories:" error).

Definition fetchDepartments (n : Net) : M unit :=
  try_catch
    (r <- await_read (select_departments n) ;;
     match r with
     | Failure error => throw error
     | Success data => setDepartments data
     end)
    (fun error => console_error "Error fetching departments:" error).

(** const insertData = { title, description, category_id, department_id,
    severity, location, anonymous_token: tokenData } *)
Definition insertData_of (issueData : PartialIssue.t) (tokenData : string)
    : InsertData.t :=
  {| InsertData.title := PartialIssue.title issueData;
     InsertData.description := PartialIssue.description issueData;
     InsertData.category_id := PartialIssue.category_id issueData;
     InsertData.department_id := PartialIssue.department_id issueData;
     InsertData.severity := PartialIssue.severity issueData;
     InsertData.location := PartialIssue.location issueData;
     InsertData.anonymous_token := tokenData |}.

(** [rpc] is the answer of supabase.rpc('generate_anonymous_token'): the
    random token of the database function, or the failure of the call. *)
Definition createIssue (issueData : PartialIssue.t) (rpc : Response string)
    (env : WriteEnv) : M (Issue.t * string) :=
  try_catch
    (match rpc with
     | Failure tokenError => throw tokenError
     | Success tokenData =>
         let insertData := insertData_of issueData tokenData in
         r <- await_write (insert_issue insertData env) ;;
         match r with
         | Failure error => throw error
         | Success data =>
             let transformedIssue := transform_written data in
             localStorage_setItem ("issue_token_" +:+ Issue.id data) tokenData ;;
             setIssues (fun prev => transformedIssue :: prev) ;;
             toast (Toast.mk "Issue reported successfully"
                      (Some ("Your anonymous tracking ID is: " +:+ slice_last 8 tokenData))
                      None) ;;
             ret (transformedIssue, tokenData)
         end
     end)
    (fun error =>
       console_error "Error creating issue:" error ;;
       toast (Toast.mk "Error reporting issue" (Some (message error)) destructive) ;;
       throw error).

Definition updateIssue (issueId : string) (updates : PartialIssue.t)
    (env : WriteEnv) : M Issue.t :=
  try_catch
    (r <- (fun w => await_write (update_issue (session w) issueId updates env) w) ;;
     match r with
     | Failure error => throw error
     | Success data =>
         let transformedIssue := transform_written data in
         setIssues (map (fun issue =>
                      if Issue.id issue =? issueId then transformedIssue else issue)) ;;
         toast (Toast.mk "Issue updated successfully" None None) ;;
         ret transformedIssue
     end)
    (fun error =>
       console_error "Error updating issue:" error ;;
       toast (Toast.mk "Error updating issue" (Some (message error)) destructive) ;;
       throw error).

Definition trackIssueByToken (token : string) (n : Net) : M Issue.t :=
  try_catch
    (r <- await_read (select_issue_by_token token n) ;;
     match r with
     | Failure error => throw error
     | Success data => ret data
     end)
    (fun error =>
       console_error "Error tracking issue:" error ;;
       toast (Toast.mk "Issue not found"
                (Some "Please check your tracking token and try again.") destructive) ;;
       throw error).

(** The effect that runs when the hook mounts. *)
Definition loadData (n1 n2 n3 : Net) : M unit :=
  setLoading true ;;
  fetchIssues n1 ;;
  fetchCategories n2 ;;
  fetchDepartments n3 ;;
  setLoading false.

(** ** Pages *)

(** *** TrackIssue: [handleTrack] *)

(** [if (issue)]: what [trackIssueByToken] returns is a row object, and an
    object is truthy. *)
Definition truthy_object {A} (_ : A) : bool := true.

Definition setTrackLoading (b : bool) : M unit :=
  modify (fun w => with_track_page (TrackPage.mk b (TrackPage.trackedIssue (track_page w))) w).
Definition setTrackedIssue (i : option Issue.t) : M unit :=
  modify (fun w => with_track_page (TrackPage.mk (TrackPage.loading (track_page w)) i) w).

Definition handleTrack (token : string) (n : Net) : M unit :=
  setTrackLoading true ;;
  try_finally
    (try_catch
       (issue <- trackIssueByToken token n ;;
        if truthy_object issue then
          setTrackedIssue (Some issue) ;;
          toast (Toast.mk "Issue found"
                   (Some "Here's the current status of your report.") None)
        else
          toast (Toast.mk "Issue not found"
                   (Some "Please check your tracking token and try again.") destructive))
       (fun _ =>
          toast (Toast.mk "Error tracking issue"
                   (Some "Please try again or contact support if the problem persists.")
                   destructive)))
    (setTrackLoading false).

(** *** ReportIssue: [reportSchema] and [handleSubmit] *)

Module ReportData.
Record t := mk {
  title : string;
  description : string;
  category_id : string;
  department_id : option string;
  severity : string;
  location : option string;
  anonymous : bool }.
End ReportData.

Definition reportSchema (data : ReportData.t) : bool :=
  (5 <=? String.length (ReportData.title data))%nat
  && (20 <=? String.length (ReportData.description data))%nat
  && (1 <=? String.length (ReportData.category_id data))%nat
  && one_of ["low"; "medium"; "high"; "critical"] (ReportData.severity data).

(** [s || undefined] on an optional string. *)
Definition or_undefined (s : option string) : option string :=
  match s with
  | Some EmptyString | None => None
  | Some _ => s
  end.

(** The object [issueData] that [handleSubmit] builds; [user] is [user?.id]
    and [timestamp] is [new Date().toISOString()]. *)
Definition issueData_of (data : ReportData.t) (user : option string)
    (timestamp : string) : PartialIssue.t :=
  {| PartialIssue.id := None;
     PartialIssue.title := Some (ReportData.title data);
     PartialIssue.description := Some (ReportData.description data);
     PartialIssue.category_id := Some (ReportData.category_id data);
     PartialIssue.department_id := or_undefined (ReportData.department_id data);
     PartialIssue.severity := Some (ReportData.severity data);
     PartialIssue.status := Some "open";
     PartialIssue.anonymous_token := None;
     PartialIssue.reporter_id := if ReportData.anonymous data then None else user;
     PartialIssue.assigned_to := None;
     PartialIssue.location := or_undefined (ReportData.location data);
     PartialIssue.attachments := None;
     PartialIssue.metadata :=
       Some (JObj [("submitted_via", JStr "web_form");
                   ("anonymous_submission", JBool (ReportData.anonymous data));
                   ("timestamp", JStr timestamp)]);
     PartialIssue.created_at := None;
     PartialIssue.updated_at := None;
     PartialIssue.resolved_at := None |}.

Definition setReportLoading (b : bool) : M unit :=
  modify (fun w => with_report_page (ReportPage.mk b (ReportPage.step (report_page w))) w).
Definition navigate (path : string) : M unit :=
  modify (with_location path).

Definition handleSubmit (data : ReportData.t) (timestamp : string)
    (rpc : Response string) (env : WriteEnv) : M unit :=
  setReportLoading true ;;
  try_finally
    (try_catch
       (issueData <- (fun w => ret (issueData_of data (session w) timestamp) w) ;;
        createIssue issueData rpc env ;;
        toast (Toast.mk "Report submitted successfully"
                 (Some (if ReportData.anonymous data
                        then "Your anonymous report has been submitted. Save your tracking token for updates."
                        else "Your report has been submitted and assigned a tracking number."))
                 None) ;;
        navigate "/dashboard")
       (fun _ =>
          toast (Toast.mk "Failed to submit report"
                   (Some "Please try again or contact support if the problem persists.")
                   destructive)))
    (setReportLoading false).

(** *** Dashboard: counters and filters *)

(** [toLowerCase] on the letters A to Z; other characters are kept. *)
Definition lower_ascii (c : ascii) : ascii :=
  let n := nat_of_ascii c in
  if (65 <=? n)%nat && (n <=? 90)%nat then ascii_of_nat (n + 32) else c.

Fixpoint toLowerCase (s : string) : string :=
  match s with
  | EmptyString => EmptyString
  | String c s' => String (lower_ascii c) (toLowerCase s')
  end.

(** [s.includes(sub)] *)
Fixpoint includes (s sub : string) : bool :=
  String.prefix sub s
  || match s with
     | EmptyString => false
     | String _ s' => includes s' sub
     end.

Module Dashboard.
Definition totalIssues (issues : list Issue.t) : nat := length issues.
Definition openIssues (issues : list Issue.t) : nat :=
  length (List.filter (fun issue => Issue.status issue =? "open") issues).
Definition inProgressIssues (issues : list Issue.t) : nat :=
  length (List.filter (fun issue => Issue.status issue =? "in_progress") issues).
Definition resolvedIssues (issues : list Issue.t) : nat :=
  length (List.filter (fun issue => Issue.status issue =? "resolved") issues).
Definition criticalIssues (issues : list Issue.t) : nat :=
  length (List.filter (fun issue => Issue.severity issue =? "critical") issues).

Definition filteredIssues (searchTerm statusFilter severityFilter : string)
    (issues : list Issue.t) : list Issue.t :=
  List.filter
    (fun issue =>
       let matchesSearch :=
         includes (toLowerCase (Issue.title issue)) (toLowerCase searchTerm)
         || includes (toLowerCase (Issue.description issue)) (toLowerCase searchTerm) in
       let matchesStatus :=
         (statusFilter =? "all") || (Issue.status issue =? statusFilter) in
       let matchesSeverity :=
         (severityFilter =? "all") || (Issue.severity issue =? severityFilter) in
       matchesSearch && matchesStatus && matchesSeverity)
    issues.
End Dashboard.

(** The four values of [IssueStatus]. *)
Definition IssueStatus : list string := ["open"; "in_progress"; "resolved"; "closed"].

(** The statuses other than [X]. *)
Definition other_statuses (X : string) : list string :=
  List.filter (fun s => negb (s =? X)) IssueStatus.

(** [issues.filter(i => i.status === X).length] *)
Definition count_status (X : string) (issues : list Issue.t) : nat :=
  length (List.filter (fun i => Issue.status i =? X) issues).

(** *** Auth: [signUpSchema], [handleSignUp] and the trigger on new accounts *)

Module SignUpData.
Record t := mk {
  email : string;
  password : string;
  confirmPassword : string;
  firstName : string;
  lastName : string;
  role : string;
  company : string;
  jobTitle : string }.
End SignUpData.

(** The roles the sign-up form offers: z.enum(['employee', 'manager', 'hr']) *)
Definition signUp_roles : list string := ["employee"; "manager"; "hr"].

(** A row of auth.users, as the trigger sees it. *)
Module AuthUser.
Record t := mk {
  id : string;
  email : string;
  raw_user_meta_data : gmap string string }.
End AuthUser.

(** [split_part(s, delim, 1)]: the text before the first [delim]. *)
Fixpoint split_part_1 (delim : ascii) (s : string) : string :=
  match s with
  | EmptyString => EmptyString
  | String c s' => if Ascii.eqb c delim then EmptyString else String c (split_part_1 delim s')
  end.

(** COALESCE(a, b) *)
Definition COALESCE (a : option string) (b : string) : string := default b a.

(** The row that [handle_new_user] inserts into [profiles] for the new
    account [NEW]; [pid] is the key the table draws for it and [now] the time
    of the statement. *)
Definition handle_new_user (NEW : AuthUser.t) (pid : string) (now : Z) : Profile.t :=
  let meta := AuthUser.raw_user_meta_data NEW in
  {| Profile.id := pid;
     Profile.user_id := AuthUser.id NEW;
     Profile.email := AuthUser.email NEW;
     Profile.role := COALESCE (meta !! "role") "employee";
     Profile.display_name :=
       Some (COALESCE (meta !! "display_name") (split_part_1 "@" (AuthUser.email NEW)));
     Profile.first_name := meta !! "first_name";
     Profile.last_name := meta !! "last_name";
     Profile.department_id := None;
     Profile.manager_id := None;
     Profile.company := meta !! "company";
     Profile.job_title := meta !! "job_title";
     Profile.phone := None;
     Profile.avatar_url := None;
     Profile.created_at := now;
     Profile.updated_at := now |}.

(** The trigger [on_auth_user_created], AFTER INSERT ON auth.users. *)
Definition on_auth_user_created (NEW : AuthUser.t) (pid : string) (db : Db.t) : Db.t :=
  Db.with_profiles (Db.profiles db ++ [handle_new_user NEW pid (Db.clock db)]) db.

Section SignUp.
(** [z.string().email()] *)
Variable is_email : string -> bool.

Definition signUpSchema (data : SignUpData.t) : bool :=
  is_email (SignUpData.email data)
  && (6 <=? String.length (SignUpData.password data))%nat
  && (1 <=? String.length (SignUpData.firstName data))%nat
  && (1 <=? String.length (SignUpData.lastName data))%nat
  && one_of signUp_roles (SignUpData.role data)
  && (1 <=? String.length (SignUpData.company data))%nat
  && (1 <=? String.length (SignUpData.jobTitle data))%nat
  && (SignUpData.password data =? SignUpData.confirmPassword data).

(** The metadata object that [handleSignUp] passes to [signUp]. *)
Definition signUp_metadata (data : SignUpData.t) : gmap string string :=
  <["first_name" := SignUpData.firstName data]>
  (<["last_name" := SignUpData.lastName data]>
  (<["role" := SignUpData.role data]>
  (<["company" := SignUpData.company data]>
  (<["job_title" := SignUpData.jobTitle data]>
  (<["display_name" := SignUpData.firstName data +:+ " " +:+ SignUpData.lastName data]>
   ∅))))).

(** Modelled from the spec: [signUp] of the hook useAuth is not under src/.
    The spec has the profile "created automatically when an account is
    created (trigger-equivalent), using metadata supplied at sign-up": the
    account gets the identifier [uid] and carries the metadata as they were
    passed. *)
Definition signUp (uid email : string) (metadata : gmap string string) : AuthUser.t :=
  AuthUser.mk uid email metadata.

(** Submitting the sign-up form: the resolver of the form checks
    [signUpSchema]; [handleSignUp] runs on valid data only, and the new
    account fires the trigger. *)
Definition handleSignUp (data : SignUpData.t) (uid pid : string) (db : Db.t)
    : option Db.t :=
  if signUpSchema data then
    Some (on_auth_user_created
            (signUp uid (SignUpData.email data) (signUp_metadata data)) pid db)
  else None.
End SignUp.

(** *** The profile page

    When the signed-in user has no profile yet, the profile page inserts one.
    One version of the page gives it the role 'employee'; the other reads the
    role of the account's metadata: user.user_metadata?.role || 'employee'. *)
Definition createInitialProfile_role : string := "employee".

Definition newProfile_role (user_metadata : gmap string string) : string :=
  match user_metadata !! "role" with
  | Some EmptyString | None => "employee"
  | Some r => r
  end.

(** *** The rows of [anonymous_tokens]

    The only statement of the sources that writes the table is the one of the
    sample data:
    INSERT INTO anonymous_tokens (token, issue_id)
    SELECT i.anonymous_token, i.id FROM issues i WHERE i.reporter_id IS NULL.
    [key] draws the primary keys; a token expires 90 days (in seconds) after
    its creation. *)
Definition ninety_days : Z := 7776000.

(** The rows the SELECT of the statement yields, with the defaults of the
    table for [id], [expires_at] and [created_at]. *)
Definition sample_token_rows (key : IssueRow.t -> string) (db : Db.t) : list AnonymousToken.t :=
  map (fun i => AnonymousToken.mk (key i) (IssueRow.anonymous_token i) (IssueRow.id i)
                  (Db.clock db + ninety_days)%Z (Db.clock db))
      (List.filter (fun i => match IssueRow.reporter_id i with None => true | Some _ => false end)
                   (Db.issues db)).

(** The constraints of [anonymous_tokens] on a new row: id PRIMARY KEY,
    token UNIQUE, issue_id REFERENCES issues(id). *)
Definition token_row_constraints (db : Db.t) (table : list AnonymousToken.t)
    (t : AnonymousToken.t) : option PgError :=
  if existsb (fun o => AnonymousToken.id o =? AnonymousToken.id t) table
  then Some (unique_violation "anonymous_tokens_pkey")
  else if existsb (fun o => AnonymousToken.token o =? AnonymousToken.token t) table
  then Some (unique_violation "anonymous_tokens_token_key")
  else if negb (existsb (fun i => IssueRow.id i =? AnonymousToken.issue_id t) (Db.issues db))
  then Some (foreign_key_violation "anonymous_tokens_issue_id_fkey")
  else None.

(** The rows are inserted one after the other, each checked against the
    table with the rows before it; the first violation ends the statement. *)
Fixpoint insert_token_rows (db : Db.t) (table new : list AnonymousToken.t)
    : Response (list AnonymousToken.t) :=
  match new with
  | [] => Success table
  | t :: new' =>
      match token_row_constraints db table t with
      | Some e => Failure e
      | None => insert_token_rows db (table ++ [t]) new'
      end
  end.

(** The statement as a whole: it either inserts all its rows or fails and
    leaves the store as it was. *)
Definition sample_anonymous_tokens (key : IssueRow.t -> string) (db : Db.t) : Response Db.t :=
  match insert_token_rows db (Db.anonymous_tokens db) (sample_token_rows key db) with
  | Success table => Success (Db.with_anonymous_tokens table db)
  | Failure e => Failure e
  end.

(** ** The operations of the hook as data *)

Inductive HookOp : Type :=
| FetchIssues (n : Net)
| FetchCategories (n : Net)
| FetchDepartments (n : Net)
| CreateIssue (issueData : PartialIssue.t) (rpc : Response string) (env : WriteEnv)
| UpdateIssue (issueId : string) (updates : PartialIssue.t) (env : WriteEnv)
| TrackIssueByToken (token : string) (n : Net).

(** Running an operation for its effects and the way it completes. *)
Definition perform (op : HookOp) : M unit :=
  match op with
  | FetchIssues n => fetchIssues n
  | FetchCategories n => fetchCategories n
  | FetchDepartments n => fetchDepartments n
  | CreateIssue issueData rpc env => (createIssue issueData rpc env ;; ret tt)
  | UpdateIssue issueId updates env => (updateIssue issueId updates env ;; ret tt)
  | TrackIssueByToken token n => (trackIssueByToken token n ;; ret tt)
  end.

Definition step (w : World) (op : HookOp) : World := snd (perform op w).

Definition run (ops : list HookOp) (w : World) : World := fold_left step ops w.

(** ** Properties of states *)

(** Newest first: the creation times never increase along the list. *)
Definition newest_first_list (l : list Issue.t) : Prop :=
  StronglySorted (fun a b => (b <= a)%Z) (map Issue.created_at l).

(** Every issue the hook holds is a copy of a stored row, with that row's
    creation time. *)
Definition coherent (w : World) : Prop :=
  Forall (fun i => exists r, In r (Db.issues (db w))
                             /\ IssueRow.id r = Issue.id i
                             /\ IssueRow.created_at r = Issue.created_at i)
         (Hook.issues (hook w)).

(** The primary key is a key, and no row was created after the present. *)
Definition store_ok (d : Db.t) : Prop :=
  List.NoDup (map IssueRow.id (Db.issues d))
  /\ Forall (fun r => (IssueRow.created_at r <= Db.clock d)%Z) (Db.issues d).

Definition Inv (w : World) : Prop :=
  newest_first_list (Hook.issues (hook w)) /\ coherent w /\ store_ok (db w).

(** The patch of an update leaves the creation time alone. *)
Definition keeps_created_at (op : HookOp) : Prop :=
  match op with
  | UpdateIssue _ updates _ => PartialIssue.created_at updates = None
  | _ => True
  end.

(** The table [anonymous_tokens] has a row for [token] that references
    [issue]. *)
Definition has_token_row (d : Db.t) (token : string) (issue : Issue.t) : Prop :=
  exists t, In t (Db.anonymous_tokens d)
            /\ AnonymousToken.token t = token
            /\ AnonymousToken.issue_id t = Issue.id issue.

(** How the hook handles the failure of an operation: the label it logs,
    the toast it shows (if any), and whether it throws the error again. *)
Definition failure_label (op : HookOp) : string :=
  match op with
  | FetchIssues _ => "Error fetching issues:"
  | FetchCategories _ => "Error fetching categories:"
  | FetchDepartments _ => "Error fetching departments:"
  | CreateIssue _ _ _ => "Error creating issue:"
  | UpdateIssue _ _ _ => "Error updating issue:"
  | TrackIssueByToken _ _ => "Error tracking issue:"
  end.

Definition failure_toast (op : HookOp) (e : PgError) : option Toast.t :=
  match op with
  | FetchIssues _ => Some (Toast.mk "Error loading issues" (Some (message e)) destructive)
  | FetchCategories _ | FetchDepartments _ => None
  | CreateIssue _ _ _ => Some (Toast.mk "Error reporting issue" (Some (message e)) destructive)
  | UpdateIssue _ _ _ => Some (Toast.mk "Error updating issue" (Some (message e)) destructive)
  | TrackIssueByToken _ _ =>
      Some (Toast.mk "Issue not found"
              (Some "Please check your tracking token and try again.") destructive)
  end.

Definition rethrows (op : HookOp) : bool :=
  match op with
  | FetchIssues _ | FetchCategories _ | FetchDepartments _ => false
  | CreateIssue _ _ _ | UpdateIssue _ _ _ | TrackIssueByToken _ _ => true
  end.

(** The error of the remote call that fails in [op], if one does. *)
Definition remote_failure (op : HookOp) (w : World) : option PgError :=
  let error_of {A} (r : Response A) : option PgError :=
    match r with Failure e => Some e | Success _ => None end in
  match op with
  | FetchIssues n => error_of (select_issues n (db w))
  | FetchCategories n => error_of (select_categories n (db w))
  | FetchDepartments n => error_of (select_departments n (db w))
  | CreateIssue issueData rpc env =>
      match rpc with
      | Failure e => Some e
      | Success tokenData =>
          error_of (fst (insert_issue (insertData_of issueData tokenData) env (db w)))
      end
  | UpdateIssue issueId updates env =>
      error_of (fst (update_issue (session w) issueId updates env (db w)))
  | TrackIssueByToken token n => error_of (select_issue_by_token token n (db w))
  end.

(** The world after a failure was logged and, possibly, shown. *)
Definition after_failure (label : string) (e : PgError) (t : option Toast.t)
    (w : World) : World :=
  let w1 := with_console (console w ++ [(label, e)]) w in
  match t with
  | Some t => with_toasts (toasts w1 ++ [t]) w1
  | None => w1
  end.

(** Two arguments of [createIssue] agree on what [insertData] reads. *)
Definition same_sent_fields (a b : PartialIssue.t) : Prop :=
  PartialIssue.title a = PartialIssue.title b
  /\ PartialIssue.description a = PartialIssue.description b
  /\ PartialIssue.category_id a = PartialIssue.category_id b
  /\ PartialIssue.department_id a = PartialIssue.department_id b
  /\ PartialIssue.severity a = PartialIssue.severity b
  /\ PartialIssue.location a = PartialIssue.location b.

(** The CHECK constraints hold of every stored issue. *)
Definition store_checked (d : Db.t) : Prop :=
  Forall (fun r => severity_check (IssueRow.severity r) = true
                   /\ status_check (IssueRow.status r) = true)
         (Db.issues d).

(** Every issue of the list has one of the four statuses. *)
Definition statuses_valid (l : list Issue.t) : Prop :=
  Forall (fun i => In (Issue.status i) IssueStatus) l.

(** ** Sample data *)

Module Sample.
Definition maintenance : IssueCategory.t :=
  IssueCategory.mk "cat-maintenance" "Maintenance" None "#6366f1" "AlertCircle" 0.

Definition staff : Profile.t :=
  Profile.mk "p-1" "user-staff" "staff@example.org" "staff" None None None None None
             None None None None 0 0.

(** A store with one category, one privileged profile and no issue. *)
Definition store : Db.t := Db.mk [] [maintenance] [] [] [] [staff] 100.

Definition world (d : Db.t) (uid : option string) (issues : list Issue.t) : World :=
  mkWorld d uid (Hook.mk issues [] [] false) [] [] ∅
          (TrackPage.mk false None) (ReportPage.mk false 1) "/".

(** The submission of the end-to-end scenario of the specification. *)
Definition broken_light : PartialIssue.t :=
  {| PartialIssue.id := None;
     PartialIssue.title := Some "Broken light in lobby";
     PartialIssue.description :=
       Some "The lobby light has flickered for two weeks and now stays off.";
     PartialIssue.category_id := Some "cat-maintenance";
     PartialIssue.department_id := None;
     PartialIssue.severity := Some "low";
     PartialIssue.status := None;
     PartialIssue.anonymous_token := None;
     PartialIssue.reporter_id := None;
     PartialIssue.assigned_to := None;
     PartialIssue.location := None;
     PartialIssue.attachments := None;
     PartialIssue.metadata := None;
     PartialIssue.created_at := None;
     PartialIssue.updated_at := None;
     PartialIssue.resolved_at := None |}.

(** The same submission by a signed-in reporter, as the form sends it. *)
Definition broken_light_signed : PartialIssue.t :=
  {| PartialIssue.id := None;
     PartialIssue.title := Some "Broken light in lobby";
     PartialIssue.description :=
       Some "The lobby light has flickered for two weeks and now stays off.";
     PartialIssue.category_id := Some "cat-maintenance";
     PartialIssue.department_id := None;
     PartialIssue.severity := Some "low";
     PartialIssue.status := Some "open";
     PartialIssue.anonymous_token := None;
     PartialIssue.reporter_id := Some "user-7";
     PartialIssue.assigned_to := None;
     PartialIssue.location := None;
     PartialIssue.attachments := Some (JArr [JStr "photo.png"]);
     PartialIssue.metadata := Some (JObj [("submitted_via", JStr "web_form")]);
     PartialIssue.created_at := None;
     PartialIssue.updated_at := None;
     PartialIssue.resolved_at := None |}.

Definition token : string := "q83vZx0Lk2mTn5Rb7YcPd1Hs9WfGa4Ju6ExKi8Ov3Nw".

Definition env : WriteEnv := mkWriteEnv None "issue-1" 5.

Definition timeout : PgError := mkError "Failed to fetch" EmptyString.
Definition denied : PgError :=
  mkError "permission denied for function generate_anonymous_token" "42501".

(** The empty client in front of [store], and what [createIssue] makes of
    it for [broken_light], [token] and [env]. *)
Definition world0 : World := world store None [].

Definition row1 : IssueRow.t :=
  IssueRow.mk "issue-1" "Broken light in lobby"
              "The lobby light has flickered for two weeks and now stays off."
              (Some "cat-maintenance") None "low" "open" token None None None
              (JArr []) (JObj []) 105 105 None.
Definition store1 : Db.t := Db.mk [] [maintenance] [row1] [] [] [staff] 105.
Definition created : Issue.t := Issue.mk row1 (Some maintenance) None None None.
Definition world1 : World :=
  mkWorld store1 None (Hook.mk [created] [] [] false)
          [Toast.mk "Issue reported successfully"
                    (Some "Your anonymous tracking ID is: Ki8Ov3Nw") None]
          [] (<["issue_token_issue-1" := token]> ∅)
          (TrackPage.mk false None) (ReportPage.mk false 1) "/".

Definition row (id title status token : string) (created : Z) : IssueRow.t :=
  IssueRow.mk id title "A description of the issue." (Some "cat-maintenance") None
              "medium" status token None None None (JArr []) (JObj []) created created None.

Definition older : IssueRow.t := row "issue-a" "Older" "open" "token-a" 10.
Definition newer : IssueRow.t := row "issue-b" "Newer" "resolved" "token-b" 20.

(** A store with two issues, and the list a privileged session fetched
    from it. *)
Definition store2 : Db.t := Db.mk [] [maintenance] [older; newer] [] [] [staff] 100.
Definition fetched : list Issue.t :=
  map transform_fetched (map (with_assignee store2) [newer; older]).
Definition world2 : World := world store2 (Some "user-staff") fetched.

(** A patch that moves the creation time of the older issue. *)
Definition redate : PartialIssue.t :=
  {| PartialIssue.id := None;
     PartialIssue.title := None;
     PartialIssue.description := None;
     PartialIssue.category_id := None;
     PartialIssue.department_id := None;
     PartialIssue.severity := None;
     PartialIssue.status := None;
     PartialIssue.anonymous_token := None;
     PartialIssue.reporter_id := None;
     PartialIssue.assigned_to := None;
     PartialIssue.location := None;
     PartialIssue.attachments := None;
     PartialIssue.metadata := None;
     PartialIssue.created_at := Some 30%Z;
     PartialIssue.updated_at := None;
     PartialIssue.resolved_at := None |}.

Definition resolve : PartialIssue.t :=
  {| PartialIssue.id := None;
     PartialIssue.title := None;
     PartialIssue.description := None;
     PartialIssue.category_id := None;
     PartialIssue.department_id := None;
     PartialIssue.severity := None;
     PartialIssue.status := Some "resolved";
     PartialIssue.anonymous_token := None;
     PartialIssue.reporter_id := None;
     PartialIssue.assigned_to := None;
     PartialIssue.location := None;
     PartialIssue.attachments := None;
     PartialIssue.metadata := None;
     PartialIssue.created_at := None;
     PartialIssue.updated_at := None;
     PartialIssue.resolved_at := None |}.

Definition sign_up : SignUpData.t :=
  SignUpData.mk "ada@example.org" "secret1" "secret1" "Ada" "Byron" "manager"
                "Analytical Engines" "Engineer".

(** A stand-in for the e-mail test of the form. *)
Definition is_email (s : string) : bool := includes s "@".

(** The profile the trigger creates for that sign-up, and the store with
    it. *)
Definition ada : Profile.t :=
  Profile.mk "p-2" "user-ada" "ada@example.org" "manager" (Some "Ada Byron") (Some "Ada")
             (Some "Byron") None None (Some "Analytical Engines") (Some "Engineer")
             None None 100 100.
Definition store_ada : Db.t := Db.mk [] [maintenance] [] [] [] [staff; ada] 100.
End Sample.

(** ** More of the pages *)

(** *** Dashboard: the charts and the recent issues *)

(** The four values of [IssueSeverity]. *)
Definition IssueSeverity : list string := ["low"; "medium"; "high"; "critical"].

(** Every issue of the list has one of the four severities. *)
Definition severities_valid (l : list Issue.t) : Prop :=
  Forall (fun i => In (Issue.severity i) IssueSeverity) l.

(** [issues.filter(i => i.severity === X).length] *)
Definition count_severity (X : string) (issues : list Issue.t) : nat :=
  length (List.filter (fun i => Issue.severity i =? X) issues).

Module Charts.
(** An entry of a chart: name, value and colour. *)
Definition entry : Type := (string * nat * string)%type.
Definition value (e : entry) : nat := snd (fst e).

Definition statusData (issues : list Issue.t) : list entry :=
  [("Open", Dashboard.openIssues issues, "#ef4444");
   ("In Progress", Dashboard.inProgressIssues issues, "#f59e0b");
   ("Resolved", Dashboard.resolvedIssues issues, "#10b981")].

Definition severityData (issues : list Issue.t) : list entry :=
  [("Critical", count_severity "critical" issues, "#ef4444");
   ("High", count_severity "high" issues, "#f59e0b");
   ("Medium", count_severity "medium" issues, "#3b82f6");
   ("Low", count_severity "low" issues, "#10b981")].

(** The panel "Recent Issues": [issues.slice(0, 5)]. *)
Definition recentIssues (issues : list Issue.t) : list Issue.t := firstn 5 issues.
End Charts.

(** A string in the characters 0 to 127, on which [toLowerCase] above is
    the lower case of JavaScript and a byte is a character. *)
Definition ascii_only (s : string) : Prop :=
  Forall (fun c => (nat_of_ascii c < 128)%nat) (list_ascii_of_string s).

(** *** The other TrackIssue page: [handleTrack] with its own state *)

Module TrackPage2.
Record t := mk {
  token : string;
  issue : option Issue.t;
  loading : bool;
  error : option string }.
End TrackPage2.

(** *** [String.prototype.trim]

    [trim] removes the WhiteSpace and LineTerminator code points of ECMAScript
    from both ends: TAB, LF, VT, FF, CR, the space, U+00A0, U+1680, U+2000 to
    U+200A, U+2028, U+2029, U+202F, U+205F, U+3000 and U+FEFF.  A [string]
    holds a character beyond 127 as the bytes of its UTF-8 encoding, so each of
    them is given as those bytes. *)
Definition bytes (l : list nat) : string := string_of_list_ascii (map ascii_of_nat l).

Definition white_space : list string :=
  map bytes
    [ [9]; [10]; [11]; [12]; [13]; [32];
      [194; 160];
      [225; 154; 128];
      [226; 128; 128]; [226; 128; 129]; [226; 128; 130]; [226; 128; 131];
      [226; 128; 132]; [226; 128; 133]; [226; 128; 134]; [226; 128; 135];
      [226; 128; 136]; [226; 128; 137]; [226; 128; 138];
      [226; 128; 168]; [226; 128; 169];
      [226; 128; 175];
      [226; 129; 159];
      [227; 128; 128];
      [239; 187; 191] ]%nat.

(** [s] is one white-space character. *)
Definition is_white_space (s : string) : bool := existsb (String.eqb s) white_space.

(** A string made of white-space characters only. *)
Inductive white_space_only : string -> Prop :=
| white_space_nil : white_space_only EmptyString
| white_space_cons (c s : string) :
    In c white_space -> white_space_only s -> white_space_only (c +:+ s).

(** [s.trimStart()]: a white-space character at the front takes one, two or
    three bytes. *)
Fixpoint trimStart (s : string) : string :=
  match s with
  | EmptyString => EmptyString
  | String a s1 =>
      if is_white_space (String a EmptyString) then trimStart s1
      else
        match s1 with
        | EmptyString => s
        | String b s2 =>
            if is_white_space (String a (String b EmptyString)) then trimStart s2
            else
              match s2 with
              | EmptyString => s
              | String c s3 =>
                  if is_white_space (String a (String b (String c EmptyString)))
                  then trimStart s3
                  else s
              end
        end
  end.

(** [s.trimEnd()], from the right: what is left of the rest, with the byte
    in front of it, is dropped when that is one white-space character. *)
Fixpoint trimEnd (s : string) : string :=
  match s with
  | EmptyString => EmptyString
  | String a s' =>
      let t := String a (trimEnd s') in
      if is_white_space t then EmptyString else t
  end.

(** [s.trim()] *)
Definition trim (s : string) : string := trimEnd (trimStart s).

(** The page keeps [token], [issue], [loading] and [error] in its own state
    [p]; the value returned is that state when the handler is done.
    if (!token.trim()) { setError(...); return; }
    setLoading(true); setError(null);
    try { ... } catch (err) { setError(...) } finally { setLoading(false) } *)
Definition handleTrack2 (p : TrackPage2.t) (n : Net) : M TrackPage2.t :=
  if trim (TrackPage2.token p) =? EmptyString then
    ret (TrackPage2.mk (TrackPage2.token p) (TrackPage2.issue p) (TrackPage2.loading p)
                       (Some "Please enter a tracking token"))
  else
    p' <- try_catch
            (trackedIssue <- trackIssueByToken (TrackPage2.token p) n ;;
             if truthy_object trackedIssue then
               ret (TrackPage2.mk (TrackPage2.token p) (Some (transform_written trackedIssue))
                                  true None)
             else
               ret (TrackPage2.mk (TrackPage2.token p) (TrackPage2.issue p) true
                      (Some "Issue not found. Please check your tracking token.")))
            (fun _ =>
               ret (TrackPage2.mk (TrackPage2.token p) (TrackPage2.issue p) true
                      (Some "Failed to track issue. Please try again."))) ;;
    ret (TrackPage2.mk (TrackPage2.token p') (TrackPage2.issue p') false (TrackPage2.error p')).

(** ** Further properties of states *)

(** No two stored issues carry the same token. *)
Definition tokens_distinct (d : Db.t) : Prop :=
  List.NoDup (map IssueRow.anonymous_token (Db.issues d)).

(** The key under which [createIssue] saves the token of an issue. *)
Definition token_key (issue_id : string) : string := "issue_token_" +:+ issue_id.

(** The patch of an update names neither the primary key nor the token. *)
Definition keeps_key (op : HookOp) : Prop :=
  match op with
  | UpdateIssue _ updates _ =>
      PartialIssue.id updates = None /\ PartialIssue.anonymous_token updates = None
  | _ => True
  end.

(** The patch of an update does not name the reporter. *)
Definition keeps_reporter (op : HookOp) : Prop :=
  match op with
  | UpdateIssue _ updates _ => PartialIssue.reporter_id updates = None
  | _ => True
  end.

(** [r] is the one stored row with the token [token], and the one stored
    row with the id [id]. *)
Definition keyed (token id : string) (d : Db.t) (r : IssueRow.t) : Prop :=
  List.filter (fun o => IssueRow.anonymous_token o =? token) (Db.issues d) = [r]
  /\ List.filter (fun o => IssueRow.id o =? id) (Db.issues d) = [r].

(** ** Further sample data *)

Module Sample2.
(** The older sample issue after [updateIssue] with the patch
    [Sample.resolve], by the privileged session of [Sample.world2]. *)
Definition resolved_row : IssueRow.t :=
  IssueRow.mk "issue-a" "Older" "A description of the issue." (Some "cat-maintenance") None
              "medium" "resolved" "token-a" None None None (JArr []) (JObj []) 10 105 None.
Definition store3 : Db.t :=
  Db.mk [] [Sample.maintenance] [resolved_row; Sample.newer] [] [] [Sample.staff] 105.
Definition updated : Issue.t := Issue.mk resolved_row (Some Sample.maintenance) None None None.
Definition world3 : World :=
  mkWorld store3 (Some "user-staff")
          (Hook.mk [transform_fetched (with_assignee Sample.store2 Sample.newer); updated]
                   [] [] false)
          [Toast.mk "Issue updated successfully" None None]
          [] ∅ (TrackPage.mk false None) (ReportPage.mk false 1) "/".

(** The same list in front of a session that has no privileged profile. *)
Definition visitor : World := Sample.world Sample.store2 (Some "user-7") Sample.fetched.

(** What the report form holds for the broken light. *)
Definition form : ReportData.t :=
  ReportData.mk "Broken light in lobby"
                "The lobby light has flickered for two weeks and now stays off."
                "cat-maintenance" (Some EmptyString) "low" (Some EmptyString) true.

(** An account that signs up with a privileged role in its metadata,
    without the form. *)
Definition intruder : AuthUser.t :=
  AuthUser.mk "user-x" "x@example.org" (<["role" := "staff"]> ∅).

(** The store of [Sample.world1] with a public and a private update of its
    issue. *)
Definition note (id : string) (public : bool) : IssueUpdate.t :=
  IssueUpdate.mk id "issue-1" "comment" "An electrician was called." None None None
                 public 106.
Definition store_notes : Db.t :=
  Db.mk [] [Sample.maintenance] [Sample.row1] [note "u-1" true; note "u-2" false] []
        [Sample.staff] 106.
Definition world_notes : World := Sample.world store_notes None [].
End Sample2.

Module Sample3.
(** A patch that names a reporter, and one that names another token. *)
Definition name_reporter : PartialIssue.t :=
  {| PartialIssue.id := None;
     PartialIssue.title := None;
     PartialIssue.description := None;
     PartialIssue.category_id := None;
     PartialIssue.department_id := None;
     PartialIssue.severity := None;
     PartialIssue.status := None;
     PartialIssue.anonymous_token := None;
     PartialIssue.reporter_id := Some "user-7";
     PartialIssue.assigned_to := None;
     PartialIssue.location := None;
     PartialIssue.attachments := None;
     PartialIssue.metadata := None;
     PartialIssue.created_at := None;
     PartialIssue.updated_at := None;
     PartialIssue.resolved_at := None |}.

Definition retoken : PartialIssue.t :=
  {| PartialIssue.id := None;
     PartialIssue.title := None;
     PartialIssue.description := None;
     PartialIssue.category_id := None;
     PartialIssue.department_id := None;
     PartialIssue.severity := None;
     PartialIssue.status := None;
     PartialIssue.anonymous_token := Some "token-z";
     PartialIssue.reporter_id := None;
     PartialIssue.assigned_to := None;
     PartialIssue.location := None;
     PartialIssue.attachments := None;
     PartialIssue.metadata := None;
     PartialIssue.created_at := None;
     PartialIssue.updated_at := None;
     PartialIssue.resolved_at := None |}.

(** [Sample.world2] after [createIssue] for the broken light: three stored
    issues, the new one in front of the list. *)
Definition store4 : Db.t :=
  Db.mk [] [Sample.maintenance] [Sample.older; Sample.newer; Sample.row1] [] []
        [Sample.staff] 105.
Definition world4 : World :=
  mkWorld store4 (Some "user-staff")
          (Hook.mk (Sample.created :: Sample.fetched) [] [] false)
          [Toast.mk "Issue reported successfully"
                    (Some "Your anonymous tracking ID is: Ki8Ov3Nw") None]
          [] (<[token_key "issue-1" := Sample.token]> ∅)
          (TrackPage.mk false None) (ReportPage.mk false 1) "/".

(** What the privileged session then does: it resolves the new issue, loads
    the list and looks the older issue up. *)
Definition later : list HookOp :=
  [UpdateIssue "issue-1" Sample.resolve (mkWriteEnv None "unused" 1);
   FetchIssues None;
   TrackIssueByToken "token-a" None].

(** Seven issues, newest first. *)
Definition dated (id : string) (created_at : Z) : Issue.t :=
  Issue.mk (IssueRow.mk id "An issue" "A description of the issue." (Some "cat-maintenance")
                        None "low" "open" ("token-" +:+ id) None None None (JArr []) (JObj [])
                        created_at created_at None)
           (Some Sample.maintenance) None None None.
Definition week : list Issue.t :=
  [dated "g" 70; dated "f" 60; dated "e" 50; dated "d" 40; dated "c" 30; dated "b" 20;
   dated "a" 10].
End Sample3.

(** * Properties *)

(** ** The monad and the store: basic facts *)

Ltac unfold_m :=
  unfold try_catch, try_finally, bind, ret, throw, modify, await_read, await_write,
    console_error, toast, localStorage_setItem, setIssues, setCategories,
    setDepartments, setLoading, setTrackLoading, setTrackedIssue, setReportLoading,
    navigate in *.

Lemma with_db_same (w : World) : with_db (db w) w = w.
Proof. destruct w; reflexivity. Qed.

(** A failed insert leaves the store as it was. *)
Lemma insert_issue_Failure ins env d e d' :
  insert_issue ins env d = (Failure e, d') -> d' = d.
Proof.
  unfold insert_issue.
  destruct (net env); [intros [= _ <-]; reflexivity|].
  destruct (InsertData.title ins); [|intros [= _ <-]; reflexivity].
  destruct (InsertData.description ins); [|intros [= _ <-]; reflexivity].
  destruct (InsertData.severity ins); [|intros [= _ <-]; reflexivity].
  destruct (issues_constraints _ _ _); [intros [= _ <-]; reflexivity|].
  discriminate.
Qed.

(** A failed update leaves the store as it was. *)
Lemma update_issue_Failure uid issueId updates env d e d' :
  update_issue uid issueId updates env d = (Failure e, d') -> d' = d.
Proof.
  unfold update_issue.
  destruct (net env); [intros [= _ <-]; reflexivity|].
  destruct (negb (staff_can_update_issues d uid)); [intros [= _ <-]; reflexivity|].
  destruct (List.filter _ (Db.issues d)) as [|old [|? ?]];
    try (intros [= _ <-]; reflexivity).
  destruct (issues_constraints _ _ _); [intros [= _ <-]; reflexivity|].
  destruct (_ && _); [intros [= _ <-]; reflexivity|discriminate].
Qed.

(** What a successful insert has checked and done. *)
Lemma insert_issue_Success ins env d data d' :
  insert_issue ins env d = (Success data, d') ->
  exists t ds s,
    let now := (Db.clock d + Z.of_N (elapsed env))%Z in
    let r := new_row ins t ds s (uuid env) now in
    net env = None
    /\ InsertData.title ins = Some t
    /\ InsertData.description ins = Some ds
    /\ InsertData.severity ins = Some s
    /\ issues_constraints d (Db.issues d) r = None
    /\ d' = Db.with_issues (Db.issues d ++ [r]) now d
    /\ data = with_lookups d' r.
Proof.
  unfold insert_issue.
  destruct (net env); [discriminate|].
  destruct (InsertData.title ins) as [t|]; [|discriminate].
  destruct (InsertData.description ins) as [ds|]; [|discriminate].
  destruct (InsertData.severity ins) as [s|]; [|discriminate].
  destruct (issues_constraints _ _ _) eqn:C; [discriminate|].
  intros [= <- <-]. exists t, ds, s. cbv zeta. repeat split; auto.
Qed.

(** When [createIssue] returns, the token is the one the database function
    gave, the row built from the six fields it sends was accepted and stored
    last, and the issue returned is that row as selected back. *)
Lemma createIssue_Normal issueData rpc env w issue token w' :
  createIssue issueData rpc env w = (Normal (issue, token), w') ->
  exists t ds s,
    let now := (Db.clock (db w) + Z.of_N (elapsed env))%Z in
    let r := new_row (insertData_of issueData token) t ds s (uuid env) now in
    rpc = Success token
    /\ PartialIssue.title issueData = Some t
    /\ PartialIssue.description issueData = Some ds
    /\ PartialIssue.severity issueData = Some s
    /\ issues_constraints (db w) (Db.issues (db w)) r = None
    /\ db w' = Db.with_issues (Db.issues (db w) ++ [r]) now (db w)
    /\ issue = transform_written (with_lookups (db w') r)
    /\ Hook.issues (hook w') = issue :: Hook.issues (hook w).
Proof.
  unfold createIssue. unfold_m.
  destruct rpc as [tokenData|tokenError]; [|discriminate].
  destruct (insert_issue _ env (db w)) as [[data|error] d] eqn:I; [|discriminate].
  intros [= <- <- <-].
  destruct (insert_issue_Success _ _ _ _ _ I) as (t & ds & s & Hn & Ht & Hd & Hs & Hc & -> & ->).
  exists t, ds, s. cbv zeta. simpl. repeat split; auto.
Qed.

Lemma filter_none {A} (f : A -> bool) (l : list A) :
  existsb f l = false -> List.filter f l = [].
Proof.
  induction l as [|a l IH]; simpl; [reflexivity|].
  destruct (f a); simpl; [discriminate|exact IH].
Qed.

(** A row that passed the constraints carries a token no other row has. *)
Lemma issues_constraints_token d others r :
  issues_constraints d others r = None ->
  existsb (fun o => IssueRow.anonymous_token o =? IssueRow.anonymous_token r) others = false.
Proof.
  unfold issues_constraints.
  destruct (negb (severity_check _)); [discriminate|].
  destruct (negb (status_check _)); [discriminate|].
  destruct (existsb (fun o => IssueRow.id o =? IssueRow.id r) others); [discriminate|].
  destruct (existsb _ others); [discriminate|reflexivity].
Qed.

Lemma issues_constraints_id d others r :
  issues_constraints d others r = None ->
  existsb (fun o => IssueRow.id o =? IssueRow.id r) others = false.
Proof.
  unfold issues_constraints.
  destruct (negb (severity_check _)); [discriminate|].
  destruct (negb (status_check _)); [discriminate|].
  destruct (existsb _ others); [discriminate|reflexivity].
Qed.



(** [trackIssueByToken] returns what the select found and changes nothing. *)
Lemma trackIssueByToken_found token n w data :
  select_issue_by_token token n (db w) = Success data ->
  trackIssueByToken token n w = (Normal data, w).
Proof. intros S. unfold trackIssueByToken. unfold_m. rewrite S. reflexivity. Qed.

(** Whatever makes the select fail, [trackIssueByToken] logs the error, shows
    the toast "Issue not found" and throws the error again. *)
Lemma trackIssueByToken_failed token n w e :
  select_issue_by_token token n (db w) = Failure e ->
  trackIssueByToken token n w
  = (Thrown e,
     after_failure "Error tracking issue:" e
       (Some (Toast.mk "Issue not found"
                (Some "Please check your tracking token and try again.") destructive)) w).
Proof. intros S. unfold trackIssueByToken. unfold_m. rewrite S. reflexivity. Qed.

(** A token that no stored issue carries is answered by the error of
    [.single()]. *)
Lemma select_unknown_token token d :
  (forall r, In r (Db.issues d) -> IssueRow.anonymous_token r <> token) ->
  select_issue_by_token token None d = Failure not_single_row.
Proof.
  intros H. unfold select_issue_by_token.
  rewrite filter_none; [reflexivity|].
  apply not_true_is_false. intros E. apply existsb_exists in E as (r & Hin & Heq).
  apply String.eqb_eq in Heq. exact (H r Hin Heq).
Qed.


Lemma existsb_none {A} (f : A -> bool) (l : list A) :
  (forall x, In x l -> f x = false) -> existsb f l = false.
Proof.
  intros H. apply not_true_is_false. intros E.
  apply existsb_exists in E as (x & Hin & Hx). rewrite (H x Hin) in Hx. discriminate.
Qed.

(** [createIssue] does return when the database function delivers the token,
    the transport works, the three required fields are there with a severity
    of the schema, the key and the token are new, and the category and the
    department, if named, exist. *)
Lemma createIssue_returns issueData tokenData env w t ds s :
  net env = None ->
  PartialIssue.title issueData = Some t ->
  PartialIssue.description issueData = Some ds ->
  PartialIssue.severity issueData = Some s ->
  severity_check s = true ->
  (forall o, In o (Db.issues (db w)) -> IssueRow.id o <> uuid env) ->
  (forall o, In o (Db.issues (db w)) -> IssueRow.anonymous_token o <> tokenData) ->
  references (find_category (db w)) (PartialIssue.category_id issueData) = true ->
  references (find_department (db w)) (PartialIssue.department_id issueData) = true ->
  exists issue w',
    createIssue issueData (Success tokenData) env w = (Normal (issue, tokenData), w').
Proof.
  intros Hn Ht Hd Hs Hsev Hid Htok Hcat Hdep.
  unfold createIssue. unfold_m. unfold insert_issue. simpl.
  rewrite Hn, Ht, Hd, Hs.
  unfold issues_constraints. simpl. rewrite Hsev, Hcat, Hdep. simpl.
  rewrite (existsb_none (fun o => IssueRow.id o =? uuid env)), existsb_none.
  - eexists. eexists. reflexivity.
  - intros o Ho. apply String.eqb_neq. exact (Htok o Ho).
  - intros o Ho. apply String.eqb_neq. exact (Hid o Ho).
Qed.

(** The sample submission goes through. *)
Lemma sample_createIssue :
  createIssue Sample.broken_light (Success Sample.token) Sample.env Sample.world0
  = (Normal (Sample.created, Sample.token), Sample.world1).
Proof. vm_compute. reflexivity. Qed.

(** ** Tracking by token *)

(** For a token that no issue carries the hook does not return: it throws
    the error of [.single()], after the toast "Issue not found". *)
Lemma trackIssueByToken_unknown_token token w :
  (forall r, In r (Db.issues (db w)) -> IssueRow.anonymous_token r <> token) ->
  trackIssueByToken token None w
  = (Thrown not_single_row,
     after_failure "Error tracking issue:" not_single_row
       (Some (Toast.mk "Issue not found"
                (Some "Please check your tracking token and try again.") destructive)) w).
Proof.
  intros H. apply trackIssueByToken_failed, select_unknown_token, H.
Qed.

(** The page catches what the hook throws.  Whatever failed, it ends with the
    toast of the hook followed by its own "Error tracking issue", and shows no
    issue it did not show before. *)
Lemma handleTrack_failed token n w e :
  select_issue_by_token token n (db w) = Failure e ->
  let (c, w') := handleTrack token n w in
  c = Normal tt
  /\ toasts w'
     = toasts w
       ++ [Toast.mk "Issue not found"
             (Some "Please check your tracking token and try again.") destructive;
           Toast.mk "Error tracking issue"
             (Some "Please try again or contact support if the problem persists.")
             destructive]
  /\ console w' = console w ++ [("Error tracking issue:", e)]
  /\ track_page w' = TrackPage.mk false (TrackPage.trackedIssue (track_page w)).
Proof.
  intros S. unfold handleTrack, trackIssueByToken. unfold_m. simpl. rewrite S. simpl.
  rewrite <- app_assoc. repeat split; reflexivity.
Qed.

(** C1 (the hook departs from the specification).  The specification has
    [trackIssueByToken], for a token that matches no issue, return a
    null-equivalent not-found result, distinct from a transport failure, and
    never throw.  The hook, on the store [Sample.store1] and the token
    "never-issued", throws the error PGRST116 of [.single()]; the page
    [handleTrack] catches it, and ends with exactly the toasts it shows when
    the transport fails. *)
Theorem trackIssueByToken_never_issued_throws :
  trackIssueByToken "never-issued" None Sample.world1
  = (Thrown not_single_row,
     after_failure "Error tracking issue:" not_single_row
       (Some (Toast.mk "Issue not found"
                (Some "Please check your tracking token and try again.") destructive))
       Sample.world1)
  /\ fst (handleTrack "never-issued" None Sample.world1) = Normal tt
  /\ toasts (snd (handleTrack "never-issued" None Sample.world1))
     = toasts (snd (handleTrack "never-issued" (Some Sample.timeout) Sample.world1))
  /\ toasts (snd (handleTrack "never-issued" None Sample.world1))
     = toasts Sample.world1
       ++ [Toast.mk "Issue not found"
             (Some "Please check your tracking token and try again.") destructive;
           Toast.mk "Error tracking issue"
             (Some "Please try again or contact support if the problem persists.")
             destructive].
Proof.
  split.
  - apply trackIssueByToken_unknown_token. simpl.
    intros r [<-|[]]. discriminate.
  - repeat split; reflexivity.
Qed.

(** ** Creating, then tracking *)



(** ** Failures at the boundary of the hook *)

(** C4, as stated, fails twice.  A failed [fetchCategories] is logged but
    shows no notification; a failed [createIssue] hands the error object of
    the remote call, with its code, on to the page that called it. *)
Lemma failure_without_toast_and_error_rethrown :
  remote_failure (FetchCategories (Some Sample.timeout)) Sample.world0 = Some Sample.timeout
  /\ toasts (snd (fetchCategories (Some Sample.timeout) Sample.world0)) = toasts Sample.world0
  /\ remote_failure (CreateIssue Sample.broken_light (Failure Sample.denied) Sample.env)
       Sample.world0 = Some Sample.denied
  /\ fst (createIssue Sample.broken_light (Failure Sample.denied) Sample.env Sample.world0)
     = Thrown Sample.denied
  /\ code Sample.denied = "42501".
Proof. repeat split; reflexivity. Qed.

(** C4, amended.  Every failure of a remote call is caught in the hook and
    logged with the label of the operation.  [fetchIssues], [createIssue],
    [updateIssue] and [trackIssueByToken] then show one destructive toast;
    [fetchCategories] and [fetchDepartments] show none.  The three fetches
    complete normally; [createIssue], [updateIssue] and [trackIssueByToken]
    throw the same error again, to their caller.  Nothing else changes. *)
Theorem hook_failure_handling op w e :
  remote_failure op w = Some e ->
  perform op w
  = ((if rethrows op then Thrown e else Normal tt),
     after_failure (failure_label op) e (failure_toast op e) w).
Proof.
  destruct op as [n|n|n|issueData rpc env|issueId updates env|token n]; simpl.
  - unfold fetchIssues. unfold_m.
    destruct (select_issues n (db w)); [discriminate|]. intros [= ->]. reflexivity.
  - unfold fetchCategories. unfold_m.
    destruct (select_categories n (db w)); [discriminate|]. intros [= ->]. reflexivity.
  - unfold fetchDepartments. unfold_m.
    destruct (select_departments n (db w)); [discriminate|]. intros [= ->]. reflexivity.
  - unfold createIssue. unfold_m.
    destruct rpc as [tokenData|tokenError]; [|intros [= ->]; reflexivity].
    destruct (insert_issue _ env (db w)) as [[data|error] d] eqn:I; simpl;
      [discriminate|].
    intros [= ->]. rewrite (insert_issue_Failure _ _ _ _ _ I), with_db_same.
    reflexivity.
  - unfold updateIssue. unfold_m.
    destruct (update_issue _ issueId updates env (db w)) as [[data|error] d] eqn:U; simpl;
      [discriminate|].
    intros [= ->]. rewrite (update_issue_Failure _ _ _ _ _ _ _ U), with_db_same.
    reflexivity.
  - unfold trackIssueByToken. unfold_m.
    destruct (select_issue_by_token token n (db w)); [discriminate|].
    intros [= ->]. reflexivity.
Qed.

Lemma hook_failure_handling_witness :
  remote_failure (UpdateIssue "issue-b" Sample.resolve Sample.env)
    (Sample.world Sample.store2 (Some "user-7") Sample.fetched) = Some not_single_row
  /\ perform (UpdateIssue "issue-b" Sample.resolve Sample.env)
       (Sample.world Sample.store2 (Some "user-7") Sample.fetched)
     = (Thrown not_single_row,
        after_failure "Error updating issue:" not_single_row
          (Some (Toast.mk "Error updating issue" (Some (message not_single_row)) destructive))
          (Sample.world Sample.store2 (Some "user-7") Sample.fetched)).
Proof.
  split.
  - reflexivity.
  - apply (hook_failure_handling (UpdateIssue "issue-b" Sample.resolve Sample.env)
             (Sample.world Sample.store2 (Some "user-7") Sample.fetched) not_single_row).
    reflexivity.
Defined.

(** ** Fetching the issues *)

(** C5.  A failed [fetchIssues] logs the error, shows a destructive toast
    with its message and leaves the state of the hook (the list of issues
    included) and the store as they were; a successful one replaces the list by
    all the stored issues, newest first. *)
Theorem fetchIssues_failure_keeps_issues (e : PgError) (w : World) :
  fetchIssues (Some e) w
  = (Normal tt,
     after_failure "Error fetching issues:" e
       (Some (Toast.mk "Error loading issues" (Some (message e)) destructive)) w)
  /\ hook (snd (fetchIssues (Some e) w)) = hook w
  /\ toasts (snd (fetchIssues (Some e) w))
     = toasts w ++ [Toast.mk "Error loading issues" (Some (message e)) destructive]
  /\ Hook.issues (hook (snd (fetchIssues None w)))
     = map transform_fetched
         (map (with_assignee (db w)) (order_by newest_first (Db.issues (db w)))).
Proof. repeat split; reflexivity. Qed.

(** ** The dashboard *)

Lemma toLowerCase_empty : toLowerCase EmptyString = EmptyString.
Proof. reflexivity. Qed.

(** Every string includes the empty string. *)
Lemma includes_empty (s : string) : includes s EmptyString = true.
Proof. destruct s; reflexivity. Qed.

(** With an empty search and every severity allowed, the filter of the
    dashboard is the filter on the status. *)
Lemma filteredIssues_status_only (X : string) (issues : list Issue.t) :
  (X =? "all") = false ->
  Dashboard.filteredIssues EmptyString X "all" issues
  = List.filter (fun i => Issue.status i =? X) issues.
Proof.
  intros HX. unfold Dashboard.filteredIssues. apply filter_ext.
  intros i. cbv zeta. rewrite toLowerCase_empty, includes_empty, HX. simpl.
  apply andb_true_r.
Qed.

(** Whatever the search and the severity filter, the issues shown have the
    status asked for. *)
Lemma filteredIssues_only_status (searchTerm X severityFilter : string)
    (issues : list Issue.t) (i : Issue.t) :
  (X =? "all") = false ->
  In i (Dashboard.filteredIssues searchTerm X severityFilter issues) ->
  Issue.status i = X.
Proof.
  intros HX Hin. unfold Dashboard.filteredIssues in Hin.
  apply filter_In in Hin as [_ H]. cbv zeta in H. rewrite HX in H. simpl in H.
  apply andb_prop in H as [H _]. apply andb_prop in H as [_ H].
  apply String.eqb_eq. exact H.
Qed.

(** The four counters add up to the length of a list of issues whose
    statuses are among the four. *)
Lemma status_counts_total (issues : list Issue.t) :
  Forall (fun i => In (Issue.status i) IssueStatus) issues ->
  count_status "open" issues + count_status "in_progress" issues
  + count_status "resolved" issues + count_status "closed" issues
  = length issues.
Proof.
  unfold count_status.
  induction 1 as [|i l Hi _ IH]; [reflexivity|].
  simpl in Hi. simpl.
  destruct Hi as [<-|[<-|[<-|[<-|[]]]]]; simpl; lia.
Qed.

(** C6.  For a list of issues whose statuses are among the four, and one of
    the four, [X]: filtering the dashboard by [X] (no search term, every
    severity) gives exactly the issues with status [X], in their order; with
    any search term and severity filter it gives only such issues; and the
    number of issues with status [X] plus those of the three other statuses is
    the number of issues. *)
Theorem filter_by_status_partitions (issues : list Issue.t) (X : string) :
  In X IssueStatus ->
  Forall (fun i => In (Issue.status i) IssueStatus) issues ->
  Dashboard.filteredIssues EmptyString X "all" issues
  = List.filter (fun i => Issue.status i =? X) issues
  /\ (forall i, In i (Dashboard.filteredIssues EmptyString X "all" issues)
                <-> In i issues /\ Issue.status i = X)
  /\ (forall searchTerm severityFilter i,
        In i (Dashboard.filteredIssues searchTerm X severityFilter issues) ->
        Issue.status i = X)
  /\ length (Dashboard.filteredIssues EmptyString X "all" issues)
     + list_sum (map (fun s => count_status s issues) (other_statuses X))
     = Dashboard.totalIssues issues
  /\ Dashboard.openIssues issues + Dashboard.inProgressIssues issues
     + Dashboard.resolvedIssues issues + count_status "closed" issues
     = Dashboard.totalIssues issues.
Proof.
  intros HX Hall.
  assert (Hnot : (X =? "all") = false)
    by (simpl in HX; destruct HX as [<-|[<-|[<-|[<-|[]]]]]; reflexivity).
  pose proof (status_counts_total issues Hall) as T.
  split; [exact (filteredIssues_status_only X issues Hnot)|].
  split.
  { intros i. rewrite (filteredIssues_status_only X issues Hnot), filter_In.
    rewrite String.eqb_eq. reflexivity. }
  split.
  { intros s v i. exact (filteredIssues_only_status s X v issues i Hnot). }
  split; [|exact T].
  rewrite (filteredIssues_status_only X issues Hnot).
  unfold Dashboard.totalIssues. fold (count_status X issues).
  simpl in HX. destruct HX as [<-|[<-|[<-|[<-|[]]]]]; simpl; lia.
Qed.

Lemma filter_by_status_partitions_witness :
  In "resolved" IssueStatus
  /\ Forall (fun i => In (Issue.status i) IssueStatus) Sample.fetched
  /\ Dashboard.filteredIssues EmptyString "resolved" "all" Sample.fetched
     = List.filter (fun i => Issue.status i =? "resolved") Sample.fetched
  /\ (forall i, In i (Dashboard.filteredIssues EmptyString "resolved" "all" Sample.fetched)
                <-> In i Sample.fetched /\ Issue.status i = "resolved")
  /\ (forall searchTerm severityFilter i,
        In i (Dashboard.filteredIssues searchTerm "resolved" severityFilter Sample.fetched) ->
        Issue.status i = "resolved")
  /\ length (Dashboard.filteredIssues EmptyString "resolved" "all" Sample.fetched)
     + list_sum (map (fun s => count_status s Sample.fetched) (other_statuses "resolved"))
     = Dashboard.totalIssues Sample.fetched
  /\ Dashboard.openIssues Sample.fetched + Dashboard.inProgressIssues Sample.fetched
     + Dashboard.resolvedIssues Sample.fetched + count_status "closed" Sample.fetched
     = Dashboard.totalIssues Sample.fetched.
Proof.
  assert (H1 : In "resolved" IssueStatus) by (simpl; auto).
  assert (H2 : Forall (fun i => In (Issue.status i) IssueStatus) Sample.fetched)
    by (repeat constructor; simpl; auto).
  split; [exact H1|]. split; [exact H2|].
  exact (filter_by_status_partitions Sample.fetched "resolved" H1 H2).
Defined.

(** ** What [createIssue] sends *)

Lemma insertData_of_same (a b : PartialIssue.t) (tokenData : string) :
  same_sent_fields a b -> insertData_of a tokenData = insertData_of b tokenData.
Proof.
  intros (Ht & Hd & Hc & Hp & Hs & Hl). unfold insertData_of.
  rewrite Ht, Hd, Hc, Hp, Hs, Hl. reflexivity.
Qed.

(** A row built by [new_row] has no reporter. *)
Lemma new_row_reporter ins t ds s id now :
  IssueRow.reporter_id (new_row ins t ds s id now) = None.
Proof. reflexivity. Qed.

(** When [createIssue] throws, the store and the state of the hook are as
    they were. *)
Lemma createIssue_Thrown issueData rpc env w e w' :
  createIssue issueData rpc env w = (Thrown e, w') -> db w' = db w /\ hook w' = hook w.
Proof.
  unfold createIssue. unfold_m.
  destruct rpc as [tokenData|tokenError]; [|intros [= _ <-]; split; reflexivity].
  destruct (insert_issue _ env (db w)) as [[data|error] d] eqn:I; [discriminate|].
  intros [= _ <-]. simpl. split; [exact (insert_issue_Failure _ _ _ _ _ I)|reflexivity].
Qed.

(** The form leaves the store as its call of [createIssue] leaves it. *)
Lemma handleSubmit_store data timestamp rpc env w :
  db (snd (handleSubmit data timestamp rpc env w))
  = db (snd (createIssue (issueData_of data (session w) timestamp) rpc env
              (with_report_page (ReportPage.mk true (ReportPage.step (report_page w))) w))).
Proof.
  unfold handleSubmit. unfold_m. simpl.
  destruct (createIssue _ rpc env _) as [[[issue token]|e] w']; reflexivity.
Qed.

(** Whoever is signed in and whatever the form says, a submission adds at
    most one row, and that row has no reporter. *)
Lemma handleSubmit_stores_no_reporter data timestamp rpc env w :
  Db.issues (db (snd (handleSubmit data timestamp rpc env w))) = Db.issues (db w)
  \/ exists r,
       Db.issues (db (snd (handleSubmit data timestamp rpc env w)))
       = Db.issues (db w) ++ [r]
       /\ IssueRow.reporter_id r = None.
Proof.
  rewrite handleSubmit_store.
  destruct (createIssue _ rpc env _) as [[[issue token]|e] w'] eqn:C; simpl.
  - destruct (createIssue_Normal _ _ _ _ _ _ _ C)
      as (t & ds & s & _ & _ & _ & _ & _ & Hdb & _ & _).
    right. eexists. rewrite Hdb. simpl. split; reflexivity.
  - left. destruct (createIssue_Thrown _ _ _ _ _ _ C) as [-> _]. reflexivity.
Qed.

(** C9.  Two arguments of [createIssue] that agree on title, description,
    category, department, severity and location (whatever their reporter,
    status, metadata and attachments) send the same [insertData], and
    [createIssue] does the same with both: same result, same store, same
    client.  The row it stores has no reporter; so a report that the form
    builds for a signed-in reporter, with [reporter_id] set, is stored without
    a reporter. *)
Theorem createIssue_sends_six_fields (a b : PartialIssue.t) rpc env w :
  same_sent_fields a b ->
  (forall tokenData, insertData_of a tokenData = insertData_of b tokenData)
  /\ createIssue a rpc env w = createIssue b rpc env w
  /\ (forall issue token w',
        createIssue a rpc env w = (Normal (issue, token), w') ->
        Issue.reporter_id issue = None
        /\ exists r, Db.issues (db w') = Db.issues (db w) ++ [r]
                     /\ IssueRow.anonymous_token r = token
                     /\ IssueRow.reporter_id r = None)
  /\ (forall data user timestamp issue token w',
        ReportData.anonymous data = false ->
        let issueData := issueData_of data (Some user) timestamp in
        createIssue issueData rpc env w = (Normal (issue, token), w') ->
        PartialIssue.reporter_id issueData = Some user
        /\ exists r, Db.issues (db w') = Db.issues (db w) ++ [r]
                     /\ IssueRow.anonymous_token r = token
                     /\ IssueRow.reporter_id r = None).
Proof.
  intros H.
  assert (Stored : forall i issue token w',
            createIssue i rpc env w = (Normal (issue, token), w') ->
            Issue.reporter_id issue = None
            /\ exists r, Db.issues (db w') = Db.issues (db w) ++ [r]
                         /\ IssueRow.anonymous_token r = token
                         /\ IssueRow.reporter_id r = None).
  { intros i issue token w' C.
    destruct (createIssue_Normal _ _ _ _ _ _ _ C)
      as (t & ds & s & _ & _ & _ & _ & _ & Hdb & Hi & _).
    split; [rewrite Hi; reflexivity|].
    eexists. rewrite Hdb. simpl. repeat split; reflexivity. }
  split; [intros tokenData; exact (insertData_of_same a b tokenData H)|].
  split.
  { unfold createIssue. destruct rpc as [tokenData|tokenError]; [|reflexivity].
    rewrite (insertData_of_same a b tokenData H). reflexivity. }
  split; [exact (Stored a)|].
  intros data user timestamp issue token w' Hanon issueData C. split.
  - unfold issueData, issueData_of. simpl. rewrite Hanon. reflexivity.
  - exact (proj2 (Stored _ _ _ _ C)).
Qed.

Lemma createIssue_sends_six_fields_witness :
  same_sent_fields Sample.broken_light_signed Sample.broken_light
  /\ createIssue Sample.broken_light_signed (Success Sample.token) Sample.env Sample.world0
     = createIssue Sample.broken_light (Success Sample.token) Sample.env Sample.world0
  /\ createIssue Sample.broken_light_signed (Success Sample.token) Sample.env Sample.world0
     = (Normal (Sample.created, Sample.token), Sample.world1)
  /\ Issue.reporter_id Sample.created = None.
Proof.
  assert (H : same_sent_fields Sample.broken_light_signed Sample.broken_light)
    by (repeat split; reflexivity).
  assert (C : createIssue Sample.broken_light_signed (Success Sample.token) Sample.env
                Sample.world0 = (Normal (Sample.created, Sample.token), Sample.world1))
    by (vm_compute; reflexivity).
  destruct (createIssue_sends_six_fields Sample.broken_light_signed Sample.broken_light
              (Success Sample.token) Sample.env Sample.world0 H) as (_ & Same & Stored & _).
  split; [exact H|]. split; [exact Same|]. split; [exact C|].
  exact (proj1 (Stored _ _ _ C)).
Defined.

(** ** Roles and the policies for staff *)

Lemma one_of_In (allowed : list string) (s : string) :
  one_of allowed s = true <-> In s allowed.
Proof.
  unfold one_of. rewrite existsb_exists. split.
  - intros (x & Hin & Heq). apply String.eqb_eq in Heq. subst. exact Hin.
  - intros Hin. exists s. split; [exact Hin|apply String.eqb_refl].
Qed.

(** None of the roles of the sign-up form is a privileged role. *)
Lemma signUp_roles_not_privileged (r : string) :
  In r signUp_roles -> one_of privileged_roles r = false.
Proof. simpl. intros [<-|[<-|[<-|[]]]]; reflexivity. Qed.

(** The form passes its role on under the key the trigger reads. *)
Lemma signUp_metadata_role (data : SignUpData.t) :
  signUp_metadata data !! "role" = Some (SignUpData.role data).
Proof.
  unfold signUp_metadata.
  rewrite lookup_insert_ne by discriminate.
  rewrite lookup_insert_ne by discriminate.
  apply lookup_insert_eq.
Qed.

Lemma signUpSchema_role is_email (data : SignUpData.t) :
  signUpSchema is_email data = true -> In (SignUpData.role data) signUp_roles.
Proof.
  unfold signUpSchema. intros H.
  repeat (apply andb_prop in H as [H ?]).
  apply one_of_In. assumption.
Qed.

(** A caller with no profile, or with profiles without a privileged role,
    does not satisfy the policy for staff. *)
Lemma staff_policy_false (d : Db.t) (uid : string) :
  (forall p, In p (Db.profiles d) ->
             Profile.user_id p = uid -> one_of privileged_roles (Profile.role p) = false) ->
  staff_policy d (Some uid) = false.
Proof.
  intros H. unfold staff_policy. apply not_true_is_false. intros E.
  apply existsb_exists in E as (p & Hin & Hp). apply andb_prop in Hp as [Hu Hr].
  apply String.eqb_eq in Hu. rewrite (H p Hin Hu) in Hr. discriminate.
Qed.

(** The profile page, too, gives a role of the form or 'employee'. *)
Lemma profile_page_roles_not_privileged is_email (data : SignUpData.t) :
  signUpSchema is_email data = true ->
  one_of privileged_roles createInitialProfile_role = false
  /\ one_of privileged_roles (newProfile_role (signUp_metadata data)) = false
  /\ one_of privileged_roles (newProfile_role ∅) = false.
Proof.
  intros V. split; [reflexivity|]. split; [|reflexivity].
  unfold newProfile_role. rewrite signUp_metadata_role.
  pose proof (signUpSchema_role _ _ V) as H. simpl in H.
  destruct H as [<-|[<-|[<-|[]]]]; reflexivity.
Qed.

(** C10.  An account created through the sign-up form gets a profile whose
    role is one of 'employee', 'manager' and 'hr'; the trigger gives
    'employee' to an account that comes without a role; none of these is
    'staff' or 'faculty', so the new account satisfies neither the policy for
    updating issues nor the one for inserting issue updates. *)
Theorem sign_up_role_never_privileged (is_email : string -> bool)
    (data : SignUpData.t) (uid pid : string) (d d' : Db.t) :
  handleSignUp is_email data uid pid d = Some d' ->
  (forall p, In p (Db.profiles d) -> Profile.user_id p <> uid) ->
  (exists p, Db.profiles d' = Db.profiles d ++ [p]
             /\ Profile.user_id p = uid
             /\ In (Profile.role p) signUp_roles
             /\ one_of privileged_roles (Profile.role p) = false)
  /\ staff_can_update_issues d' (Some uid) = false
  /\ staff_can_create_updates d' (Some uid) = false
  /\ (forall NEW p now,
        AuthUser.raw_user_meta_data NEW !! "role" = None ->
        Profile.role (handle_new_user NEW p now) = "employee")
  /\ (forall r, In r ("employee" :: signUp_roles) -> one_of privileged_roles r = false).
Proof.
  unfold handleSignUp. destruct (signUpSchema is_email data) eqn:V; [|discriminate].
  intros [= <-] Hfresh.
  pose proof (signUpSchema_role _ _ V) as Hrole.
  set (p := handle_new_user (signUp uid (SignUpData.email data) (signUp_metadata data))
                            pid (Db.clock d)).
  assert (Rp : Profile.role p = SignUpData.role data).
  { unfold p, handle_new_user, signUp. simpl. rewrite signUp_metadata_role. reflexivity. }
  assert (Np : one_of privileged_roles (Profile.role p) = false)
    by (rewrite Rp; exact (signUp_roles_not_privileged _ Hrole)).
  assert (Pol : staff_policy
                  (on_auth_user_created
                     (signUp uid (SignUpData.email data) (signUp_metadata data)) pid d)
                  (Some uid) = false).
  { apply staff_policy_false. simpl. intros q Hq Hu.
    apply in_app_or in Hq as [Hq|[<-|[]]].
    - destruct (Hfresh q Hq Hu).
    - exact Np. }
  split.
  { exists p. split; [reflexivity|]. split; [reflexivity|].
    split; [rewrite Rp; exact Hrole|exact Np]. }
  split; [exact Pol|]. split; [exact Pol|]. split.
  - intros NEW q now Hnone. unfold handle_new_user. simpl. rewrite Hnone. reflexivity.
  - intros r [<-|Hr]; [reflexivity|exact (signUp_roles_not_privileged r Hr)].
Qed.

Lemma sign_up_role_never_privileged_witness :
  handleSignUp Sample.is_email Sample.sign_up "user-ada" "p-2" Sample.store
  = Some Sample.store_ada
  /\ (forall p, In p (Db.profiles Sample.store) -> Profile.user_id p <> "user-ada")
  /\ staff_can_update_issues Sample.store_ada (Some "user-ada") = false
  /\ staff_can_create_updates Sample.store_ada (Some "user-ada") = false.
Proof.
  assert (H : handleSignUp Sample.is_email Sample.sign_up "user-ada" "p-2" Sample.store
              = Some Sample.store_ada) by (vm_compute; reflexivity).
  assert (F : forall p, In p (Db.profiles Sample.store) -> Profile.user_id p <> "user-ada")
    by (simpl; intros p [<-|[]]; discriminate).
  destruct (sign_up_role_never_privileged Sample.is_email Sample.sign_up "user-ada" "p-2"
              Sample.store Sample.store_ada H F) as (_ & U & C & _).
  split; [exact H|]. split; [exact F|]. split; [exact U|exact C].
Defined.

(** ** The order of the list the hook holds *)

Lemma insert_by_In {A} (le : A -> A -> bool) (x z : A) (l : list A) :
  In z (insert_by le x l) <-> z = x \/ In z l.
Proof.
  induction l as [|y l IH]; simpl.
  - intuition.
  - destruct (le x y); simpl; rewrite ?IH; intuition.
Qed.

Lemma order_by_In {A} (le : A -> A -> bool) (z : A) (l : list A) :
  In z (order_by le l) <-> In z l.
Proof.
  induction l as [|y l IH]; simpl; [reflexivity|].
  rewrite insert_by_In, IH. intuition.
Qed.

(** Inserting a row into a list that is newest first keeps it so. *)
Lemma insert_by_newest_first (x : IssueRow.t) (l : list IssueRow.t) :
  StronglySorted (fun a b => (b <= a)%Z) (map IssueRow.created_at l) ->
  StronglySorted (fun a b => (b <= a)%Z)
                 (map IssueRow.created_at (insert_by newest_first x l)).
Proof.
  induction l as [|y l IH]; simpl; intros H.
  - repeat constructor.
  - inversion H as [|? ? Hl Hy]; subst. unfold newest_first at 1.
    destruct (Z.leb_spec (IssueRow.created_at y) (IssueRow.created_at x)) as [L|L]; simpl.
    + constructor; [exact H|]. constructor; [exact L|].
      eapply List.Forall_impl; [|exact Hy]. simpl. intros k Hk. lia.
    + constructor; [exact (IH Hl)|].
      apply List.Forall_forall. intros k Hk.
      apply in_map_iff in Hk as (z & <- & Hz).
      apply insert_by_In in Hz as [->|Hz]; [lia|].
      rewrite List.Forall_forall in Hy. apply Hy, in_map, Hz.
Qed.

(** ORDER BY created_at DESC gives a list that is newest first. *)
Lemma order_by_newest_first (l : list IssueRow.t) :
  StronglySorted (fun a b => (b <= a)%Z)
                 (map IssueRow.created_at (order_by newest_first l)).
Proof.
  induction l as [|y l IH]; simpl; [constructor|].
  apply insert_by_newest_first, IH.
Qed.

Lemma fetched_created_at (d : Db.t) (l : list IssueRow.t) :
  map Issue.created_at (map transform_fetched (map (with_assignee d) l))
  = map IssueRow.created_at l.
Proof. rewrite !map_map. apply map_ext. reflexivity. Qed.

(** The invariant reads the store and the list of issues only. *)
Lemma Inv_frame (w w' : World) :
  db w' = db w -> Hook.issues (hook w') = Hook.issues (hook w) -> Inv w -> Inv w'.
Proof.
  unfold Inv, coherent. intros -> ->. trivial.
Qed.

(** *** What each operation does to the store and to the list *)

Lemma fetchIssues_effect n w :
  db (snd (fetchIssues n w)) = db w
  /\ (Hook.issues (hook (snd (fetchIssues n w))) = Hook.issues (hook w)
      \/ Hook.issues (hook (snd (fetchIssues n w)))
         = map transform_fetched
             (map (with_assignee (db w)) (order_by newest_first (Db.issues (db w))))).
Proof. destruct n; simpl; auto. Qed.

Lemma fetchCategories_effect n w :
  db (snd (fetchCategories n w)) = db w
  /\ Hook.issues (hook (snd (fetchCategories n w))) = Hook.issues (hook w).
Proof. destruct n; simpl; auto. Qed.

Lemma fetchDepartments_effect n w :
  db (snd (fetchDepartments n w)) = db w
  /\ Hook.issues (hook (snd (fetchDepartments n w))) = Hook.issues (hook w).
Proof. destruct n; simpl; auto. Qed.

Lemma trackIssueByToken_effect token n w :
  db (snd (trackIssueByToken token n w)) = db w
  /\ Hook.issues (hook (snd (trackIssueByToken token n w))) = Hook.issues (hook w).
Proof.
  unfold trackIssueByToken. unfold_m.
  destruct (select_issue_by_token token n (db w)); simpl; auto.
Qed.

(** What a successful update has checked and done. *)
Lemma update_issue_Success uid issueId updates env d data d' :
  update_issue uid issueId updates env d = (Success data, d') ->
  exists old,
    let now := (Db.clock d + Z.of_N (elapsed env))%Z in
    let r := update_updated_at_column now (apply_patch updates old) in
    staff_can_update_issues d uid = true
    /\ List.filter (fun o => IssueRow.id o =? issueId) (Db.issues d) = [old]
    /\ issues_constraints d
         (List.filter (fun o => negb (IssueRow.id o =? issueId)) (Db.issues d)) r = None
    /\ d' = Db.with_issues
              (map (fun o => if IssueRow.id o =? issueId then r else o) (Db.issues d)) now d
    /\ data = with_assignee d' r.
Proof.
  unfold update_issue.
  destruct (net env); [discriminate|].
  destruct (staff_can_update_issues d uid); simpl; [|discriminate].
  destruct (List.filter _ (Db.issues d)) as [|old [|? ?]]; try discriminate.
  destruct (issues_constraints _ _ _) eqn:C; [discriminate|].
  destruct (_ && _); [discriminate|].
  intros [= <- <-]. exists old. cbv zeta. repeat split; auto.
Qed.

Lemma updateIssue_Normal issueId updates env w issue w' :
  updateIssue issueId updates env w = (Normal issue, w') ->
  exists old,
    let now := (Db.clock (db w) + Z.of_N (elapsed env))%Z in
    let r := update_updated_at_column now (apply_patch updates old) in
    List.filter (fun o => IssueRow.id o =? issueId) (Db.issues (db w)) = [old]
    /\ issues_constraints (db w)
         (List.filter (fun o => negb (IssueRow.id o =? issueId)) (Db.issues (db w))) r = None
    /\ db w' = Db.with_issues
                 (map (fun o => if IssueRow.id o =? issueId then r else o) (Db.issues (db w)))
                 now (db w)
    /\ issue = transform_written (with_assignee (db w') r)
    /\ Hook.issues (hook w')
       = map (fun i => if Issue.id i =? issueId then issue else i) (Hook.issues (hook w)).
Proof.
  unfold updateIssue. unfold_m.
  destruct (update_issue _ issueId updates env (db w)) as [[data|error] d] eqn:U;
    [|discriminate].
  intros [= <- <-].
  destruct (update_issue_Success _ _ _ _ _ _ _ U) as (old & _ & Hf & Hc & -> & ->).
  exists old. cbv zeta. simpl. repeat split; auto.
Qed.

Lemma updateIssue_Thrown issueId updates env w e w' :
  updateIssue issueId updates env w = (Thrown e, w') -> db w' = db w /\ hook w' = hook w.
Proof.
  unfold updateIssue. unfold_m.
  destruct (update_issue _ issueId updates env (db w)) as [[data|error] d] eqn:U;
    [discriminate|].
  intros [= _ <-]. simpl.
  split; [exact (update_issue_Failure _ _ _ _ _ _ _ U)|reflexivity].
Qed.

Lemma existsb_false_In {A} (f : A -> bool) (l : list A) (x : A) :
  existsb f l = false -> In x l -> f x = false.
Proof.
  intros E Hin. apply not_true_is_false. intros Hf.
  assert (T : existsb f l = true) by (apply existsb_exists; exists x; auto).
  rewrite E in T. discriminate.
Qed.

(** Replacing the row with a given key by a row whose key no other row has
    keeps the keys distinct. *)
Lemma NoDup_replace (issueId : string) (r : IssueRow.t) (l : list IssueRow.t) :
  List.NoDup (map IssueRow.id l) ->
  (forall o, In o l -> IssueRow.id o <> issueId -> IssueRow.id o <> IssueRow.id r) ->
  List.NoDup (map IssueRow.id (map (fun o => if IssueRow.id o =? issueId then r else o) l)).
Proof.
  induction l as [|a l IH]; simpl; intros ND H; [constructor|].
  inversion ND as [|? ? Ha NDl]; subst.
  assert (IHl := IH NDl (fun o Ho => H o (or_intror Ho))).
  constructor; [|exact IHl].
  intros Hin. apply in_map_iff in Hin as (x & Hx & Hxin).
  apply in_map_iff in Hxin as (o & <- & Ho).
  destruct (String.eqb_spec (IssueRow.id a) issueId) as [Ea|Ea];
    destruct (String.eqb_spec (IssueRow.id o) issueId) as [Eo|Eo].
  - apply Ha. rewrite Ea, <- Eo. apply in_map, Ho.
  - exact (H o (or_intror Ho) Eo Hx).
  - exact (H a (or_introl eq_refl) Ea (eq_sym Hx)).
  - apply Ha. rewrite <- Hx. apply in_map, Ho.
Qed.

(** *** Each operation keeps the invariant *)

Lemma fetchIssues_Inv n w : Inv w -> Inv (snd (fetchIssues n w)).
Proof.
  intros I. destruct (fetchIssues_effect n w) as [Hdb [Hl|Hl]].
  - exact (Inv_frame _ _ Hdb Hl I).
  - destruct I as (_ & _ & Hs). unfold Inv, newest_first_list, coherent.
    rewrite Hdb, Hl, fetched_created_at.
    split; [apply order_by_newest_first|]. split; [|exact Hs].
    apply List.Forall_forall. intros i Hi.
    apply in_map_iff in Hi as (j & <- & Hj). apply in_map_iff in Hj as (r & <- & Hr).
    exists r. apply order_by_In in Hr. auto.
Qed.

Lemma createIssue_Inv issueData rpc env w :
  Inv w -> Inv (snd (createIssue issueData rpc env w)).
Proof.
  intros I.
  destruct (createIssue issueData rpc env w) as [[[issue token]|e] w'] eqn:C; simpl.
  2:{ destruct (createIssue_Thrown _ _ _ _ _ _ C) as [Hdb Hh].
      apply (Inv_frame w w' Hdb); [rewrite Hh; reflexivity|exact I]. }
  destruct (createIssue_Normal _ _ _ _ _ _ _ C)
    as (t & ds & s & _ & _ & _ & _ & Hc & Hdb & Hi & Hl).
  unfold Inv, newest_first_list, coherent, store_ok in I.
  destruct I as (Hsorted & Hcoh & Hnd & Hclock).
  pose proof (N2Z.is_nonneg (elapsed env)) as Hel.
  unfold Inv, newest_first_list, coherent, store_ok.
  rewrite Hl, Hdb. simpl. split; [|split; [|split]].
  - constructor; [exact Hsorted|].
    apply List.Forall_forall. intros k Hk. apply in_map_iff in Hk as (i & <- & Hin).
    rewrite List.Forall_forall in Hcoh. destruct (Hcoh i Hin) as (r0 & Hr0 & _ & <-).
    rewrite List.Forall_forall in Hclock. specialize (Hclock r0 Hr0).
    rewrite Hi. unfold Issue.created_at. simpl. lia.
  - constructor.
    + eexists. split; [apply in_or_app; right; left; reflexivity|].
      rewrite Hi. split; reflexivity.
    + eapply List.Forall_impl; [|exact Hcoh]. simpl.
      intros i (r0 & Hr0 & Hid & Hca). exists r0. split; [apply in_or_app; auto|auto].
  - rewrite map_app. apply List.NoDup_app; [exact Hnd|repeat constructor; simpl; tauto|].
    intros a Ha [<-|[]]. apply in_map_iff in Ha as (o & Ho & Hin).
    pose proof (existsb_false_In _ _ o (issues_constraints_id _ _ _ Hc) Hin) as F.
    simpl in Ho, F. rewrite Ho, String.eqb_refl in F. discriminate.
  - apply List.Forall_app. split.
    + eapply List.Forall_impl; [|exact Hclock]. simpl. intros r0 Hr0. lia.
    + repeat constructor. simpl. lia.
Qed.

Lemma updateIssue_Inv issueId updates env w :
  PartialIssue.created_at updates = None ->
  Inv w -> Inv (snd (updateIssue issueId updates env w)).
Proof.
  intros Hpatch I.
  destruct (updateIssue issueId updates env w) as [[issue|e] w'] eqn:U; simpl.
  2:{ destruct (updateIssue_Thrown _ _ _ _ _ _ U) as [Hdb Hh].
      apply (Inv_frame w w' Hdb); [rewrite Hh; reflexivity|exact I]. }
  destruct (updateIssue_Normal _ _ _ _ _ _ U) as (old & Hf & Hc & Hdb & Hi & Hl).
  unfold Inv, newest_first_list, coherent, store_ok in I.
  destruct I as (Hsorted & Hcoh & Hnd & Hclock).
  pose proof (N2Z.is_nonneg (elapsed env)) as Hel.
  set (now := (Db.clock (db w) + Z.of_N (elapsed env))%Z) in *.
  set (r := update_updated_at_column now (apply_patch updates old)) in *.
  assert (Hold : In old (Db.issues (db w)) /\ IssueRow.id old = issueId).
  { assert (Hin : In old (List.filter (fun o => IssueRow.id o =? issueId) (Db.issues (db w))))
      by (rewrite Hf; left; reflexivity).
    apply filter_In in Hin as [Hin E]. apply String.eqb_eq in E. auto. }
  assert (Huniq : forall o, In o (Db.issues (db w)) -> IssueRow.id o = issueId -> o = old).
  { intros o Ho E.
    assert (Hin : In o (List.filter (fun o => IssueRow.id o =? issueId) (Db.issues (db w))))
      by (apply filter_In; split; [exact Ho|apply String.eqb_eq, E]).
    rewrite Hf in Hin. destruct Hin as [<-|[]]. reflexivity. }
  assert (Hr : IssueRow.created_at r = IssueRow.created_at old)
    by (unfold r; simpl; rewrite Hpatch; reflexivity).
  assert (Hissue : Issue.created_at issue = IssueRow.created_at old /\ Issue.id issue = IssueRow.id r)
    by (rewrite Hi; split; [exact Hr|reflexivity]).
  destruct Hissue as [Hica Hiid].
  assert (Hother : forall o, In o (Db.issues (db w)) -> IssueRow.id o <> issueId ->
                             IssueRow.id o <> IssueRow.id r).
  { intros o Ho Ne E.
    assert (Hin : In o (List.filter (fun o => negb (IssueRow.id o =? issueId))
                                    (Db.issues (db w)))).
    { apply filter_In. split; [exact Ho|]. apply negb_true_iff, String.eqb_neq, Ne. }
    pose proof (existsb_false_In _ _ o (issues_constraints_id _ _ _ Hc) Hin) as F.
    simpl in F. rewrite E, String.eqb_refl in F. discriminate. }
  unfold Inv, newest_first_list, coherent, store_ok.
  rewrite Hl, Hdb. simpl. split; [|split; [|split]].
  - replace (map Issue.created_at
               (map (fun i => if Issue.id i =? issueId then issue else i) (Hook.issues (hook w))))
      with (map Issue.created_at (Hook.issues (hook w))); [exact Hsorted|].
    rewrite map_map. apply map_ext_in. intros i Hin.
    destruct (String.eqb_spec (Issue.id i) issueId) as [E|E]; [|reflexivity].
    rewrite List.Forall_forall in Hcoh. destruct (Hcoh i Hin) as (r0 & Hr0 & Hid & Hca).
    rewrite Hica, <- Hca. f_equal. apply Huniq; [exact Hr0|congruence].
  - apply List.Forall_forall. intros i' Hi'. apply in_map_iff in Hi' as (i & <- & Hin).
    rewrite List.Forall_forall in Hcoh. destruct (Hcoh i Hin) as (r0 & Hr0 & Hid & Hca).
    destruct (String.eqb_spec (Issue.id i) issueId) as [E|E].
    + exists r. split; [|split; [symmetry; exact Hiid|rewrite Hica; exact Hr]].
      apply in_map_iff. exists old. destruct Hold as [Ho <-].
      rewrite String.eqb_refl. auto.
    + exists r0. split; [|auto].
      apply in_map_iff. exists r0. split; [|exact Hr0].
      destruct (String.eqb_spec (IssueRow.id r0) issueId) as [E'|E']; [congruence|reflexivity].
  - exact (NoDup_replace issueId r _ Hnd Hother).
  - apply List.Forall_forall. intros x Hx. apply in_map_iff in Hx as (o & <- & Ho).
    rewrite List.Forall_forall in Hclock.
    destruct (IssueRow.id o =? issueId).
    + rewrite Hr. specialize (Hclock old (proj1 Hold)). lia.
    + specialize (Hclock o Ho). lia.
Qed.

(** One operation whose patch leaves the creation time alone keeps the
    invariant. *)
Lemma step_Inv (w : World) (op : HookOp) :
  keeps_created_at op -> Inv w -> Inv (step w op).
Proof.
  unfold step.
  destruct op as [n|n|n|issueData rpc env|issueId updates env|token n]; simpl; intros K I.
  - exact (fetchIssues_Inv n w I).
  - destruct (fetchCategories_effect n w) as [Hdb Hl]. exact (Inv_frame _ _ Hdb Hl I).
  - destruct (fetchDepartments_effect n w) as [Hdb Hl]. exact (Inv_frame _ _ Hdb Hl I).
  - pose proof (createIssue_Inv issueData rpc env w I) as J.
    unfold bind, ret. destruct (createIssue issueData rpc env w) as [[v|e] w']; exact J.
  - pose proof (updateIssue_Inv issueId updates env w K I) as J.
    unfold bind, ret. destruct (updateIssue issueId updates env w) as [[v|e] w']; exact J.
  - destruct (trackIssueByToken_effect token n w) as [Hdb Hl].
    unfold bind, ret. destruct (trackIssueByToken token n w) as [[v|e] w'];
      exact (Inv_frame _ _ Hdb Hl I).
Qed.

(** The invariant holds of a client that holds no issue yet. *)
Lemma Inv_initial (w : World) :
  Hook.issues (hook w) = [] -> store_ok (db w) -> Inv w.
Proof.
  intros E S. unfold Inv, newest_first_list, coherent. rewrite E.
  repeat split; try constructor; apply S.
Qed.

(** The sample client that fetched two issues satisfies the invariant. *)
Lemma sample_world2_Inv : Inv Sample.world2.
Proof.
  unfold Inv, newest_first_list, coherent, store_ok.
  split; [|split; [|split]].
  - change (map Issue.created_at (Hook.issues (hook Sample.world2))) with [20; 10]%Z.
    repeat constructor. lia.
  - simpl. repeat constructor.
    + exists Sample.newer. simpl. auto.
    + exists Sample.older. simpl. auto.
  - repeat constructor; simpl; intuition discriminate.
  - repeat constructor; simpl; lia.
Qed.

(** C8, as stated, fails: [updateIssue] with a patch that names
    [created_at] puts the re-fetched row where the old one was.  From the list
    with creation times 20, 10, moving the second issue to time 30 gives the
    list 20, 30. *)
Lemma updateIssue_can_break_the_order :
  Inv Sample.world2
  /\ map Issue.created_at
       (Hook.issues (hook (step Sample.world2
                             (UpdateIssue "issue-a" Sample.redate Sample.env))))
     = [20; 30]%Z
  /\ ~ newest_first_list
         (Hook.issues (hook (step Sample.world2
                               (UpdateIssue "issue-a" Sample.redate Sample.env)))).
Proof.
  split; [exact sample_world2_Inv|]. split; [reflexivity|].
  unfold newest_first_list.
  change (map Issue.created_at
            (Hook.issues (hook (step Sample.world2
                                  (UpdateIssue "issue-a" Sample.redate Sample.env)))))
    with [20; 30]%Z.
  intros H. inversion H as [|? ? _ F]; subst.
  inversion F as [|? ? L _]; subst. lia.
Qed.

(** C8, amended.  Through every sequence of operations of the hook in which
    no patch of [updateIssue] names [created_at], the list the hook holds stays
    newest first (and a copy of stored rows, in a store whose keys are distinct
    and whose creation times are not in the future): [fetchIssues] replaces the
    list by the stored issues ordered by creation time, newest first;
    [createIssue] puts the issue it created, the newest, in front;
    [updateIssue] replaces an issue where it stands, by a row with the same
    creation time. *)
Theorem issues_stay_newest_first (ops : list HookOp) (w : World) :
  Inv w ->
  Forall keeps_created_at ops ->
  Inv (run ops w) /\ newest_first_list (Hook.issues (hook (run ops w))).
Proof.
  intros I K.
  assert (J : Inv (run ops w)).
  { unfold run. revert w I. induction K as [|op ops Hop _ IH]; intros w I; simpl.
    - exact I.
    - apply IH, step_Inv; assumption. }
  split; [exact J|exact (proj1 J)].
Qed.

Lemma issues_stay_newest_first_witness :
  Inv Sample.world2
  /\ Forall keeps_created_at
       [UpdateIssue "issue-a" Sample.resolve Sample.env;
        CreateIssue Sample.broken_light (Success Sample.token) Sample.env;
        FetchIssues (Some Sample.timeout)]
  /\ newest_first_list
       (Hook.issues (hook (run [UpdateIssue "issue-a" Sample.resolve Sample.env;
                                CreateIssue Sample.broken_light (Success Sample.token)
                                            Sample.env;
                                FetchIssues (Some Sample.timeout)]
                               Sample.world2))).
Proof.
  assert (K : Forall keeps_created_at
                [UpdateIssue "issue-a" Sample.resolve Sample.env;
                 CreateIssue Sample.broken_light (Success Sample.token) Sample.env;
                 FetchIssues (Some Sample.timeout)])
    by (repeat constructor).
  split; [exact sample_world2_Inv|]. split; [exact K|].
  exact (proj2 (issues_stay_newest_first _ Sample.world2 sample_world2_Inv K)).
Defined.

(** The run of the witness: the update keeps the order, the new issue comes
    first, and the failed fetch changes nothing. *)
Example sample_run_created_at :
  map Issue.created_at
      (Hook.issues (hook (run [UpdateIssue "issue-a" Sample.resolve Sample.env;
                               CreateIssue Sample.broken_light (Success Sample.token)
                                           Sample.env;
                               FetchIssues (Some Sample.timeout)]
                              Sample.world2)))
  = [110; 20; 10]%Z
  /\ map Issue.status
       (Hook.issues (hook (run [UpdateIssue "issue-a" Sample.resolve Sample.env]
                               Sample.world2)))
     = ["resolved"; "resolved"].
Proof. split; reflexivity. Qed.

(** ** The statuses of the issues the hook holds *)

Lemma issues_constraints_checks d others r :
  issues_constraints d others r = None ->
  severity_check (IssueRow.severity r) = true /\ status_check (IssueRow.status r) = true.
Proof.
  unfold issues_constraints.
  destruct (severity_check _); simpl; [|discriminate].
  destruct (status_check _); simpl; [auto|discriminate].
Qed.

Lemma status_check_In (s : string) : status_check s = true -> In s IssueStatus.
Proof. apply one_of_In. Qed.

(** Every operation keeps the CHECK constraints of the store and gives the
    hook issues whose statuses are among the four. *)
Lemma step_statuses (w : World) (op : HookOp) :
  store_checked (db w) ->
  statuses_valid (Hook.issues (hook w)) ->
  store_checked (db (step w op)) /\ statuses_valid (Hook.issues (hook (step w op))).
Proof.
  unfold step, store_checked, statuses_valid.
  destruct op as [n|n|n|issueData rpc env|issueId updates env|token n]; simpl; intros S V.
  - destruct (fetchIssues_effect n w) as [-> [->| ->]]; split; auto.
    apply List.Forall_forall. intros i Hi.
    apply in_map_iff in Hi as (j & <- & Hj). apply in_map_iff in Hj as (r & <- & Hr).
    apply order_by_In in Hr. rewrite List.Forall_forall in S.
    apply status_check_In. exact (proj2 (S r Hr)).
  - destruct (fetchCategories_effect n w) as [-> ->]. auto.
  - destruct (fetchDepartments_effect n w) as [-> ->]. auto.
  - unfold bind, ret.
    destruct (createIssue issueData rpc env w) as [[[issue token]|e] w'] eqn:C; simpl.
    + destruct (createIssue_Normal _ _ _ _ _ _ _ C)
        as (t & ds & s & _ & _ & _ & _ & Hc & Hdb & Hi & Hl).
      rewrite Hdb, Hl. simpl. split.
      * apply List.Forall_app. split; [exact S|].
        constructor; [exact (issues_constraints_checks _ _ _ Hc)|constructor].
      * constructor; [|exact V]. rewrite Hi. simpl. auto.
    + destruct (createIssue_Thrown _ _ _ _ _ _ C) as [-> ->]. auto.
  - unfold bind, ret.
    destruct (updateIssue issueId updates env w) as [[issue|e] w'] eqn:U; simpl.
    + destruct (updateIssue_Normal _ _ _ _ _ _ U) as (old & _ & Hc & Hdb & Hi & Hl).
      pose proof (issues_constraints_checks _ _ _ Hc) as Hr.
      rewrite Hdb, Hl. simpl. split.
      * apply List.Forall_forall. intros x Hx. apply in_map_iff in Hx as (o & <- & Ho).
        rewrite List.Forall_forall in S.
        destruct (IssueRow.id o =? issueId); [exact Hr|exact (S o Ho)].
      * apply List.Forall_forall. intros x Hx. apply in_map_iff in Hx as (i & <- & Hin).
        rewrite List.Forall_forall in V.
        destruct (Issue.id i =? issueId); [|exact (V i Hin)].
        rewrite Hi. apply status_check_In. exact (proj2 Hr).
    + destruct (updateIssue_Thrown _ _ _ _ _ _ U) as [-> ->]. auto.
  - unfold bind, ret. destruct (trackIssueByToken_effect token n w) as [Hdb Hl].
    destruct (trackIssueByToken token n w) as [[v|e] w']; simpl in *.
    + rewrite Hdb, Hl. auto.
    + rewrite Hdb, Hl. auto.
Qed.

(** After any operations of the hook on a store that respects its CHECK
    constraints, the counters of the dashboard, with the closed issues, add
    up to the total. *)
Lemma dashboard_counts_after_run (ops : list HookOp) (w : World) :
  store_checked (db w) ->
  statuses_valid (Hook.issues (hook w)) ->
  let issues := Hook.issues (hook (run ops w)) in
  Dashboard.openIssues issues + Dashboard.inProgressIssues issues
  + Dashboard.resolvedIssues issues + count_status "closed" issues
  = Dashboard.totalIssues issues.
Proof.
  intros S V. cbv zeta. apply status_counts_total.
  unfold run. revert w S V.
  induction ops as [|op ops IH]; intros w S V; simpl; [exact V|].
  destruct (step_statuses w op S V) as [S' V']. exact (IH _ S' V').
Qed.

(** ** The scenario of the specification *)

(** Submitting the broken light returns a token that is not empty, and
    tracking that token returns the issue, open, with the title and the
    description submitted. *)
Example end_to_end_scenario :
  createIssue Sample.broken_light (Success Sample.token) Sample.env Sample.world0
  = (Normal (Sample.created, Sample.token), Sample.world1)
  /\ Sample.token <> EmptyString
  /\ exists tracked,
       trackIssueByToken Sample.token None Sample.world1 = (Normal tracked, Sample.world1)
       /\ Issue.status tracked = "open"
       /\ Issue.title tracked = "Broken light in lobby"
       /\ Issue.description tracked
          = "The lobby light has flickered for two weeks and now stays off.".
Proof.
  split; [exact sample_createIssue|]. split; [discriminate|].
  eexists. split; [vm_compute; reflexivity|]. repeat split; reflexivity.
Qed.

(** ** The sample rows of [anonymous_tokens] *)

(** The rows that were inserted are behind the rows the table had. *)
Lemma insert_token_rows_Success d table new table' :
  insert_token_rows d table new = Success table' -> table' = table ++ new.
Proof.
  revert table. induction new as [|t new IH]; simpl; intros table.
  - intros [= <-]. rewrite app_nil_r. reflexivity.
  - destruct (token_row_constraints d table t); [discriminate|].
    intros H. rewrite (IH _ H), <- app_assoc. reflexivity.
Qed.

(** A row that references a stored issue is refused for a duplicate only. *)
Lemma token_row_constraints_code d table t e :
  existsb (fun i => IssueRow.id i =? AnonymousToken.issue_id t) (Db.issues d) = true ->
  token_row_constraints d table t = Some e -> code e = "23505".
Proof.
  unfold token_row_constraints. intros ->.
  destruct (existsb _ table); [intros [= <-]; reflexivity|].
  destruct (existsb _ table); [intros [= <-]; reflexivity|].
  discriminate.
Qed.

Lemma insert_token_rows_code d table new e :
  Forall (fun t => existsb (fun i => IssueRow.id i =? AnonymousToken.issue_id t) (Db.issues d)
                   = true) new ->
  insert_token_rows d table new = Failure e -> code e = "23505".
Proof.
  revert table. induction new as [|t new IH]; simpl; intros table F; [discriminate|].
  inversion F as [|? ? Ft Fn]; subst.
  destruct (token_row_constraints d table t) as [e'|] eqn:C.
  - intros [= <-]. exact (token_row_constraints_code _ _ _ _ Ft C).
  - apply IH, Fn.
Qed.

(** A row whose token the table has makes the statement fail. *)
Lemma insert_token_rows_collision d table new t o :
  In t new -> In o table -> AnonymousToken.token o = AnonymousToken.token t ->
  exists e, insert_token_rows d table new = Failure e.
Proof.
  revert table. induction new as [|t' new IH]; simpl; intros table Ht Ho E; [destruct Ht|].
  destruct (token_row_constraints d table t') as [e'|] eqn:C; [eauto|].
  destruct Ht as [->|Ht].
  - exfalso. unfold token_row_constraints in C.
    destruct (existsb _ table); [discriminate|].
    assert (X : existsb (fun o0 => AnonymousToken.token o0 =? AnonymousToken.token t) table
                = true).
    { apply existsb_exists. exists o. split; [exact Ho|]. apply String.eqb_eq, E. }
    rewrite X in C. discriminate.
  - apply (IH _ Ht); [apply in_or_app; left; exact Ho|exact E].
Qed.

(** The rows of the statement reference stored issues. *)
Lemma sample_token_rows_reference key d :
  Forall (fun t => existsb (fun i => IssueRow.id i =? AnonymousToken.issue_id t) (Db.issues d)
                   = true) (sample_token_rows key d).
Proof.
  apply List.Forall_forall. intros t Ht.
  apply in_map_iff in Ht as (i & <- & Hi). apply filter_In in Hi as [Hi _].
  apply existsb_exists. exists i. split; [exact Hi|]. apply String.eqb_refl.
Qed.

(** What the statement has done when it succeeds. *)
Lemma sample_anonymous_tokens_Success key d d' :
  sample_anonymous_tokens key d = Success d' ->
  d' = Db.with_anonymous_tokens (Db.anonymous_tokens d ++ sample_token_rows key d) d.
Proof.
  unfold sample_anonymous_tokens.
  destruct (insert_token_rows d _ _) as [table|e] eqn:I; [|discriminate].
  intros [= <-]. rewrite (insert_token_rows_Success _ _ _ _ I). reflexivity.
Qed.

(** The statement of the sample data adds token rows for issues without a
    reporter only, each with the token and the key of its issue. *)
Lemma sample_anonymous_tokens_rows (key : IssueRow.t -> string) (d d' : Db.t)
    (t : AnonymousToken.t) :
  sample_anonymous_tokens key d = Success d' ->
  In t (Db.anonymous_tokens d') ->
  In t (Db.anonymous_tokens d)
  \/ exists i, In i (Db.issues d)
               /\ IssueRow.reporter_id i = None
               /\ AnonymousToken.token t = IssueRow.anonymous_token i
               /\ AnonymousToken.issue_id t = IssueRow.id i.
Proof.
  intros S. rewrite (sample_anonymous_tokens_Success _ _ _ S). simpl. intros H.
  apply in_app_or in H as [H|H]; [left; exact H|right].
  apply in_map_iff in H as (i & <- & Hi). apply filter_In in Hi as [Hi Hr].
  exists i. destruct (IssueRow.reporter_id i); [discriminate|]. auto.
Qed.

(** * Further properties of the hook and the pages *)

(** ** Updating an issue *)

(** X1.  A session that does not satisfy the policy "Staff can update
    issues" cannot update: whatever the issue and the patch, [updateIssue]
    throws, after it logged the error and showed the toast "Error updating
    issue" with the message of the error; the store and the state of the hook
    are as before. *)
Theorem updateIssue_unprivileged_fails issueId updates env w :
  staff_can_update_issues (db w) (session w) = false ->
  exists e,
    updateIssue issueId updates env w
    = (Thrown e,
       after_failure "Error updating issue:" e
         (Some (Toast.mk "Error updating issue" (Some (message e)) destructive)) w)
    /\ db (snd (updateIssue issueId updates env w)) = db w
    /\ hook (snd (updateIssue issueId updates env w)) = hook w.
Proof.
  intros P. unfold updateIssue. unfold_m. unfold update_issue. rewrite P. simpl.
  destruct (net env) as [e|]; simpl; rewrite with_db_same.
  - exists e. repeat split; auto.
  - exists not_single_row. repeat split; auto.
Qed.

Lemma updateIssue_unprivileged_fails_witness :
  staff_can_update_issues (db Sample2.visitor) (session Sample2.visitor) = false
  /\ exists e,
       updateIssue "issue-a" Sample.resolve Sample.env Sample2.visitor
       = (Thrown e,
          after_failure "Error updating issue:" e
            (Some (Toast.mk "Error updating issue" (Some (message e)) destructive))
            Sample2.visitor)
       /\ db (snd (updateIssue "issue-a" Sample.resolve Sample.env Sample2.visitor))
          = db Sample2.visitor
       /\ hook (snd (updateIssue "issue-a" Sample.resolve Sample.env Sample2.visitor))
          = hook Sample2.visitor.
Proof.
  split; [reflexivity|].
  apply (updateIssue_unprivileged_fails "issue-a" Sample.resolve Sample.env Sample2.visitor).
  reflexivity.
Defined.

(** The store after a sign-up through the form refuses the new account as
    staff. *)
Lemma handleSignUp_policy is_email (data : SignUpData.t) (uid pid : string) (d d' : Db.t) :
  handleSignUp is_email data uid pid d = Some d' ->
  (forall p, In p (Db.profiles d) -> Profile.user_id p <> uid) ->
  staff_policy d' (Some uid) = false.
Proof.
  unfold handleSignUp. destruct (signUpSchema is_email data) eqn:V; [|discriminate].
  intros [= <-] Hfresh. apply staff_policy_false. simpl. intros q Hq Hu.
  apply in_app_or in Hq as [Hq|[<-|[]]]; [destruct (Hfresh q Hq Hu)|].
  unfold handle_new_user, signUp. simpl. rewrite signUp_metadata_role. simpl.
  exact (signUp_roles_not_privileged _ (signUpSchema_role _ _ V)).
Qed.

(** X2.  Signing up, then updating: for the account that the sign-up form
    just created, every [updateIssue] throws and changes neither the store nor
    the list of issues. *)
Theorem signed_up_account_cannot_update is_email (data : SignUpData.t)
    (uid pid : string) (d : Db.t) issueId updates env w :
  handleSignUp is_email data uid pid d = Some (db w) ->
  (forall p, In p (Db.profiles d) -> Profile.user_id p <> uid) ->
  session w = Some uid ->
  exists e,
    fst (updateIssue issueId updates env w) = Thrown e
    /\ db (snd (updateIssue issueId updates env w)) = db w
    /\ Hook.issues (hook (snd (updateIssue issueId updates env w))) = Hook.issues (hook w).
Proof.
  intros H F S.
  assert (P : staff_can_update_issues (db w) (session w) = false)
    by (rewrite S; exact (handleSignUp_policy _ _ _ _ _ _ H F)).
  unfold updateIssue. unfold_m. unfold update_issue. rewrite P. simpl.
  destruct (net env) as [e|]; simpl; eexists; repeat split; reflexivity.
Qed.

Lemma signed_up_account_cannot_update_witness :
  handleSignUp Sample.is_email Sample.sign_up "user-ada" "p-2" Sample.store
  = Some (db (Sample.world Sample.store_ada (Some "user-ada") []))
  /\ (forall p, In p (Db.profiles Sample.store) -> Profile.user_id p <> "user-ada")
  /\ session (Sample.world Sample.store_ada (Some "user-ada") []) = Some "user-ada"
  /\ exists e,
       fst (updateIssue "issue-a" Sample.resolve Sample.env
              (Sample.world Sample.store_ada (Some "user-ada") [])) = Thrown e
       /\ db (snd (updateIssue "issue-a" Sample.resolve Sample.env
                     (Sample.world Sample.store_ada (Some "user-ada") [])))
          = db (Sample.world Sample.store_ada (Some "user-ada") [])
       /\ Hook.issues (hook (snd (updateIssue "issue-a" Sample.resolve Sample.env
                                    (Sample.world Sample.store_ada (Some "user-ada") []))))
          = Hook.issues (hook (Sample.world Sample.store_ada (Some "user-ada") [])).
Proof.
  assert (H : handleSignUp Sample.is_email Sample.sign_up "user-ada" "p-2" Sample.store
              = Some (db (Sample.world Sample.store_ada (Some "user-ada") [])))
    by (vm_compute; reflexivity).
  assert (F : forall p, In p (Db.profiles Sample.store) -> Profile.user_id p <> "user-ada")
    by (simpl; intros p [<-|[]]; discriminate).
  split; [exact H|]. split; [exact F|]. split; [reflexivity|].
  exact (signed_up_account_cannot_update Sample.is_email Sample.sign_up "user-ada" "p-2"
           Sample.store "issue-a" Sample.resolve Sample.env
           (Sample.world Sample.store_ada (Some "user-ada") []) H F eq_refl).
Defined.

(** X3.  The trigger takes the role as the account brings it: an account
    whose metadata carry a privileged role gets a profile with that role and
    satisfies both policies for staff.  (The enumeration of roles is in the
    form, not in the trigger.) *)
Theorem trigger_trusts_metadata_role (NEW : AuthUser.t) (pid r : string) (d : Db.t) :
  AuthUser.raw_user_meta_data NEW !! "role" = Some r ->
  In r privileged_roles ->
  Profile.role (handle_new_user NEW pid (Db.clock d)) = r
  /\ staff_can_update_issues (on_auth_user_created NEW pid d) (Some (AuthUser.id NEW)) = true
  /\ staff_can_create_updates (on_auth_user_created NEW pid d) (Some (AuthUser.id NEW)) = true.
Proof.
  intros Hr Hp.
  assert (R : Profile.role (handle_new_user NEW pid (Db.clock d)) = r)
    by (unfold handle_new_user; simpl; rewrite Hr; reflexivity).
  assert (P : staff_policy (on_auth_user_created NEW pid d) (Some (AuthUser.id NEW)) = true).
  { unfold staff_policy. apply existsb_exists.
    exists (handle_new_user NEW pid (Db.clock d)). split.
    - simpl. apply in_or_app. right. left. reflexivity.
    - rewrite R. apply andb_true_intro. split.
      + simpl. apply String.eqb_refl.
      + apply one_of_In, Hp. }
  auto.
Qed.

Lemma trigger_trusts_metadata_role_witness :
  AuthUser.raw_user_meta_data Sample2.intruder !! "role" = Some "staff"
  /\ In "staff" privileged_roles
  /\ staff_can_update_issues (on_auth_user_created Sample2.intruder "p-9" Sample.store)
       (Some "user-x") = true.
Proof.
  assert (H : AuthUser.raw_user_meta_data Sample2.intruder !! "role" = Some "staff")
    by reflexivity.
  assert (P : In "staff" privileged_roles) by (simpl; auto).
  split; [exact H|]. split; [exact P|].
  exact (proj1 (proj2 (trigger_trusts_metadata_role Sample2.intruder "p-9" "staff"
                         Sample.store H P))).
Defined.

Lemma filter_nil_forall {A} (f : A -> bool) (l : list A) :
  List.filter f l = [] -> forall x, In x l -> f x = false.
Proof.
  intros E x Hin. destruct (f x) eqn:F; [|reflexivity].
  assert (H : In x (List.filter f l)) by (apply filter_In; auto).
  rewrite E in H. destruct H.
Qed.

(** After the one row with the key [issueId] was replaced by [r], whose
    token no other row has, [r] is the one row with its token. *)
Lemma filter_token_replaced (issueId : string) (r old : IssueRow.t) (l : list IssueRow.t) :
  List.filter (fun o => IssueRow.id o =? issueId) l = [old] ->
  (forall o, In o l -> IssueRow.id o <> issueId ->
             IssueRow.anonymous_token o <> IssueRow.anonymous_token r) ->
  List.filter (fun o => IssueRow.anonymous_token o =? IssueRow.anonymous_token r)
              (map (fun o => if IssueRow.id o =? issueId then r else o) l)
  = [r].
Proof.
  induction l as [|a l IH]; simpl; [discriminate|].
  intros F H. destruct (String.eqb_spec (IssueRow.id a) issueId) as [E|E].
  - injection F as _ Fl. rewrite String.eqb_refl. f_equal.
    apply filter_none, existsb_none. intros x Hx.
    apply in_map_iff in Hx as (o & <- & Ho).
    pose proof (filter_nil_forall _ _ Fl o Ho) as No. simpl in No. rewrite No.
    apply String.eqb_neq. apply (H o (or_intror Ho)). apply String.eqb_neq, No.
  - assert (Na : (IssueRow.anonymous_token a =? IssueRow.anonymous_token r) = false)
      by (apply String.eqb_neq, (H a (or_introl eq_refl) E)).
    rewrite Na. apply (IH F). intros o Ho. exact (H o (or_intror Ho)).
Qed.

(** What the unique constraint on the token says of a row that was
    accepted. *)
Lemma issues_constraints_token_others d others r o :
  issues_constraints d others r = None ->
  In o others -> IssueRow.anonymous_token o <> IssueRow.anonymous_token r.
Proof.
  intros C Ho. apply String.eqb_neq.
  exact (existsb_false_In _ _ o (issues_constraints_token _ _ _ C) Ho).
Qed.


Lemma sample_updateIssue :
  updateIssue "issue-a" Sample.resolve Sample.env Sample.world2
  = (Normal Sample2.updated, Sample2.world3).
Proof. vm_compute. reflexivity. Qed.


(** X5.  Updating, then tracking: when [updateIssue] returns, tracking the
    token of the issue it returned finds the stored row as patched, with the
    key of the issue returned and the title, description, severity and status
    that the patch names. *)
Theorem updateIssue_then_trackIssueByToken issueId updates env w issue w' :
  updateIssue issueId updates env w = (Normal issue, w') ->
  exists tracked,
    trackIssueByToken (Issue.anonymous_token issue) None w' = (Normal tracked, w')
    /\ Issue.id tracked = Issue.id issue
    /\ (forall s, PartialIssue.status updates = Some s -> Issue.status tracked = s)
    /\ (forall t, PartialIssue.title updates = Some t -> Issue.title tracked = t)
    /\ (forall t, PartialIssue.description updates = Some t -> Issue.description tracked = t)
    /\ (forall t, PartialIssue.severity updates = Some t -> Issue.severity tracked = t).
Proof.
  intros U.
  destruct (updateIssue_Normal _ _ _ _ _ _ U) as (old & Hf & Hc & Hdb & Hi & Hl).
  set (r := update_updated_at_column (Db.clock (db w) + Z.of_N (elapsed env))
              (apply_patch updates old)) in *.
  exists (with_updates (db w') r). split.
  - apply trackIssueByToken_found. unfold select_issue_by_token.
    replace (Issue.anonymous_token issue) with (IssueRow.anonymous_token r)
      by (rewrite Hi; reflexivity).
    rewrite Hdb. cbn [Db.issues Db.with_issues].
    rewrite (filter_token_replaced issueId r old _ Hf); [reflexivity|].
    intros o Ho Ne. apply (issues_constraints_token_others _ _ _ _ Hc).
    apply filter_In. split; [exact Ho|]. apply negb_true_iff, String.eqb_neq, Ne.
  - rewrite Hi. split; [reflexivity|].
    repeat split; intros t Ht; unfold Issue.status, Issue.title, Issue.description,
      Issue.severity; simpl; rewrite Ht; reflexivity.
Qed.

Lemma updateIssue_then_trackIssueByToken_witness :
  updateIssue "issue-a" Sample.resolve Sample.env Sample.world2
  = (Normal Sample2.updated, Sample2.world3)
  /\ exists tracked,
       trackIssueByToken "token-a" None Sample2.world3 = (Normal tracked, Sample2.world3)
       /\ Issue.id tracked = "issue-a"
       /\ Issue.status tracked = "resolved".
Proof.
  assert (U : updateIssue "issue-a" Sample.resolve Sample.env Sample.world2
              = (Normal Sample2.updated, Sample2.world3)) by (vm_compute; reflexivity).
  split; [exact U|].
  destruct (updateIssue_then_trackIssueByToken "issue-a" Sample.resolve Sample.env
              Sample.world2 Sample2.updated Sample2.world3 U)
    as (tracked & T & I & S & _).
  exists tracked. split; [exact T|]. split; [exact I|]. apply S. reflexivity.
Defined.



(** ** Tokens and tracking *)

Lemma map_replace_none (issueId : string) (r : IssueRow.t) (l : list IssueRow.t) :
  List.filter (fun o => IssueRow.id o =? issueId) l = [] ->
  map (fun o => if IssueRow.id o =? issueId then r else o) l = l.
Proof.
  intros F. rewrite <- (map_id l) at 2. apply map_ext_in. intros o Ho.
  pose proof (filter_nil_forall _ _ F o Ho) as N. simpl in N. rewrite N. reflexivity.
Qed.

(** Replacing the one row with the key [issueId] by a row whose token no
    other row has keeps the tokens distinct. *)
Lemma NoDup_token_replace (issueId : string) (r old : IssueRow.t) (l : list IssueRow.t) :
  List.NoDup (map IssueRow.anonymous_token l) ->
  List.filter (fun o => IssueRow.id o =? issueId) l = [old] ->
  (forall o, In o l -> IssueRow.id o <> issueId ->
             IssueRow.anonymous_token o <> IssueRow.anonymous_token r) ->
  List.NoDup (map IssueRow.anonymous_token
                  (map (fun o => if IssueRow.id o =? issueId then r else o) l)).
Proof.
  induction l as [|a l IH]; simpl; [discriminate|].
  intros ND F H. inversion ND as [|? ? Ha NDl]; subst.
  destruct (String.eqb_spec (IssueRow.id a) issueId) as [E|E].
  - injection F as _ Fl. rewrite (map_replace_none _ _ _ Fl).
    constructor; [|exact NDl].
    intros Hin. apply in_map_iff in Hin as (o & Ho & Hin).
    apply (H o (or_intror Hin)); [|exact Ho].
    apply String.eqb_neq. exact (filter_nil_forall _ _ Fl o Hin).
  - constructor; [|exact (IH NDl F (fun o Ho => H o (or_intror Ho)))].
    intros Hin. apply in_map_iff in Hin as (x & Hx & Hxin).
    apply in_map_iff in Hxin as (o & <- & Ho).
    destruct (IssueRow.id o =? issueId).
    + exact (H a (or_introl eq_refl) E (eq_sym Hx)).
    + apply Ha. rewrite <- Hx. apply in_map, Ho.
Qed.

(** One operation of the hook keeps the tokens of the store distinct. *)
Lemma step_tokens_distinct (w : World) (op : HookOp) :
  tokens_distinct (db w) -> tokens_distinct (db (step w op)).
Proof.
  unfold step, tokens_distinct.
  destruct op as [n|n|n|issueData rpc env|issueId updates env|token n]; simpl; intros T.
  - destruct (fetchIssues_effect n w) as [-> _]. exact T.
  - destruct (fetchCategories_effect n w) as [-> _]. exact T.
  - destruct (fetchDepartments_effect n w) as [-> _]. exact T.
  - unfold bind, ret.
    destruct (createIssue issueData rpc env w) as [[[issue token]|e] w'] eqn:C; simpl.
    + destruct (createIssue_Normal _ _ _ _ _ _ _ C)
        as (t & ds & s & _ & _ & _ & _ & Hc & -> & _ & _).
      simpl. rewrite map_app. apply List.NoDup_app; [exact T|repeat constructor; simpl; tauto|].
      intros a Ha [<-|[]]. apply in_map_iff in Ha as (o & Ho & Hin).
      exact (issues_constraints_token_others _ _ _ _ Hc Hin Ho).
    + destruct (createIssue_Thrown _ _ _ _ _ _ C) as [-> _]. exact T.
  - unfold bind, ret.
    destruct (updateIssue issueId updates env w) as [[issue|e] w'] eqn:U; simpl.
    + destruct (updateIssue_Normal _ _ _ _ _ _ U) as (old & Hf & Hc & -> & _ & _).
      simpl. apply (NoDup_token_replace issueId _ old _ T Hf).
      intros o Ho Ne. apply (issues_constraints_token_others _ _ _ _ Hc).
      apply filter_In. split; [exact Ho|]. apply negb_true_iff, String.eqb_neq, Ne.
    + destruct (updateIssue_Thrown _ _ _ _ _ _ U) as [-> _]. exact T.
  - unfold bind, ret. destruct (trackIssueByToken_effect token n w) as [Hdb _].
    destruct (trackIssueByToken token n w) as [[v|e] w']; simpl in *; rewrite Hdb; exact T.
Qed.

(** Among rows with distinct tokens, a row is the only one with its token. *)
Lemma filter_token_unique (r : IssueRow.t) (l : list IssueRow.t) :
  List.NoDup (map IssueRow.anonymous_token l) ->
  In r l ->
  List.filter (fun o => IssueRow.anonymous_token o =? IssueRow.anonymous_token r) l = [r].
Proof.
  induction l as [|a l IH]; simpl; [intros _ []|].
  intros ND Hin. inversion ND as [|? ? Ha NDl]; subst.
  destruct Hin as [->|Hin].
  - rewrite String.eqb_refl. f_equal. apply filter_none, existsb_none.
    intros o Ho. apply String.eqb_neq. intros E. apply Ha. rewrite <- E. apply in_map, Ho.
  - destruct (String.eqb_spec (IssueRow.anonymous_token a) (IssueRow.anonymous_token r)) as [E|E].
    + exfalso. apply Ha. rewrite E. apply in_map, Hin.
    + exact (IH NDl Hin).
Qed.

(** X7.  The tokens of the stored issues stay distinct through every
    sequence of operations of the hook, and so every stored issue can be
    tracked: [trackIssueByToken] with the token of a stored issue returns that
    issue, with its public updates, and changes nothing. *)
Theorem stored_issues_stay_trackable (ops : list HookOp) (w : World) :
  tokens_distinct (db w) ->
  tokens_distinct (db (run ops w))
  /\ forall r, In r (Db.issues (db (run ops w))) ->
       trackIssueByToken (IssueRow.anonymous_token r) None (run ops w)
       = (Normal (with_updates (db (run ops w)) r), run ops w).
Proof.
  intros T.
  assert (T' : tokens_distinct (db (run ops w))).
  { unfold run. revert w T. induction ops as [|op ops IH]; intros w T; simpl; [exact T|].
    apply IH, step_tokens_distinct, T. }
  split; [exact T'|]. intros r Hr.
  apply trackIssueByToken_found. unfold select_issue_by_token.
  rewrite (filter_token_unique r _ T' Hr). reflexivity.
Qed.

Lemma stored_issues_stay_trackable_witness :
  tokens_distinct (db Sample.world2)
  /\ trackIssueByToken "token-b" None
       (run [UpdateIssue "issue-a" Sample.resolve Sample.env;
             CreateIssue Sample.broken_light (Success Sample.token) Sample.env]
            Sample.world2)
     = (Normal (with_updates
                  (db (run [UpdateIssue "issue-a" Sample.resolve Sample.env;
                            CreateIssue Sample.broken_light (Success Sample.token) Sample.env]
                           Sample.world2))
                  Sample.newer),
        run [UpdateIssue "issue-a" Sample.resolve Sample.env;
             CreateIssue Sample.broken_light (Success Sample.token) Sample.env]
            Sample.world2).
Proof.
  assert (T : tokens_distinct (db Sample.world2))
    by (unfold tokens_distinct; simpl; repeat constructor; simpl; intuition discriminate).
  split; [exact T|].
  apply (proj2 (stored_issues_stay_trackable
                  [UpdateIssue "issue-a" Sample.resolve Sample.env;
                   CreateIssue Sample.broken_light (Success Sample.token) Sample.env]
                  Sample.world2 T) Sample.newer).
  vm_compute. auto.
Defined.

(** ** Fetching *)

Lemma insert_by_Permutation {A} (le : A -> A -> bool) (x : A) (l : list A) :
  Permutation (insert_by le x l) (x :: l).
Proof.
  induction l as [|y l IH]; simpl; [reflexivity|].
  destruct (le x y); [reflexivity|].
  apply perm_trans with (y :: x :: l); [apply perm_skip, IH|apply perm_swap].
Qed.

(** ORDER BY rearranges the rows: none is lost, none comes twice. *)
Lemma order_by_Permutation {A} (le : A -> A -> bool) (l : list A) :
  Permutation (order_by le l) l.
Proof.
  induction l as [|y l IH]; simpl; [reflexivity|].
  apply perm_trans with (y :: order_by le l);
    [apply insert_by_Permutation|apply perm_skip, IH].
Qed.

(** X8.  A successful [fetchIssues] loads every stored issue exactly once,
    newest first, each as the stored row with its joins, its attachments made
    an array and its metadata made an object when the column held nothing
    usable. *)
Theorem fetchIssues_loads_every_issue (w : World) :
  Permutation (map Issue.id (Hook.issues (hook (snd (fetchIssues None w)))))
              (map IssueRow.id (Db.issues (db w)))
  /\ length (Hook.issues (hook (snd (fetchIssues None w)))) = length (Db.issues (db w))
  /\ newest_first_list (Hook.issues (hook (snd (fetchIssues None w))))
  /\ Forall (fun i => Array_isArray (IssueRow.attachments (Issue.row i)) = true
                      /\ truthy (IssueRow.metadata (Issue.row i)) = true)
            (Hook.issues (hook (snd (fetchIssues None w))))
  /\ (forall i, In i (Hook.issues (hook (snd (fetchIssues None w)))) ->
        exists r, In r (Db.issues (db w))
                  /\ i = transform_fetched (with_assignee (db w) r)).
Proof.
  assert (E : Hook.issues (hook (snd (fetchIssues None w)))
              = map transform_fetched
                  (map (with_assignee (db w)) (order_by newest_first (Db.issues (db w)))))
    by reflexivity.
  rewrite E. split; [|split; [|split; [|split]]].
  - rewrite !map_map. simpl.
    change (map (fun x => Issue.id (transform_fetched (with_assignee (db w) x)))
                (order_by newest_first (Db.issues (db w))))
      with (map IssueRow.id (order_by newest_first (Db.issues (db w)))).
    apply Permutation_map, order_by_Permutation.
  - rewrite !length_map. apply Permutation_length, order_by_Permutation.
  - unfold newest_first_list. rewrite fetched_created_at. apply order_by_newest_first.
  - apply List.Forall_forall. intros i Hi.
    apply in_map_iff in Hi as (j & <- & Hj). apply in_map_iff in Hj as (r & <- & _).
    unfold transform_fetched. simpl. split.
    + destruct (IssueRow.attachments r); reflexivity.
    + destruct (truthy (IssueRow.metadata r)) eqn:T; [exact T|reflexivity].
  - intros i Hi.
    apply in_map_iff in Hi as (j & <- & Hj). apply in_map_iff in Hj as (r & <- & Hr).
    exists r. split; [apply order_by_In in Hr; exact Hr|reflexivity].
Qed.

(** ** Creating *)

(** The toast and the entry of local storage that a successful [createIssue]
    leaves. *)
Lemma createIssue_Normal_effects issueData rpc env w issue token w' :
  createIssue issueData rpc env w = (Normal (issue, token), w') ->
  localStorage w' = <[token_key (Issue.id issue) := token]> (localStorage w)
  /\ toasts w'
     = toasts w ++ [Toast.mk "Issue reported successfully"
                      (Some ("Your anonymous tracking ID is: " +:+ slice_last 8 token)) None]
  /\ console w' = console w.
Proof.
  unfold createIssue. unfold_m.
  destruct rpc as [tokenData|tokenError]; [|discriminate].
  destruct (insert_issue _ env (db w)) as [[data|error] d] eqn:I; [|discriminate].
  intros [= <- <- <-]. simpl.
  destruct (insert_issue_Success _ _ _ _ _ I) as (t & ds & s & _ & _ & _ & _ & _ & _ & ->).
  repeat split; reflexivity.
Qed.

Lemma token_key_inj (a b : string) : token_key a = token_key b -> a = b.
Proof. unfold token_key. cbn. intros [= E]. exact E. Qed.

(** X9.  A successful [createIssue] saves the token in local storage under
    the key of the new issue, where it can be read back, and leaves the tokens
    saved for the other issues as they were. *)
Theorem createIssue_saves_token issueData rpc env w issue token w' :
  createIssue issueData rpc env w = (Normal (issue, token), w') ->
  localStorage w' !! token_key (Issue.id issue) = Some token
  /\ (forall other, other <> Issue.id issue ->
        localStorage w' !! token_key other = localStorage w !! token_key other).
Proof.
  intros C. destruct (createIssue_Normal_effects _ _ _ _ _ _ _ C) as (-> & _ & _).
  split; [apply lookup_insert_eq|].
  intros other Ne. apply lookup_insert_ne.
  intros E. apply Ne. symmetry. exact (token_key_inj _ _ E).
Qed.

Lemma createIssue_saves_token_witness :
  createIssue Sample.broken_light (Success Sample.token) Sample.env Sample.world0
  = (Normal (Sample.created, Sample.token), Sample.world1)
  /\ localStorage Sample.world1 !! "issue_token_issue-1" = Some Sample.token.
Proof.
  assert (C : createIssue Sample.broken_light (Success Sample.token) Sample.env Sample.world0
              = (Normal (Sample.created, Sample.token), Sample.world1))
    by (vm_compute; reflexivity).
  split; [exact C|].
  exact (proj1 (createIssue_saves_token _ _ _ _ _ _ _ C)).
Defined.

Lemma substring_length (s : string) (n m : nat) :
  n + m <= String.length s -> String.length (substring n m s) = m.
Proof.
  revert n m. induction s as [|c s IH]; intros n m; simpl.
  - intros H. assert (n = 0 /\ m = 0) as [-> ->] by lia. reflexivity.
  - destruct n as [|n]; [destruct m as [|m]|]; simpl; intros H.
    + reflexivity.
    + f_equal. apply IH. lia.
    + apply IH. lia.
Qed.

(** X10.  The "tracking ID" that the toast of [createIssue] shows is the
    last eight characters of the token.  For a token longer than that the toast
    does not show what tracks the issue: looking the shown ID up fails as "not
    found", unless another issue happens to carry it as its token. *)
Theorem displayed_tracking_id_does_not_track issueData rpc env w issue token w' :
  createIssue issueData rpc env w = (Normal (issue, token), w') ->
  8 < String.length token ->
  (forall r, In r (Db.issues (db w)) -> IssueRow.anonymous_token r <> slice_last 8 token) ->
  In (Toast.mk "Issue reported successfully"
               (Some ("Your anonymous tracking ID is: " +:+ slice_last 8 token)) None)
     (toasts w')
  /\ String.length (slice_last 8 token) = 8
  /\ fst (trackIssueByToken (slice_last 8 token) None w') = Thrown not_single_row.
Proof.
  intros C L Hother.
  destruct (createIssue_Normal_effects _ _ _ _ _ _ _ C) as (_ & Ht & _).
  assert (Len : String.length (slice_last 8 token) = 8)
    by (unfold slice_last; apply substring_length; lia).
  split; [rewrite Ht; apply in_or_app; right; left; reflexivity|].
  split; [exact Len|].
  rewrite trackIssueByToken_unknown_token; [reflexivity|].
  destruct (createIssue_Normal _ _ _ _ _ _ _ C)
    as (t & ds & s & _ & _ & _ & _ & _ & -> & _ & _).
  simpl. intros r Hr. apply in_app_or in Hr as [Hr|[<-|[]]]; [exact (Hother r Hr)|].
  simpl. intros E. rewrite <- E in Len. lia.
Qed.

Lemma displayed_tracking_id_does_not_track_witness :
  createIssue Sample.broken_light (Success Sample.token) Sample.env Sample.world0
  = (Normal (Sample.created, Sample.token), Sample.world1)
  /\ 8 < String.length Sample.token
  /\ (forall r, In r (Db.issues (db Sample.world0)) ->
                IssueRow.anonymous_token r <> slice_last 8 Sample.token)
  /\ fst (trackIssueByToken "Ki8Ov3Nw" None Sample.world1) = Thrown not_single_row.
Proof.
  assert (C : createIssue Sample.broken_light (Success Sample.token) Sample.env Sample.world0
              = (Normal (Sample.created, Sample.token), Sample.world1))
    by (vm_compute; reflexivity).
  assert (L : 8 < String.length Sample.token) by (vm_compute; lia).
  assert (O : forall r, In r (Db.issues (db Sample.world0)) ->
                        IssueRow.anonymous_token r <> slice_last 8 Sample.token)
    by (simpl; intros r []).
  split; [exact C|]. split; [exact L|]. split; [exact O|].
  exact (proj2 (proj2 (displayed_tracking_id_does_not_track _ _ _ _ _ _ _ C L O))).
Defined.

(** X11.  The store, not the hook, checks what is required: when the title,
    the description or the severity is missing, or the severity is none of the
    four, [createIssue] throws, after the error was logged and shown, and
    neither the store nor the state of the hook nor local storage changes. *)
Theorem createIssue_rejects_incomplete issueData rpc env w :
  PartialIssue.title issueData = None
  \/ PartialIssue.description issueData = None
  \/ PartialIssue.severity issueData = None
  \/ (exists s, PartialIssue.severity issueData = Some s /\ severity_check s = false) ->
  exists e,
    createIssue issueData rpc env w
    = (Thrown e,
       after_failure "Error creating issue:" e
         (Some (Toast.mk "Error reporting issue" (Some (message e)) destructive)) w).
Proof.
  intros H. destruct w as [d uid h ts cs ls tp rp loc].
  unfold createIssue. unfold_m.
  destruct rpc as [tokenData|tokenError]; [|eexists; reflexivity].
  unfold insert_issue. simpl.
  destruct (net env) as [e|]; [eexists; reflexivity|].
  destruct (PartialIssue.title issueData) as [t|]; [|eexists; reflexivity].
  destruct (PartialIssue.description issueData) as [ds|]; [|eexists; reflexivity].
  destruct (PartialIssue.severity issueData) as [s|]; [|eexists; reflexivity].
  destruct H as [H|[H|[H|(s' & [= <-] & Hs)]]]; try discriminate.
  unfold issues_constraints, new_row. cbn [IssueRow.severity]. rewrite Hs.
  eexists. reflexivity.
Qed.

Lemma createIssue_rejects_incomplete_witness :
  (PartialIssue.title PartialIssue.empty = None
   \/ PartialIssue.description PartialIssue.empty = None
   \/ PartialIssue.severity PartialIssue.empty = None
   \/ (exists s, PartialIssue.severity PartialIssue.empty = Some s
                 /\ severity_check s = false))
  /\ exists e,
       createIssue PartialIssue.empty (Success Sample.token) Sample.env Sample.world0
       = (Thrown e,
          after_failure "Error creating issue:" e
            (Some (Toast.mk "Error reporting issue" (Some (message e)) destructive))
            Sample.world0).
Proof.
  assert (H : PartialIssue.title PartialIssue.empty = None
              \/ PartialIssue.description PartialIssue.empty = None
              \/ PartialIssue.severity PartialIssue.empty = None
              \/ (exists s, PartialIssue.severity PartialIssue.empty = Some s
                            /\ severity_check s = false))
    by (left; reflexivity).
  split; [exact H|].
  exact (createIssue_rejects_incomplete PartialIssue.empty (Success Sample.token)
           Sample.env Sample.world0 H).
Defined.

(** ** The report form *)

(** [createIssue] leaves the pages and the session alone. *)
Lemma createIssue_frame issueData rpc env w :
  location (snd (createIssue issueData rpc env w)) = location w
  /\ report_page (snd (createIssue issueData rpc env w)) = report_page w
  /\ track_page (snd (createIssue issueData rpc env w)) = track_page w
  /\ session (snd (createIssue issueData rpc env w)) = session w.
Proof.
  unfold createIssue. unfold_m.
  destruct rpc as [tokenData|tokenError]; [|repeat split; reflexivity].
  destruct (insert_issue _ env (db w)) as [[data|error] d]; repeat split; reflexivity.
Qed.

(** X12.  [handleSubmit] never throws and always ends with [loading] off.
    When its [createIssue] returned, it shows "Report submitted successfully"
    after the toast of the hook and goes to the dashboard; when [createIssue]
    threw, it shows "Failed to submit report" after the toast of the hook and
    stays on the page. *)
Theorem handleSubmit_outcome data timestamp rpc env w :
  fst (handleSubmit data timestamp rpc env w) = Normal tt
  /\ ReportPage.loading (report_page (snd (handleSubmit data timestamp rpc env w))) = false
  /\ match createIssue (issueData_of data (session w) timestamp) rpc env
             (with_report_page (ReportPage.mk true (ReportPage.step (report_page w))) w) with
     | (Normal _, w1) =>
         location (snd (handleSubmit data timestamp rpc env w)) = "/dashboard"
         /\ toasts (snd (handleSubmit data timestamp rpc env w))
            = toasts w1
              ++ [Toast.mk "Report submitted successfully"
                    (Some (if ReportData.anonymous data
                           then "Your anonymous report has been submitted. Save your tracking token for updates."
                           else "Your report has been submitted and assigned a tracking number."))
                    None]
     | (Thrown _, w1) =>
         location (snd (handleSubmit data timestamp rpc env w)) = location w
         /\ db (snd (handleSubmit data timestamp rpc env w)) = db w
         /\ toasts (snd (handleSubmit data timestamp rpc env w))
            = toasts w1
              ++ [Toast.mk "Failed to submit report"
                    (Some "Please try again or contact support if the problem persists.")
                    destructive]
     end.
Proof.
  pose proof (createIssue_frame (issueData_of data (session w) timestamp) rpc env
                (with_report_page (ReportPage.mk true (ReportPage.step (report_page w))) w))
    as (Floc & _).
  unfold handleSubmit. unfold_m. simpl.
  destruct (createIssue _ rpc env _) as [[[issue token]|e] w1] eqn:C; simpl in *.
  - repeat split; reflexivity.
  - destruct (createIssue_Thrown _ _ _ _ _ _ C) as [Hdb _].
    repeat split; auto.
Qed.

Lemma handleSubmit_Normal data timestamp rpc env w issue token w1 :
  createIssue (issueData_of data (session w) timestamp) rpc env
    (with_report_page (ReportPage.mk true (ReportPage.step (report_page w))) w)
  = (Normal (issue, token), w1) ->
  location (snd (handleSubmit data timestamp rpc env w)) = "/dashboard".
Proof.
  intros C. unfold handleSubmit. unfold_m. simpl. rewrite C. reflexivity.
Qed.

(** X13.  A report that passes [reportSchema] meets the NOT NULL and CHECK
    constraints of the table: when the token arrives, the transport works, the
    key and the token are new and the category (and the department, if one is
    chosen) exists, [handleSubmit] stores the report as entered, open, without
    reporter, and goes to the dashboard. *)
Theorem handleSubmit_valid_report_is_stored data timestamp token env w :
  reportSchema data = true ->
  net env = None ->
  (forall o, In o (Db.issues (db w)) -> IssueRow.id o <> uuid env) ->
  (forall o, In o (Db.issues (db w)) -> IssueRow.anonymous_token o <> token) ->
  references (find_category (db w)) (Some (ReportData.category_id data)) = true ->
  references (find_department (db w)) (or_undefined (ReportData.department_id data)) = true ->
  exists r,
    Db.issues (db (snd (handleSubmit data timestamp (Success token) env w)))
    = Db.issues (db w) ++ [r]
    /\ IssueRow.title r = ReportData.title data
    /\ IssueRow.description r = ReportData.description data
    /\ IssueRow.severity r = ReportData.severity data
    /\ IssueRow.category_id r = Some (ReportData.category_id data)
    /\ IssueRow.status r = "open"
    /\ IssueRow.anonymous_token r = token
    /\ IssueRow.reporter_id r = None
    /\ location (snd (handleSubmit data timestamp (Success token) env w)) = "/dashboard".
Proof.
  intros V Hn Hid Htok Hcat Hdep.
  assert (Hsev : severity_check (ReportData.severity data) = true).
  { unfold reportSchema in V. apply andb_prop in V as [_ V]. exact V. }
  set (w0 := with_report_page (ReportPage.mk true (ReportPage.step (report_page w))) w).
  set (issueData := issueData_of data (session w) timestamp).
  destruct (createIssue_returns issueData token env w0
              (ReportData.title data) (ReportData.description data) (ReportData.severity data)
              Hn eq_refl eq_refl eq_refl Hsev Hid Htok Hcat Hdep) as (issue & w1 & C).
  destruct (createIssue_Normal _ _ _ _ _ _ _ C)
    as (t & ds & s & _ & [= <-] & [= <-] & [= <-] & _ & Hdb & _ & _).
  pose proof (handleSubmit_Normal data timestamp (Success token) env w _ _ _ C) as Hloc.
  rewrite handleSubmit_store. fold w0 issueData. rewrite C. simpl.
  eexists. rewrite Hdb. simpl. repeat split; auto.
Qed.

Lemma handleSubmit_valid_report_is_stored_witness :
  reportSchema Sample2.form = true
  /\ net Sample.env = None
  /\ (forall o, In o (Db.issues (db Sample.world0)) -> IssueRow.id o <> uuid Sample.env)
  /\ (forall o, In o (Db.issues (db Sample.world0)) ->
                IssueRow.anonymous_token o <> Sample.token)
  /\ references (find_category (db Sample.world0))
                (Some (ReportData.category_id Sample2.form)) = true
  /\ references (find_department (db Sample.world0))
                (or_undefined (ReportData.department_id Sample2.form)) = true
  /\ exists r,
       Db.issues (db (snd (handleSubmit Sample2.form "2025-08-03T17:45:17.000Z"
                             (Success Sample.token) Sample.env Sample.world0)))
       = Db.issues (db Sample.world0) ++ [r]
       /\ IssueRow.title r = "Broken light in lobby"
       /\ IssueRow.reporter_id r = None.
Proof.
  assert (F : forall o : IssueRow.t, In o (Db.issues (db Sample.world0)) -> False)
    by (simpl; intros o []).
  assert (H1 : forall o, In o (Db.issues (db Sample.world0)) -> IssueRow.id o <> uuid Sample.env)
    by (intros o Ho; destruct (F o Ho)).
  assert (H2 : forall o, In o (Db.issues (db Sample.world0)) ->
                         IssueRow.anonymous_token o <> Sample.token)
    by (intros o Ho; destruct (F o Ho)).
  destruct (handleSubmit_valid_report_is_stored Sample2.form "2025-08-03T17:45:17.000Z"
              Sample.token Sample.env Sample.world0 eq_refl eq_refl H1 H2 eq_refl eq_refl)
    as (r & Hr & Ht & _ & _ & _ & _ & _ & Hrep & _).
  split; [reflexivity|]. split; [reflexivity|]. split; [exact H1|]. split; [exact H2|].
  split; [reflexivity|]. split; [reflexivity|].
  exists r. split; [exact Hr|]. split; [exact Ht|exact Hrep].
Defined.

(** ** The tracking pages *)

(** X14.  [handleTrack] never throws and always ends with [loading] off.
    When the lookup finds the issue, the page shows it and the toast "Issue
    found".  When the lookup fails, for whatever reason, the page keeps the
    issue it showed before and ends with the toasts "Issue not found" (of the
    hook) and "Error tracking issue" (its own). *)
Theorem handleTrack_outcome token n w :
  fst (handleTrack token n w) = Normal tt
  /\ TrackPage.loading (track_page (snd (handleTrack token n w))) = false
  /\ db (snd (handleTrack token n w)) = db w
  /\ match select_issue_by_token token n (db w) with
     | Success data =>
         TrackPage.trackedIssue (track_page (snd (handleTrack token n w))) = Some data
         /\ toasts (snd (handleTrack token n w))
            = toasts w ++ [Toast.mk "Issue found"
                             (Some "Here's the current status of your report.") None]
         /\ console (snd (handleTrack token n w)) = console w
     | Failure e =>
         TrackPage.trackedIssue (track_page (snd (handleTrack token n w)))
         = TrackPage.trackedIssue (track_page w)
         /\ toasts (snd (handleTrack token n w))
            = toasts w
              ++ [Toast.mk "Issue not found"
                    (Some "Please check your tracking token and try again.") destructive;
                  Toast.mk "Error tracking issue"
                    (Some "Please try again or contact support if the problem persists.")
                    destructive]
         /\ console (snd (handleTrack token n w)) = console w ++ [("Error tracking issue:", e)]
     end.
Proof.
  unfold handleTrack, trackIssueByToken. unfold_m. simpl.
  destruct (select_issue_by_token token n (db w)) as [data|e]; simpl.
  - repeat split; reflexivity.
  - rewrite <- app_assoc. repeat split; reflexivity.
Qed.

(** *** [trim] and white space *)

Example trim_examples :
  trim "  token-a " = "token-a"
  /\ trim ("a b" +:+ bytes [10; 13]) = "a b"
  /\ trim (bytes [194; 160] +:+ "x" +:+ bytes [227; 128; 128; 226; 128; 168]) = "x"
  /\ trim (bytes [239; 187; 191; 32; 226; 129; 159]) = EmptyString
  /\ trim (bytes [194; 133]) = bytes [194; 133]
  /\ trim (bytes [226; 128; 139]) = bytes [226; 128; 139].
Proof. repeat split; vm_compute; reflexivity. Qed.

Lemma is_white_space_In (s : string) : is_white_space s = true <-> In s white_space.
Proof.
  unfold is_white_space. rewrite existsb_exists. split.
  - intros (x & Hx & E). apply String.eqb_eq in E. subst x. exact Hx.
  - intros H. exists s. split; [exact H|apply String.eqb_refl].
Qed.

Lemma append_String (x : ascii) (a b : string) : String x a +:+ b = String x (a +:+ b).
Proof. reflexivity. Qed.

Lemma append_assoc (a b c : string) : (a +:+ b) +:+ c = a +:+ (b +:+ c).
Proof.
  induction a as [|x a IH]; [reflexivity|].
  rewrite !append_String, IH. reflexivity.
Qed.

Lemma white_space_only_app (a b : string) :
  white_space_only a -> white_space_only b -> white_space_only (a +:+ b).
Proof.
  intros A B. induction A as [|c s Hc _ IH]; [exact B|].
  rewrite append_assoc. apply white_space_cons; assumption.
Qed.

(** [trimStart] drops a white-space character at the front. *)
Lemma trimStart_white_space (c s : string) :
  In c white_space -> trimStart (c +:+ s) = trimStart s.
Proof.
  intros H. cbv in H.
  repeat (destruct H as [<-|H]; [reflexivity|]). destruct H.
Qed.

Lemma trimStart_white_space_only (s : string) :
  white_space_only s -> trimStart s = EmptyString.
Proof.
  intros B. induction B as [|c s Hc _ IH]; [reflexivity|].
  rewrite (trimStart_white_space _ _ Hc). exact IH.
Qed.

(** What [trimEnd] drops is white space. *)
Lemma trimEnd_split (s : string) :
  exists rest, s = trimEnd s +:+ rest /\ white_space_only rest.
Proof.
  induction s as [|a s (rest & E & B)]; simpl trimEnd.
  - exists EmptyString. split; [reflexivity|constructor].
  - destruct (is_white_space (String a (trimEnd s))) eqn:W.
    + exists (String a (trimEnd s) +:+ rest). split.
      * rewrite append_String, <- E. reflexivity.
      * apply white_space_cons; [apply is_white_space_In, W|exact B].
    + exists rest. split; [rewrite append_String, <- E; reflexivity|exact B].
Qed.

(** What [trimStart] drops is white space. *)
Lemma trimStart_split_upto (n : nat) (s : string) :
  (String.length s <= n)%nat ->
  exists front, s = front +:+ trimStart s /\ white_space_only front.
Proof.
  revert s. induction n as [n IH] using lt_wf_ind. intros s L.
  assert (Z0 : exists front, s = front +:+ s /\ white_space_only front)
    by (exists EmptyString; split; [reflexivity|constructor]).
  destruct s as [|a s1]; [exists EmptyString; split; [reflexivity|constructor]|].
  simpl trimStart. simpl in L.
  destruct (is_white_space (String a EmptyString)) eqn:W1.
  { destruct (IH (String.length s1) ltac:(lia) s1 ltac:(lia)) as (front & E & B).
    exists (String a EmptyString +:+ front). split.
    - rewrite append_assoc, <- E. reflexivity.
    - apply white_space_cons; [apply is_white_space_In, W1|exact B]. }
  destruct s1 as [|b s2]; [exact Z0|]. simpl in L.
  destruct (is_white_space (String a (String b EmptyString))) eqn:W2.
  { destruct (IH (String.length s2) ltac:(lia) s2 ltac:(lia)) as (front & E & B).
    exists (String a (String b EmptyString) +:+ front). split.
    - rewrite append_assoc, <- E. reflexivity.
    - apply white_space_cons; [apply is_white_space_In, W2|exact B]. }
  destruct s2 as [|c s3]; [exact Z0|]. simpl in L.
  destruct (is_white_space (String a (String b (String c EmptyString)))) eqn:W3.
  { destruct (IH (String.length s3) ltac:(lia) s3 ltac:(lia)) as (front & E & B).
    exists (String a (String b (String c EmptyString)) +:+ front). split.
    - rewrite append_assoc, <- E. reflexivity.
    - apply white_space_cons; [apply is_white_space_In, W3|exact B]. }
  exact Z0.
Qed.

(** [!token.trim()] holds exactly of the strings made of white space. *)
Lemma trim_blank (s : string) : trim s = EmptyString <-> white_space_only s.
Proof.
  unfold trim. split.
  - intros T.
    destruct (trimStart_split_upto (String.length s) s (le_n _)) as (front & E & B).
    destruct (trimEnd_split (trimStart s)) as (rest & E' & B').
    rewrite T in E'. change (trimStart s = rest) in E'. rewrite E, E'.
    apply white_space_only_app; assumption.
  - intros B. rewrite (trimStart_white_space_only _ B). reflexivity.
Qed.

(** X15.  On the other tracking page, a token that is empty or made of white
    space only (the white space of [trim], the characters beyond 127
    included) is refused before anything is asked of the hook: the page sets
    the error "Please enter a tracking token" and nothing else changes, neither
    on the page nor in the world (no request, no toast, no log). *)
Theorem handleTrack2_blank_token (p : TrackPage2.t) (n : Net) (w : World) :
  white_space_only (TrackPage2.token p) ->
  handleTrack2 p n w
  = (Normal (TrackPage2.mk (TrackPage2.token p) (TrackPage2.issue p) (TrackPage2.loading p)
                           (Some "Please enter a tracking token")),
     w).
Proof.
  intros B. unfold handleTrack2. rewrite (proj2 (trim_blank _) B). reflexivity.
Qed.

Lemma handleTrack2_blank_token_witness :
  white_space_only (" " +:+ bytes [194; 160] +:+ bytes [227; 128; 128] +:+ EmptyString)
  /\ handleTrack2
       (TrackPage2.mk (" " +:+ bytes [194; 160] +:+ bytes [227; 128; 128] +:+ EmptyString)
                      None false None)
       None Sample.world1
     = (Normal (TrackPage2.mk
                  (" " +:+ bytes [194; 160] +:+ bytes [227; 128; 128] +:+ EmptyString)
                  None false (Some "Please enter a tracking token")),
        Sample.world1).
Proof.
  assert (B : white_space_only
                (" " +:+ bytes [194; 160] +:+ bytes [227; 128; 128] +:+ EmptyString)).
  { repeat (apply white_space_cons;
            [unfold white_space; simpl map; repeat first [left; reflexivity | right]|]).
    constructor. }
  split; [exact B|].
  exact (handleTrack2_blank_token
           (TrackPage2.mk (" " +:+ bytes [194; 160] +:+ bytes [227; 128; 128] +:+ EmptyString)
                          None false None)
           None Sample.world1 B).
Defined.

(** X16.  With a token that is not made of white space only, that page asks
    the hook for the token as typed, never throws and ends with [loading]
    off.  A found issue is shown, transformed, and the error is cleared; after
    any failure, an unknown token included, the page keeps the issue it showed
    and sets the error "Failed to track issue. Please try again." (never
    "Issue not found. Please check your tracking token."). *)
Theorem handleTrack2_outcome (p : TrackPage2.t) (n : Net) (w : World) :
  ~ white_space_only (TrackPage2.token p) ->
  match select_issue_by_token (TrackPage2.token p) n (db w) with
  | Success data =>
      handleTrack2 p n w
      = (Normal (TrackPage2.mk (TrackPage2.token p) (Some (transform_written data)) false None),
         w)
  | Failure e =>
      handleTrack2 p n w
      = (Normal (TrackPage2.mk (TrackPage2.token p) (TrackPage2.issue p) false
                               (Some "Failed to track issue. Please try again.")),
         after_failure "Error tracking issue:" e
           (Some (Toast.mk "Issue not found"
                    (Some "Please check your tracking token and try again.") destructive)) w)
  end.
Proof.
  intros Hs.
  assert (N : (trim (TrackPage2.token p) =? EmptyString) = false).
  { apply String.eqb_neq. intros E. apply Hs, trim_blank, E. }
  unfold handleTrack2. rewrite N. unfold trackIssueByToken. unfold_m.
  destruct (select_issue_by_token (TrackPage2.token p) n (db w)) as [data|e]; reflexivity.
Qed.

Lemma handleTrack2_outcome_witness :
  ~ white_space_only " never-issued"
  /\ handleTrack2 (TrackPage2.mk " never-issued" None false None) None Sample.world1
     = (Normal (TrackPage2.mk " never-issued" None false
                              (Some "Failed to track issue. Please try again.")),
        after_failure "Error tracking issue:" not_single_row
          (Some (Toast.mk "Issue not found"
                   (Some "Please check your tracking token and try again.") destructive))
          Sample.world1).
Proof.
  assert (H : ~ white_space_only
                (TrackPage2.token (TrackPage2.mk " never-issued" None false None))).
  { intros B. apply trim_blank in B. vm_compute in B. discriminate B. }
  split; [exact H|].
  exact (handleTrack2_outcome (TrackPage2.mk " never-issued" None false None) None
           Sample.world1 H).
Defined.

(** ** Loading *)

(** X17.  The load that runs when the hook mounts never throws and always
    ends with [loading] off, whichever of its three fetches fail, and asks the
    store for nothing but reads.  Only a failure of [fetchIssues] is shown; a
    failed fetch of the categories or of the departments leaves the lists the
    hook had and shows nothing. *)
Theorem loadData_always_finishes (n1 n2 n3 : Net) (w : World) :
  fst (loadData n1 n2 n3 w) = Normal tt
  /\ Hook.loading (hook (snd (loadData n1 n2 n3 w))) = false
  /\ db (snd (loadData n1 n2 n3 w)) = db w
  /\ toasts (snd (loadData n1 n2 n3 w))
     = toasts w
       ++ match n1 with
          | Some e => [Toast.mk "Error loading issues" (Some (message e)) destructive]
          | None => []
          end
  /\ Hook.categories (hook (snd (loadData n1 n2 n3 w)))
     = match select_categories n2 (db w) with
       | Success data => data
       | Failure _ => Hook.categories (hook w)
       end
  /\ Hook.departments (hook (snd (loadData n1 n2 n3 w)))
     = match select_departments n3 (db w) with
       | Success data => data
       | Failure _ => Hook.departments (hook w)
       end.
Proof.
  destruct n1, n2, n3; simpl; rewrite ?app_nil_r; repeat split; reflexivity.
Qed.

(** ** The dashboard, again *)

Lemma StronglySorted_app_between {A} (R : A -> A -> Prop) (l1 l2 : list A) :
  StronglySorted R (l1 ++ l2) -> forall a b, In a l1 -> In b l2 -> R a b.
Proof.
  induction l1 as [|x l1 IH]; simpl; intros S a b Ha Hb; [destruct Ha|].
  inversion S as [|? ? Sl Fx]; subst. destruct Ha as [<-|Ha].
  - rewrite List.Forall_forall in Fx. apply Fx, in_or_app. right. exact Hb.
  - exact (IH Sl a b Ha Hb).
Qed.

(** X18.  On a list that is newest first, the panel "Recent Issues" shows
    the five newest issues (all of them when there are fewer): no issue it
    leaves out was created after one it shows. *)
Theorem recentIssues_are_the_newest (issues : list Issue.t) :
  newest_first_list issues ->
  length (Charts.recentIssues issues) = Nat.min 5 (length issues)
  /\ forall shown hidden,
       In shown (Charts.recentIssues issues) ->
       In hidden (skipn 5 issues) ->
       (Issue.created_at hidden <= Issue.created_at shown)%Z.
Proof.
  intros S. unfold Charts.recentIssues. split; [apply length_firstn|].
  intros shown hidden Hs Hh. unfold newest_first_list in S.
  rewrite <- (firstn_skipn 5 issues), map_app in S.
  apply (StronglySorted_app_between _ _ _ S).
  - apply in_map, Hs.
  - apply in_map, Hh.
Qed.

Lemma recentIssues_are_the_newest_witness :
  newest_first_list Sample3.week
  /\ length (Charts.recentIssues Sample3.week) = 5%nat
  /\ In (Sample3.dated "c" 30) (Charts.recentIssues Sample3.week)
  /\ In (Sample3.dated "b" 20) (skipn 5 Sample3.week)
  /\ (Issue.created_at (Sample3.dated "b" 20) <= Issue.created_at (Sample3.dated "c" 30))%Z.
Proof.
  assert (S : newest_first_list Sample3.week).
  { unfold newest_first_list.
    change (map Issue.created_at Sample3.week) with [70; 60; 50; 40; 30; 20; 10]%Z.
    repeat constructor; lia. }
  assert (Hs : In (Sample3.dated "c" 30) (Charts.recentIssues Sample3.week))
    by (simpl; tauto).
  assert (Hh : In (Sample3.dated "b" 20) (skipn 5 Sample3.week)) by (left; reflexivity).
  split; [exact S|]. split; [exact (proj1 (recentIssues_are_the_newest Sample3.week S))|].
  split; [exact Hs|]. split; [exact Hh|].
  exact (proj2 (recentIssues_are_the_newest Sample3.week S) _ _ Hs Hh).
Defined.

Lemma prefix_toLowerCase (t s : string) :
  String.prefix t s = true -> String.prefix (toLowerCase t) (toLowerCase s) = true.
Proof.
  revert s. induction t as [|a t IH]; intros s; [destruct s; reflexivity|].
  destruct s as [|b s]; simpl; [discriminate|].
  destruct (ascii_dec a b) as [->|Ne]; [|discriminate].
  intros H. destruct (ascii_dec (lower_ascii b) (lower_ascii b)); [|contradiction].
  exact (IH s H).
Qed.

(** A string that includes another still does when both are in lower case. *)
Lemma includes_toLowerCase (s t : string) :
  includes s t = true -> includes (toLowerCase s) (toLowerCase t) = true.
Proof.
  induction s as [|c s IH]; simpl; intros H.
  - apply orb_true_iff in H as [H|H]; [|discriminate].
    apply orb_true_iff. left. exact (prefix_toLowerCase t EmptyString H).
  - apply orb_true_iff in H as [H|H]; apply orb_true_iff.
    + left. exact (prefix_toLowerCase t (String c s) H).
    + right. exact (IH H).
Qed.

(** X19.  On text in the characters 0 to 127, where lower case is the
    letters A to Z replaced, the search of the dashboard ignores the case of
    letters: an issue whose title or description includes a term is listed for
    every search term that differs from it in case only (with the status and
    severity filters on "all"). *)
Theorem search_ignores_case (term term' : string) (issues : list Issue.t) (i : Issue.t) :
  ascii_only term ->
  ascii_only term' ->
  toLowerCase term' = toLowerCase term ->
  In i issues ->
  (ascii_only (Issue.title i) /\ includes (Issue.title i) term = true)
  \/ (ascii_only (Issue.description i) /\ includes (Issue.description i) term = true) ->
  In i (Dashboard.filteredIssues term' "all" "all" issues).
Proof.
  intros _ _ E Hin H. unfold Dashboard.filteredIssues. apply filter_In. split; [exact Hin|].
  cbv zeta. rewrite E. simpl. rewrite !andb_true_r. apply orb_true_iff.
  destruct H as [[_ H]|[_ H]]; [left|right]; exact (includes_toLowerCase _ _ H).
Qed.

Lemma search_ignores_case_witness :
  ascii_only "Older"
  /\ ascii_only "oLDER"
  /\ toLowerCase "oLDER" = toLowerCase "Older"
  /\ In (transform_fetched (with_assignee Sample.store2 Sample.older)) Sample.fetched
  /\ ascii_only (Issue.title (transform_fetched (with_assignee Sample.store2 Sample.older)))
  /\ includes (Issue.title (transform_fetched (with_assignee Sample.store2 Sample.older)))
              "Older" = true
  /\ In (transform_fetched (with_assignee Sample.store2 Sample.older))
        (Dashboard.filteredIssues "oLDER" "all" "all" Sample.fetched).
Proof.
  assert (A : ascii_only "Older") by (repeat constructor).
  assert (A' : ascii_only "oLDER") by (repeat constructor).
  assert (E : toLowerCase "oLDER" = toLowerCase "Older") by reflexivity.
  assert (Hin : In (transform_fetched (with_assignee Sample.store2 Sample.older))
                   Sample.fetched) by (right; left; reflexivity).
  assert (At : ascii_only
                 (Issue.title (transform_fetched (with_assignee Sample.store2 Sample.older))))
    by (repeat constructor).
  assert (H : includes (Issue.title (transform_fetched (with_assignee Sample.store2 Sample.older)))
                       "Older" = true) by reflexivity.
  split; [exact A|]. split; [exact A'|]. split; [exact E|]. split; [exact Hin|].
  split; [exact At|]. split; [exact H|].
  exact (search_ignores_case "Older" "oLDER" Sample.fetched _ A A' E Hin
           (or_introl (conj At H))).
Defined.

Lemma severity_check_In (s : string) : severity_check s = true -> In s IssueSeverity.
Proof. apply one_of_In. Qed.

(** Every operation gives the hook issues whose severities are among the
    four, on a store that respects its CHECK constraints. *)
Lemma step_severities (w : World) (op : HookOp) :
  store_checked (db w) ->
  severities_valid (Hook.issues (hook w)) ->
  severities_valid (Hook.issues (hook (step w op))).
Proof.
  unfold step, store_checked, severities_valid.
  destruct op as [n|n|n|issueData rpc env|issueId updates env|token n]; simpl; intros S V.
  - destruct (fetchIssues_effect n w) as [_ [->| ->]]; auto.
    apply List.Forall_forall. intros i Hi.
    apply in_map_iff in Hi as (j & <- & Hj). apply in_map_iff in Hj as (r & <- & Hr).
    apply order_by_In in Hr. rewrite List.Forall_forall in S.
    apply severity_check_In. exact (proj1 (S r Hr)).
  - destruct (fetchCategories_effect n w) as [_ ->]. auto.
  - destruct (fetchDepartments_effect n w) as [_ ->]. auto.
  - unfold bind, ret.
    destruct (createIssue issueData rpc env w) as [[[issue token]|e] w'] eqn:C; simpl.
    + destruct (createIssue_Normal _ _ _ _ _ _ _ C)
        as (t & ds & s & _ & _ & _ & _ & Hc & _ & Hi & ->).
      constructor; [|exact V]. rewrite Hi.
      apply severity_check_In. exact (proj1 (issues_constraints_checks _ _ _ Hc)).
    + destruct (createIssue_Thrown _ _ _ _ _ _ C) as [_ ->]. auto.
  - unfold bind, ret.
    destruct (updateIssue issueId updates env w) as [[issue|e] w'] eqn:U; simpl.
    + destruct (updateIssue_Normal _ _ _ _ _ _ U) as (old & _ & Hc & _ & Hi & ->).
      apply List.Forall_forall. intros x Hx. apply in_map_iff in Hx as (i & <- & Hin).
      rewrite List.Forall_forall in V.
      destruct (Issue.id i =? issueId); [|exact (V i Hin)].
      rewrite Hi. apply severity_check_In.
      exact (proj1 (issues_constraints_checks _ _ _ Hc)).
    + destruct (updateIssue_Thrown _ _ _ _ _ _ U) as [_ ->]. auto.
  - unfold bind, ret. destruct (trackIssueByToken_effect token n w) as [_ Hl].
    destruct (trackIssueByToken token n w) as [[v|e] w']; simpl in *; rewrite Hl; auto.
Qed.

Lemma severity_counts_total (issues : list Issue.t) :
  severities_valid issues ->
  count_severity "critical" issues + count_severity "high" issues
  + count_severity "medium" issues + count_severity "low" issues
  = length issues.
Proof.
  unfold count_severity.
  induction 1 as [|i l Hi _ IH]; [reflexivity|].
  simpl in Hi. simpl.
  destruct Hi as [<-|[<-|[<-|[<-|[]]]]]; simpl; lia.
Qed.

(** X20.  Whatever the hook did, on a store that respects its CHECK
    constraints the charts of the dashboard account for the list: the four
    values of the severity chart add up to the number of issues, and the three
    values of the status chart (open, in progress, resolved) add up to the
    number of issues that are not closed. *)
Theorem charts_account_for_the_issues (ops : list HookOp) (w : World) :
  store_checked (db w) ->
  statuses_valid (Hook.issues (hook w)) ->
  severities_valid (Hook.issues (hook w)) ->
  list_sum (map Charts.value (Charts.severityData (Hook.issues (hook (run ops w)))))
  = Dashboard.totalIssues (Hook.issues (hook (run ops w)))
  /\ list_sum (map Charts.value (Charts.statusData (Hook.issues (hook (run ops w)))))
     + count_status "closed" (Hook.issues (hook (run ops w)))
     = Dashboard.totalIssues (Hook.issues (hook (run ops w))).
Proof.
  intros S V Sv.
  assert (J : statuses_valid (Hook.issues (hook (run ops w)))
              /\ severities_valid (Hook.issues (hook (run ops w)))).
  { unfold run. revert w S V Sv.
    induction ops as [|op ops IH]; intros w S V Sv; simpl; [auto|].
    destruct (step_statuses w op S V) as [S' V'].
    exact (IH _ S' V' (step_severities w op S Sv)). }
  destruct J as [Jv Js].
  pose proof (severity_counts_total _ Js) as Ts.
  pose proof (status_counts_total _ Jv) as Tv.
  unfold Charts.severityData, Charts.statusData, Charts.value, Dashboard.totalIssues.
  unfold count_status in Tv.
  unfold Dashboard.openIssues, Dashboard.inProgressIssues, Dashboard.resolvedIssues,
    count_status.
  simpl. lia.
Qed.

Lemma charts_account_for_the_issues_witness :
  store_checked (db Sample.world2)
  /\ statuses_valid (Hook.issues (hook Sample.world2))
  /\ severities_valid (Hook.issues (hook Sample.world2))
  /\ list_sum (map Charts.value
                   (Charts.severityData
                      (Hook.issues (hook (run [UpdateIssue "issue-a" Sample.resolve Sample.env]
                                              Sample.world2)))))
     = Dashboard.totalIssues
         (Hook.issues (hook (run [UpdateIssue "issue-a" Sample.resolve Sample.env]
                                 Sample.world2))).
Proof.
  assert (S : store_checked (db Sample.world2))
    by (unfold store_checked; simpl; repeat constructor).
  assert (V : statuses_valid (Hook.issues (hook Sample.world2)))
    by (unfold statuses_valid; simpl; repeat constructor; simpl; auto).
  assert (Sv : severities_valid (Hook.issues (hook Sample.world2)))
    by (unfold severities_valid; simpl; repeat constructor; simpl; auto).
  split; [exact S|]. split; [exact V|]. split; [exact Sv|].
  exact (proj1 (charts_account_for_the_issues
                  [UpdateIssue "issue-a" Sample.resolve Sample.env] Sample.world2 S V Sv)).
Defined.

(** ** Signing up *)

(** X21.  What is entered in the sign-up form arrives in the profile: a
    valid sign-up adds exactly one profile, for the new account, with the
    e-mail, the role, the first and last name, the company and the job title
    of the form, and the two names joined by a space as display name. *)
Theorem sign_up_fills_the_profile is_email (data : SignUpData.t) (uid pid : string)
    (d d' : Db.t) :
  handleSignUp is_email data uid pid d = Some d' ->
  exists p,
    Db.profiles d' = Db.profiles d ++ [p]
    /\ Db.issues d' = Db.issues d
    /\ Profile.user_id p = uid
    /\ Profile.email p = SignUpData.email data
    /\ Profile.role p = SignUpData.role data
    /\ Profile.first_name p = Some (SignUpData.firstName data)
    /\ Profile.last_name p = Some (SignUpData.lastName data)
    /\ Profile.company p = Some (SignUpData.company data)
    /\ Profile.job_title p = Some (SignUpData.jobTitle data)
    /\ Profile.display_name p
       = Some (SignUpData.firstName data +:+ " " +:+ SignUpData.lastName data).
Proof.
  unfold handleSignUp. destruct (signUpSchema is_email data); [|discriminate].
  intros [= <-]. eexists. split; [reflexivity|]. split; [reflexivity|].
  unfold handle_new_user, signUp, signUp_metadata. simpl.
  repeat split;
    repeat (rewrite lookup_insert_ne by discriminate);
    rewrite ?lookup_insert_eq; reflexivity.
Qed.

Lemma sign_up_fills_the_profile_witness :
  handleSignUp Sample.is_email Sample.sign_up "user-ada" "p-2" Sample.store
  = Some Sample.store_ada
  /\ exists p,
       Db.profiles Sample.store_ada = Db.profiles Sample.store ++ [p]
       /\ Profile.display_name p = Some "Ada Byron"
       /\ Profile.role p = "manager".
Proof.
  assert (H : handleSignUp Sample.is_email Sample.sign_up "user-ada" "p-2" Sample.store
              = Some Sample.store_ada) by (vm_compute; reflexivity).
  split; [exact H|].
  destruct (sign_up_fills_the_profile Sample.is_email Sample.sign_up "user-ada" "p-2"
              Sample.store Sample.store_ada H)
    as (p & Hp & _ & _ & _ & Hr & _ & _ & _ & _ & Hd).
  exists p. split; [exact Hp|]. split; [exact Hd|exact Hr].
Defined.

(** [split_part(s, '@', 1)] of a local part without '@', an '@' and the rest
    is the local part. *)
Lemma split_part_1_local (local rest : string) :
  (forall c, In c (list_ascii_of_string local) -> c <> "@"%char) ->
  split_part_1 "@" (local +:+ String "@" rest) = local.
Proof.
  induction local as [|a local IH]; simpl; intros H; [reflexivity|].
  destruct (Ascii.eqb_spec a "@"%char) as [E|_].
  - destruct (H a (or_introl eq_refl) E).
  - f_equal. apply IH. intros c Hc. exact (H c (or_intror Hc)).
Qed.

(** X22.  For an account that comes without a display name, the trigger
    takes the part of the e-mail address before the first '@'. *)
Theorem default_display_name_is_local_part (NEW : AuthUser.t) (pid : string) (now : Z)
    (local domain : string) :
  AuthUser.raw_user_meta_data NEW !! "display_name" = None ->
  AuthUser.email NEW = local +:+ String "@" domain ->
  (forall c, In c (list_ascii_of_string local) -> c <> "@"%char) ->
  Profile.display_name (handle_new_user NEW pid now) = Some local.
Proof.
  intros Hn He Hl. unfold handle_new_user. simpl. rewrite Hn, He. simpl.
  rewrite (split_part_1_local local domain Hl). reflexivity.
Qed.

Lemma default_display_name_is_local_part_witness :
  AuthUser.raw_user_meta_data Sample2.intruder !! "display_name" = None
  /\ AuthUser.email Sample2.intruder = "x" +:+ String "@" "example.org"
  /\ (forall c, In c (list_ascii_of_string "x") -> c <> "@"%char)
  /\ Profile.display_name (handle_new_user Sample2.intruder "p-9" 100) = Some "x".
Proof.
  assert (L : forall c, In c (list_ascii_of_string "x") -> c <> "@"%char)
    by (simpl; intros c [<-|[]]; discriminate).
  split; [reflexivity|]. split; [reflexivity|]. split; [exact L|].
  exact (default_display_name_is_local_part Sample2.intruder "p-9" 100 "x" "example.org"
           eq_refl eq_refl L).
Defined.

(** ** The sample rows of [anonymous_tokens], again *)

(** X23.  When the statement of the sample data succeeds, every stored issue
    without a reporter has a row of [anonymous_tokens] with its token and its
    key, valid for 90 days, and the issues and the rows the table had are
    kept.  The statement cannot be repeated: on the store it left, where a
    token it selects is in the table already, it fails as a whole with the
    unique violation 23505. *)
Theorem sample_anonymous_tokens_cover (key : IssueRow.t -> string) (d d' : Db.t)
    (i : IssueRow.t) :
  sample_anonymous_tokens key d = Success d' ->
  In i (Db.issues d) ->
  IssueRow.reporter_id i = None ->
  (exists t, In t (Db.anonymous_tokens d')
             /\ AnonymousToken.token t = IssueRow.anonymous_token i
             /\ AnonymousToken.issue_id t = IssueRow.id i
             /\ AnonymousToken.expires_at t = (AnonymousToken.created_at t + ninety_days)%Z)
  /\ Db.issues d' = Db.issues d
  /\ (forall t, In t (Db.anonymous_tokens d) -> In t (Db.anonymous_tokens d'))
  /\ (forall key', exists e, sample_anonymous_tokens key' d' = Failure e
                             /\ code e = "23505").
Proof.
  intros S Hi Hr. rewrite (sample_anonymous_tokens_Success _ _ _ S).
  assert (Hf : In i (List.filter (fun i => match IssueRow.reporter_id i with
                                           | None => true | Some _ => false end)
                                 (Db.issues d))).
  { apply filter_In. split; [exact Hi|]. rewrite Hr. reflexivity. }
  split; [|split; [|split]].
  - eexists. split.
    + simpl. apply in_or_app. right. apply in_map_iff. exists i. split; [reflexivity|exact Hf].
    + repeat split; reflexivity.
  - reflexivity.
  - intros t Ht. simpl. apply in_or_app. left. exact Ht.
  - intros key'. set (d1 := Db.with_anonymous_tokens _ d).
    destruct (insert_token_rows_collision d1 (Db.anonymous_tokens d1) (sample_token_rows key' d1)
                (AnonymousToken.mk (key' i) (IssueRow.anonymous_token i) (IssueRow.id i)
                                   (Db.clock d1 + ninety_days)%Z (Db.clock d1))
                (AnonymousToken.mk (key i) (IssueRow.anonymous_token i) (IssueRow.id i)
                                   (Db.clock d + ninety_days)%Z (Db.clock d)))
      as [e He].
    + apply in_map_iff. exists i. split; [reflexivity|exact Hf].
    + subst d1. simpl. apply in_or_app. right. apply in_map_iff. exists i.
      split; [reflexivity|exact Hf].
    + reflexivity.
    + exists e. unfold sample_anonymous_tokens. rewrite He. split; [reflexivity|].
      exact (insert_token_rows_code _ _ _ _ (sample_token_rows_reference key' d1) He).
Qed.

Lemma sample_anonymous_tokens_cover_witness :
  sample_anonymous_tokens IssueRow.id Sample.store2
  = Success (Db.with_anonymous_tokens
               [AnonymousToken.mk "issue-a" "token-a" "issue-a" 7776100 100;
                AnonymousToken.mk "issue-b" "token-b" "issue-b" 7776100 100]
               Sample.store2)
  /\ In Sample.older (Db.issues Sample.store2)
  /\ IssueRow.reporter_id Sample.older = None
  /\ exists e,
       sample_anonymous_tokens IssueRow.id
         (Db.with_anonymous_tokens
            [AnonymousToken.mk "issue-a" "token-a" "issue-a" 7776100 100;
             AnonymousToken.mk "issue-b" "token-b" "issue-b" 7776100 100]
            Sample.store2)
       = Failure e
       /\ code e = "23505".
Proof.
  assert (S : sample_anonymous_tokens IssueRow.id Sample.store2
              = Success (Db.with_anonymous_tokens
                           [AnonymousToken.mk "issue-a" "token-a" "issue-a" 7776100 100;
                            AnonymousToken.mk "issue-b" "token-b" "issue-b" 7776100 100]
                           Sample.store2)) by (vm_compute; reflexivity).
  assert (H : In Sample.older (Db.issues Sample.store2)) by (left; reflexivity).
  split; [exact S|]. split; [exact H|]. split; [reflexivity|].
  exact (proj2 (proj2 (proj2 (sample_anonymous_tokens_cover IssueRow.id Sample.store2 _
                                Sample.older S H eq_refl))) IssueRow.id).
Defined.

(** ** More on creating, tracking and updating *)

(** X24.  A token that a stored issue already carries is never given to a
    second issue: [createIssue] then throws, after the error was logged and
    shown, and the store, the list of the hook and local storage are as
    before. *)
Theorem createIssue_refuses_used_token issueData tokenData env w r :
  In r (Db.issues (db w)) ->
  IssueRow.anonymous_token r = tokenData ->
  exists e,
    createIssue issueData (Success tokenData) env w
    = (Thrown e,
       after_failure "Error creating issue:" e
         (Some (Toast.mk "Error reporting issue" (Some (message e)) destructive)) w).
Proof.
  intros Hr Ht.
  destruct (createIssue issueData (Success tokenData) env w) as [[[issue token]|e] w'] eqn:C.
  - exfalso.
    destruct (createIssue_Normal _ _ _ _ _ _ _ C)
      as (t & ds & s & [= <-] & _ & _ & _ & Hc & _ & _ & _).
    apply (issues_constraints_token_others _ _ _ _ Hc Hr). exact Ht.
  - exists e. revert C. unfold createIssue. unfold_m.
    destruct (insert_issue _ env (db w)) as [[data|error] d] eqn:I; [discriminate|].
    intros [= <- <-]. rewrite (insert_issue_Failure _ _ _ _ _ I), with_db_same. reflexivity.
Qed.

Lemma createIssue_refuses_used_token_witness :
  In Sample.row1 (Db.issues (db Sample.world1))
  /\ IssueRow.anonymous_token Sample.row1 = Sample.token
  /\ exists e,
       createIssue Sample.broken_light (Success Sample.token)
                   (mkWriteEnv None "issue-2" 1) Sample.world1
       = (Thrown e,
          after_failure "Error creating issue:" e
            (Some (Toast.mk "Error reporting issue" (Some (message e)) destructive))
            Sample.world1).
Proof.
  assert (H : In Sample.row1 (Db.issues (db Sample.world1))) by (left; reflexivity).
  split; [exact H|]. split; [reflexivity|].
  exact (createIssue_refuses_used_token Sample.broken_light Sample.token
           (mkWriteEnv None "issue-2" 1) Sample.world1 Sample.row1 H eq_refl).
Defined.

(** X25.  What [trackIssueByToken] returns carries the public updates of the
    issue and no others: an update is among them exactly when it is stored, is
    an update of that issue and is public. *)
Theorem trackIssueByToken_shows_public_updates token n w tracked w' :
  trackIssueByToken token n w = (Normal tracked, w') ->
  Issue.anonymous_token tracked = token
  /\ exists updates,
       Issue.updates tracked = Some updates
       /\ forall u, In u updates
                    <-> In u (Db.issue_updates (db w))
                        /\ IssueUpdate.issue_id u = Issue.id tracked
                        /\ IssueUpdate.is_public u = true.
Proof.
  unfold trackIssueByToken. unfold_m. unfold select_issue_by_token.
  destruct n as [e|]; [discriminate|].
  destruct (List.filter _ (Db.issues (db w))) as [|r [|? ?]] eqn:F; try discriminate.
  intros [= <- <-].
  assert (Hr : In r (List.filter (fun r => IssueRow.anonymous_token r =? token)
                                 (Db.issues (db w)))) by (rewrite F; left; reflexivity).
  apply filter_In in Hr as [_ Hr]. apply String.eqb_eq in Hr.
  split; [exact Hr|].
  exists (updates_of (db w) r). split; [reflexivity|].
  intros u. unfold updates_of. rewrite filter_In, andb_true_iff, String.eqb_eq.
  reflexivity.
Qed.

Lemma trackIssueByToken_shows_public_updates_witness :
  trackIssueByToken Sample.token None Sample2.world_notes
  = (Normal (with_updates Sample2.store_notes Sample.row1), Sample2.world_notes)
  /\ Issue.updates (with_updates Sample2.store_notes Sample.row1)
     = Some [Sample2.note "u-1" true]
  /\ Issue.anonymous_token (with_updates Sample2.store_notes Sample.row1) = Sample.token.
Proof.
  assert (T : trackIssueByToken Sample.token None Sample2.world_notes
              = (Normal (with_updates Sample2.store_notes Sample.row1), Sample2.world_notes))
    by (vm_compute; reflexivity).
  split; [exact T|]. split; [reflexivity|].
  exact (proj1 (trackIssueByToken_shows_public_updates _ _ _ _ _ T)).
Defined.

(** X26.  Creating, then fetching: the issue that [createIssue] returned is
    in the list that the next successful [fetchIssues] loads, exactly as it was
    returned. *)
Theorem createIssue_then_fetchIssues issueData rpc env w issue token w' :
  createIssue issueData rpc env w = (Normal (issue, token), w') ->
  In issue (Hook.issues (hook (snd (fetchIssues None w'))))
  /\ length (Hook.issues (hook (snd (fetchIssues None w'))))
     = S (length (Db.issues (db w))).
Proof.
  intros C.
  destruct (createIssue_Normal _ _ _ _ _ _ _ C)
    as (t & ds & s & _ & _ & _ & _ & _ & Hdb & Hi & _).
  set (r := new_row (insertData_of issueData token) t ds s (uuid env)
                    (Db.clock (db w) + Z.of_N (elapsed env))) in *.
  assert (E : Hook.issues (hook (snd (fetchIssues None w')))
              = map transform_fetched
                  (map (with_assignee (db w')) (order_by newest_first (Db.issues (db w')))))
    by reflexivity.
  rewrite E. split.
  - apply in_map_iff. exists (with_assignee (db w') r). split; [rewrite Hi; reflexivity|].
    apply in_map, order_by_In. rewrite Hdb. simpl. apply in_or_app. right. left. reflexivity.
  - rewrite !length_map, (Permutation_length (order_by_Permutation _ _)), Hdb. simpl.
    rewrite length_app. simpl. lia.
Qed.

Lemma createIssue_then_fetchIssues_witness :
  createIssue Sample.broken_light (Success Sample.token) Sample.env Sample.world0
  = (Normal (Sample.created, Sample.token), Sample.world1)
  /\ In Sample.created (Hook.issues (hook (snd (fetchIssues None Sample.world1)))).
Proof.
  assert (C : createIssue Sample.broken_light (Success Sample.token) Sample.env Sample.world0
              = (Normal (Sample.created, Sample.token), Sample.world1))
    by (vm_compute; reflexivity).
  split; [exact C|].
  exact (proj1 (createIssue_then_fetchIssues _ _ _ _ _ _ _ C)).
Defined.



(** * The token as the key of an issue *)

(** ** The table of anonymous tokens *)

(** C3, as stated, fails: after the sample submission went through, the
    table [anonymous_tokens] has no row for the token it returned. *)
Lemma createIssue_writes_no_token_row :
  createIssue Sample.broken_light (Success Sample.token) Sample.env Sample.world0
  = (Normal (Sample.created, Sample.token), Sample.world1)
  /\ ~ has_token_row (db Sample.world1) Sample.token Sample.created.
Proof.
  split.
  - vm_compute. reflexivity.
  - intros (t & [] & _).
Qed.

(** No operation of the hook writes the table [anonymous_tokens]. *)
Lemma step_anonymous_tokens (w : World) (op : HookOp) :
  Db.anonymous_tokens (db (step w op)) = Db.anonymous_tokens (db w).
Proof.
  unfold step.
  destruct op as [n|n|n|issueData rpc env|issueId updates env|token n]; simpl.
  - destruct (fetchIssues_effect n w) as [-> _]. reflexivity.
  - destruct (fetchCategories_effect n w) as [-> _]. reflexivity.
  - destruct (fetchDepartments_effect n w) as [-> _]. reflexivity.
  - unfold bind, ret.
    destruct (createIssue issueData rpc env w) as [[[issue token]|e] w'] eqn:C; simpl.
    + destruct (createIssue_Normal _ _ _ _ _ _ _ C)
        as (t & ds & s & _ & _ & _ & _ & _ & -> & _ & _).
      reflexivity.
    + destruct (createIssue_Thrown _ _ _ _ _ _ C) as [-> _]. reflexivity.
  - unfold bind, ret.
    destruct (updateIssue issueId updates env w) as [[issue|e] w'] eqn:U; simpl.
    + destruct (updateIssue_Normal _ _ _ _ _ _ U) as (old & _ & _ & -> & _ & _).
      reflexivity.
    + destruct (updateIssue_Thrown _ _ _ _ _ _ U) as [-> _]. reflexivity.
  - unfold bind, ret. destruct (trackIssueByToken_effect token n w) as [Hdb _].
    destruct (trackIssueByToken token n w) as [[v|e] w']; simpl in *; rewrite Hdb;
      reflexivity.
Qed.

Lemma run_anonymous_tokens (ops : list HookOp) (w : World) :
  Db.anonymous_tokens (db (run ops w)) = Db.anonymous_tokens (db w).
Proof.
  revert w. induction ops as [|op ops IH]; intros w; [reflexivity|].
  unfold run in *. simpl. rewrite IH. apply step_anonymous_tokens.
Qed.

(** ** The row behind a token *)

Lemma keyed_fields token id d r :
  keyed token id d r ->
  In r (Db.issues d) /\ IssueRow.anonymous_token r = token /\ IssueRow.id r = id.
Proof.
  intros [Qt Qi].
  assert (Ht : In r (List.filter (fun o => IssueRow.anonymous_token o =? token) (Db.issues d)))
    by (rewrite Qt; left; reflexivity).
  assert (Hi : In r (List.filter (fun o => IssueRow.id o =? id) (Db.issues d)))
    by (rewrite Qi; left; reflexivity).
  apply filter_In in Ht as [Hin Et]. apply filter_In in Hi as [_ Ei].
  apply String.eqb_eq in Et, Ei. auto.
Qed.

Lemma filter_map_same {A} (p : A -> bool) (f : A -> A) (l : list A) :
  (forall o, In o l -> p (f o) = p o) -> List.filter p (map f l) = map f (List.filter p l).
Proof.
  induction l as [|a l IH]; simpl; intros H; [reflexivity|].
  rewrite (H a (or_introl eq_refl)), (IH (fun o Ho => H o (or_intror Ho))).
  destruct (p a); reflexivity.
Qed.

(** A row that is inserted takes neither the token nor the key of a stored
    row. *)
Lemma keyed_insert token id d r nr now :
  keyed token id d r ->
  issues_constraints d (Db.issues d) nr = None ->
  keyed token id (Db.with_issues (Db.issues d ++ [nr]) now d) r.
Proof.
  intros Q C. destruct (keyed_fields _ _ _ _ Q) as (Hin & Et & Ei). destruct Q as [Qt Qi].
  assert (Nt : (IssueRow.anonymous_token nr =? token) = false).
  { apply String.eqb_neq. intros E.
    apply (issues_constraints_token_others _ _ _ _ C Hin). congruence. }
  assert (Ni : (IssueRow.id nr =? id) = false).
  { apply String.eqb_neq. intros E.
    pose proof (existsb_false_In _ _ r (issues_constraints_id _ _ _ C) Hin) as X.
    simpl in X. apply String.eqb_neq in X. congruence. }
  unfold keyed. simpl. rewrite !List.filter_app, Qt, Qi. simpl. rewrite Nt, Ni.
  split; reflexivity.
Qed.

(** An update that leaves key and token of its row alone leaves every token
    with the row that had it. *)
Lemma keyed_update token id d r issueId old nr now :
  keyed token id d r ->
  List.filter (fun o => IssueRow.id o =? issueId) (Db.issues d) = [old] ->
  IssueRow.id nr = IssueRow.id old ->
  IssueRow.anonymous_token nr = IssueRow.anonymous_token old ->
  exists r',
    keyed token id
      (Db.with_issues (map (fun o => if IssueRow.id o =? issueId then nr else o) (Db.issues d))
                      now d) r'
    /\ (r' = r \/ (r = old /\ r' = nr)).
Proof.
  intros [Qt Qi] F Ei Et.
  assert (Same : forall o, In o (Db.issues d) ->
                   IssueRow.anonymous_token (if IssueRow.id o =? issueId then nr else o)
                   = IssueRow.anonymous_token o
                   /\ IssueRow.id (if IssueRow.id o =? issueId then nr else o) = IssueRow.id o
                   /\ ((if IssueRow.id o =? issueId then nr else o) = o
                       \/ (o = old /\ (if IssueRow.id o =? issueId then nr else o) = nr))).
  { intros o Ho. destruct (IssueRow.id o =? issueId) eqn:E; [|auto].
    assert (Hf : In o (List.filter (fun o => IssueRow.id o =? issueId) (Db.issues d)))
      by (apply filter_In; auto).
    rewrite F in Hf. destruct Hf as [<-|[]]. auto. }
  exists (if IssueRow.id r =? issueId then nr else r).
  assert (Hin : In r (Db.issues d)).
  { assert (Ht : In r (List.filter (fun o => IssueRow.anonymous_token o =? token)
                                   (Db.issues d))) by (rewrite Qt; left; reflexivity).
    apply filter_In in Ht as [Hin _]. exact Hin. }
  split; [|exact (proj2 (proj2 (Same r Hin)))].
  unfold keyed. simpl. split.
  - rewrite (filter_map_same (fun o => IssueRow.anonymous_token o =? token)).
    + rewrite Qt. reflexivity.
    + intros o Ho. rewrite (proj1 (Same o Ho)). reflexivity.
  - rewrite (filter_map_same (fun o => IssueRow.id o =? id)).
    + rewrite Qi. reflexivity.
    + intros o Ho. rewrite (proj1 (proj2 (Same o Ho))). reflexivity.
Qed.

(** An operation whose patch names neither key nor token leaves the token
    with its issue; if the patch does not name the reporter either, the row
    keeps its reporter. *)
Lemma step_keyed token id (w : World) (op : HookOp) r :
  keeps_key op ->
  keyed token id (db w) r ->
  exists r', keyed token id (db (step w op)) r'
             /\ (keeps_reporter op -> IssueRow.reporter_id r' = IssueRow.reporter_id r).
Proof.
  unfold step.
  destruct op as [n|n|n|issueData rpc env|issueId updates env|tk n]; simpl; intros K Q.
  - destruct (fetchIssues_effect n w) as [-> _]. eauto.
  - destruct (fetchCategories_effect n w) as [-> _]. eauto.
  - destruct (fetchDepartments_effect n w) as [-> _]. eauto.
  - unfold bind, ret.
    destruct (createIssue issueData rpc env w) as [[[issue token']|e] w'] eqn:C; simpl.
    + destruct (createIssue_Normal _ _ _ _ _ _ _ C)
        as (t & ds & s & _ & _ & _ & _ & Hc & -> & _ & _).
      exists r. split; [exact (keyed_insert _ _ _ _ _ _ Q Hc)|reflexivity].
    + destruct (createIssue_Thrown _ _ _ _ _ _ C) as [-> _]. eauto.
  - unfold bind, ret. destruct K as [Ki Kt].
    destruct (updateIssue issueId updates env w) as [[issue|e] w'] eqn:U; simpl.
    + destruct (updateIssue_Normal _ _ _ _ _ _ U) as (old & Hf & _ & -> & _ & _).
      destruct (keyed_update token id (db w) r issueId old
                  (update_updated_at_column (Db.clock (db w) + Z.of_N (elapsed env))%Z
                     (apply_patch updates old))
                  (Db.clock (db w) + Z.of_N (elapsed env))%Z Q Hf)
        as (r' & Q' & [->|[-> ->]]).
      * simpl. rewrite Ki. reflexivity.
      * simpl. rewrite Kt. reflexivity.
      * exists r. split; [exact Q'|reflexivity].
      * eexists. split; [exact Q'|]. intros Kr. simpl. rewrite Kr. reflexivity.
    + destruct (updateIssue_Thrown _ _ _ _ _ _ U) as [-> _]. eauto.
  - unfold bind, ret. destruct (trackIssueByToken_effect tk n w) as [Hdb _].
    destruct (trackIssueByToken tk n w) as [[v|e] w']; simpl in *; rewrite Hdb; eauto.
Qed.

Lemma run_keyed token id (ops : list HookOp) (w : World) r :
  Forall keeps_key ops ->
  keyed token id (db w) r ->
  exists r', keyed token id (db (run ops w)) r'
             /\ (Forall keeps_reporter ops ->
                 IssueRow.reporter_id r' = IssueRow.reporter_id r).
Proof.
  revert w r. induction ops as [|op ops IH]; intros w r K Q; [eauto|].
  inversion K as [|? ? Kop Kops]; subst.
  destruct (step_keyed _ _ w op r Kop Q) as (r1 & Q1 & R1).
  destruct (IH (step w op) r1 Kops Q1) as (r' & Q' & R').
  exists r'. split; [exact Q'|].
  intros R. inversion R as [|? ? Rop Rops]; subst.
  rewrite (R' Rops). exact (R1 Rop).
Qed.

(** The row [createIssue] stored is the one row with the token, and the one
    with the key, of the issue returned; [insertData] has no [reporter_id], so
    the row has no reporter. *)
Lemma createIssue_keyed issueData rpc env w issue token w' :
  createIssue issueData rpc env w = (Normal (issue, token), w') ->
  exists r, keyed token (Issue.id issue) (db w') r
            /\ IssueRow.reporter_id r = None.
Proof.
  intros H.
  destruct (createIssue_Normal _ _ _ _ _ _ _ H)
    as (t & ds & s & _ & _ & _ & _ & Hc & Hdb & Hi & _).
  exists (new_row (insertData_of issueData token) t ds s (uuid env)
                  (Db.clock (db w) + Z.of_N (elapsed env))%Z).
  split; [|reflexivity].
  pose proof (filter_none _ _ (issues_constraints_token _ _ _ Hc)) as Ft.
  pose proof (filter_none _ _ (issues_constraints_id _ _ _ Hc)) as Fi.
  rewrite Hi. unfold keyed, Issue.id. rewrite Hdb. simpl in *.
  rewrite !List.filter_app, Ft, Fi.
  simpl. rewrite !String.eqb_refl. split; reflexivity.
Qed.

(** Looking the token of a row up finds that row, and nothing is changed. *)
Lemma keyed_track token id (w : World) r :
  keyed token id (db w) r ->
  trackIssueByToken token None w = (Normal (with_updates (db w) r), w).
Proof.
  intros [Qt _]. apply trackIssueByToken_found. unfold select_issue_by_token.
  rewrite Qt. reflexivity.
Qed.

(** The issue with the key [id] is found under its token only. *)
Lemma keyed_only_token token id (w : World) r token' n tracked w'' :
  keyed token id (db w) r ->
  trackIssueByToken token' n w = (Normal tracked, w'') ->
  Issue.id tracked = id ->
  token' = token.
Proof.
  intros Q T E. destruct (keyed_fields _ _ _ _ Q) as (_ & Et & _). destruct Q as [_ Qi].
  destruct (select_issue_by_token token' n (db w)) as [data|e] eqn:S.
  - rewrite (trackIssueByToken_found _ _ _ _ S) in T. injection T as <- <-.
    unfold select_issue_by_token in S. destruct n; [discriminate|].
    destruct (List.filter (fun o => IssueRow.anonymous_token o =? token') (Db.issues (db w)))
      as [|r2 [|? ?]] eqn:F; try discriminate.
    injection S as <-.
    assert (H2 : In r2 (List.filter (fun o => IssueRow.anonymous_token o =? token')
                                    (Db.issues (db w)))) by (rewrite F; left; reflexivity).
    apply filter_In in H2 as [Hin E2]. apply String.eqb_eq in E2.
    assert (Hi : In r2 (List.filter (fun o => IssueRow.id o =? id) (Db.issues (db w)))).
    { apply filter_In. split; [exact Hin|]. apply String.eqb_eq. exact E. }
    rewrite Qi in Hi. destruct Hi as [<-|[]]. congruence.
  - rewrite (trackIssueByToken_failed _ _ _ _ S) in T. discriminate.
Qed.

(** A patch that names [anonymous_token] replaces the token: the token that
    [createIssue] returned then finds nothing, the new one finds the issue. *)
Example updateIssue_can_replace_the_token :
  fst (trackIssueByToken Sample.token None
         (step Sample3.world4
               (UpdateIssue "issue-1" Sample3.retoken (mkWriteEnv None "unused" 1))))
  = Thrown not_single_row
  /\ exists tracked,
       fst (trackIssueByToken "token-z" None
              (step Sample3.world4
                    (UpdateIssue "issue-1" Sample3.retoken (mkWriteEnv None "unused" 1))))
       = Normal tracked
       /\ Issue.id tracked = "issue-1".
Proof.
  split; [vm_compute; reflexivity|].
  eexists. split; [vm_compute; reflexivity|reflexivity].
Qed.

(** C3, amended.  The token the database function generated is the lookup
    key of the stored row (its [anonymous_token]) and of the issue returned: no
    other stored row carries it.  It stays the key of that row, under which
    [trackIssueByToken] finds it, through every later sequence of operations of
    the hook whose patches name neither [id] nor [anonymous_token].  Neither
    [createIssue] nor any operation after it writes the table
    [anonymous_tokens]: it is exactly as it was before the call. *)
Theorem createIssue_token_is_lookup_key issueData rpc env w issue token w'
    (ops : list HookOp) :
  createIssue issueData rpc env w = (Normal (issue, token), w') ->
  Forall keeps_key ops ->
  rpc = Success token
  /\ Issue.anonymous_token issue = token
  /\ (exists r, In r (Db.issues (db (run ops w')))
                /\ IssueRow.id r = Issue.id issue
                /\ IssueRow.anonymous_token r = token
                /\ keyed token (Issue.id issue) (db (run ops w')) r
                /\ trackIssueByToken token None (run ops w')
                   = (Normal (with_updates (db (run ops w')) r), run ops w'))
  /\ (forall any : list HookOp,
        Db.anonymous_tokens (db (run any w')) = Db.anonymous_tokens (db w)).
Proof.
  intros H K.
  destruct (createIssue_Normal _ _ _ _ _ _ _ H)
    as (t & ds & s & Hr & _ & _ & _ & _ & Hdb & Hi & _).
  destruct (createIssue_keyed _ _ _ _ _ _ _ H) as (r0 & Q0 & _).
  destruct (run_keyed _ _ ops w' r0 K Q0) as (r & Q & _).
  destruct (keyed_fields _ _ _ _ Q) as (Hin & Et & Ei).
  split; [exact Hr|]. split; [rewrite Hi; reflexivity|]. split.
  - exists r. repeat split; try assumption; try apply Q. exact (keyed_track _ _ _ _ Q).
  - intros any. rewrite run_anonymous_tokens, Hdb. reflexivity.
Qed.

Lemma createIssue_token_is_lookup_key_witness :
  createIssue Sample.broken_light (Success Sample.token) Sample.env Sample.world2
  = (Normal (Sample.created, Sample.token), Sample3.world4)
  /\ Forall keeps_key Sample3.later
  /\ (exists r, In r (Db.issues (db (run Sample3.later Sample3.world4)))
                /\ IssueRow.id r = "issue-1"
                /\ IssueRow.anonymous_token r = Sample.token
                /\ trackIssueByToken Sample.token None (run Sample3.later Sample3.world4)
                   = (Normal (with_updates (db (run Sample3.later Sample3.world4)) r),
                      run Sample3.later Sample3.world4))
  /\ Db.anonymous_tokens (db (run Sample3.later Sample3.world4))
     = Db.anonymous_tokens (db Sample.world2).
Proof.
  assert (C : createIssue Sample.broken_light (Success Sample.token) Sample.env Sample.world2
              = (Normal (Sample.created, Sample.token), Sample3.world4))
    by (vm_compute; reflexivity).
  assert (K : Forall keeps_key Sample3.later) by (repeat constructor).
  split; [exact C|]. split; [exact K|].
  destruct (createIssue_token_is_lookup_key Sample.broken_light (Success Sample.token)
              Sample.env Sample.world2 Sample.created Sample.token Sample3.world4
              Sample3.later C K) as (_ & _ & (r & Hin & Ei & Et & _ & T) & A).
  split; [|exact (A Sample3.later)].
  exists r. repeat split; assumption.
Defined.

(** ** Anonymous issues *)

(** C7, as stated, fails in later states.  After the sample submission
    without reporter, a privileged session updates the issue with a patch that
    names a reporter: the token [createIssue] returned then finds the issue
    with that reporter.  With a patch that names another token, the returned
    token finds nothing. *)
Lemma updateIssue_can_name_a_reporter :
  PartialIssue.reporter_id Sample.broken_light = None
  /\ createIssue Sample.broken_light (Success Sample.token) Sample.env Sample.world2
     = (Normal (Sample.created, Sample.token), Sample3.world4)
  /\ (exists tracked,
        fst (trackIssueByToken Sample.token None
               (step Sample3.world4
                     (UpdateIssue "issue-1" Sample3.name_reporter
                                  (mkWriteEnv None "unused" 1))))
        = Normal tracked
        /\ Issue.id tracked = Issue.id Sample.created
        /\ Issue.reporter_id tracked = Some "user-7")
  /\ fst (trackIssueByToken Sample.token None
            (step Sample3.world4
                  (UpdateIssue "issue-1" Sample3.retoken (mkWriteEnv None "unused" 1))))
     = Thrown not_single_row.
Proof.
  split; [reflexivity|]. split; [vm_compute; reflexivity|]. split.
  - eexists. split; [vm_compute; reflexivity|]. split; reflexivity.
  - vm_compute. reflexivity.
Qed.

(** C7, amended.  An issue created without [reporter_id] is found by the
    token [createIssue] returned, and by no other token, and the issue found
    has no reporter: right after the creation, and after every later sequence
    of operations of the hook whose patches name none of [id],
    [anonymous_token] and [reporter_id]. *)
Theorem anonymous_issue_tracked_without_reporter issueData rpc env w issue token w'
    (ops : list HookOp) :
  PartialIssue.reporter_id issueData = None ->
  createIssue issueData rpc env w = (Normal (issue, token), w') ->
  Forall keeps_key ops ->
  Forall keeps_reporter ops ->
  (exists tracked,
     trackIssueByToken token None (run ops w') = (Normal tracked, run ops w')
     /\ Issue.id tracked = Issue.id issue
     /\ Issue.anonymous_token tracked = token
     /\ Issue.reporter_id tracked = None)
  /\ (forall token' n tracked' w'',
        trackIssueByToken token' n (run ops w') = (Normal tracked', w'') ->
        Issue.id tracked' = Issue.id issue ->
        token' = token).
Proof.
  intros A H K R.
  destruct (createIssue_keyed _ _ _ _ _ _ _ H) as (r0 & Q0 & R0).
  destruct (run_keyed _ _ ops w' r0 K Q0) as (r & Q & Rr).
  destruct (keyed_fields _ _ _ _ Q) as (Hin & Et & Ei).
  split.
  - eexists. split; [exact (keyed_track _ _ _ _ Q)|].
    split; [exact Ei|]. split; [exact Et|].
    unfold Issue.reporter_id. simpl. rewrite (Rr R). exact R0.
  - intros token' n tracked' w'' T E. exact (keyed_only_token _ _ _ _ _ _ _ _ Q T E).
Qed.

Lemma anonymous_issue_tracked_without_reporter_witness :
  PartialIssue.reporter_id Sample.broken_light = None
  /\ createIssue Sample.broken_light (Success Sample.token) Sample.env Sample.world2
     = (Normal (Sample.created, Sample.token), Sample3.world4)
  /\ Forall keeps_key Sample3.later
  /\ Forall keeps_reporter Sample3.later
  /\ (exists tracked,
        trackIssueByToken Sample.token None (run Sample3.later Sample3.world4)
        = (Normal tracked, run Sample3.later Sample3.world4)
        /\ Issue.id tracked = Issue.id Sample.created
        /\ Issue.anonymous_token tracked = Sample.token
        /\ Issue.reporter_id tracked = None)
  /\ (forall tracked' w'',
        trackIssueByToken "token-a" None (run Sample3.later Sample3.world4)
        = (Normal tracked', w'') ->
        Issue.id tracked' = Issue.id Sample.created ->
        "token-a" = Sample.token).
Proof.
  assert (C : createIssue Sample.broken_light (Success Sample.token) Sample.env Sample.world2
              = (Normal (Sample.created, Sample.token), Sample3.world4))
    by (vm_compute; reflexivity).
  assert (K : Forall keeps_key Sample3.later) by (repeat constructor).
  assert (R : Forall keeps_reporter Sample3.later) by (repeat constructor).
  split; [reflexivity|]. split; [exact C|]. split; [exact K|]. split; [exact R|].
  destruct (anonymous_issue_tracked_without_reporter Sample.broken_light
              (Success Sample.token) Sample.env Sample.world2 Sample.created Sample.token
              Sample3.world4 Sample3.later eq_refl C K R) as [T O].
  split; [exact T|]. intros tracked' w''. exact (O "token-a" None tracked' w'').
Defined.
